(** * Ticket ingestion, normalisation and trend analytics: a shallow embedding

    This development embeds the client-side pipeline of the ticket
    analytics application:

    - [src/utils/excelParser.ts]      (column mapping, date and priority
      normalisers, row parser, week assigner),
    - [src/utils/categoryNormalizer.ts] (per-service category labels),
    - [src/utils/insightsGenerator.ts]  (trend pattern analysis, insights),
    - [src/config/highlightedCategories.ts] (highlighted categories),
    - the breakdown aggregations, the weekly trend and the drill-down of
      the trend analytics dashboard,
    - the file check of the spreadsheet reader and the parse step of the
      import dialog.

    Conventions of the embedding.

    - A JavaScript string is a [string]: a sequence of bytes (the UTF-8
      encoding of the text).  Case mapping, whitespace and the character
      classes of the regular expressions are the ASCII ones; code points
      outside ASCII are carried through unchanged.
    - A JavaScript number that holds a count, a day or a millisecond time
      value is a [Z]; a number that results from a division is an exact
      rational ([Q]), with [NaN] and the infinities added where the source
      can produce them.  Rounding of IEEE doubles is not modelled.
    - What the environment provides is a parameter: the generic [Date]
      parser and the local time zone are the fields of [JsDate.Host], the
      CSV tokenizer and the clock are arguments of the row parser. *)

From Stdlib Require Import ZArith QArith Qabs Qround List String Ascii Lia Lqa Bool DecimalString DecimalPos Sorted.
From stdpp Require Import gmap strings.
Import ListNotations.

Open Scope string_scope.
Open Scope list_scope.
Open Scope Z_scope.

(* ===================================================================== *)
(** * JavaScript strings *)
(* ===================================================================== *)

Module JsString.

(** White space as [String.prototype.trim] and the regular expression
    class [\s] see it (ASCII part: TAB, LF, VT, FF, CR, SP). *)
Definition isWhitespace (c : ascii) : bool :=
  let n := nat_of_ascii c in
  ((9 <=? n)%nat && (n <=? 13)%nat) || (n =? 32)%nat.

Definition isDigit (c : ascii) : bool :=
  let n := nat_of_ascii c in (48 <=? n)%nat && (n <=? 57)%nat.

Definition isUpper (c : ascii) : bool :=
  let n := nat_of_ascii c in (65 <=? n)%nat && (n <=? 90)%nat.

Definition isLower (c : ascii) : bool :=
  let n := nat_of_ascii c in (97 <=? n)%nat && (n <=? 122)%nat.

Definition lowerChar (c : ascii) : ascii :=
  if isUpper c then ascii_of_nat (nat_of_ascii c + 32) else c.

Definition upperChar (c : ascii) : ascii :=
  if isLower c then ascii_of_nat (nat_of_ascii c - 32) else c.

Fixpoint mapChars (f : ascii -> ascii) (s : string) : string :=
  match s with
  | EmptyString => EmptyString
  | String c r => String (f c) (mapChars f r)
  end.

Definition toLowerCase (s : string) : string := mapChars lowerChar s.
Definition toUpperCase (s : string) : string := mapChars upperChar s.

Fixpoint dropWhile (p : ascii -> bool) (l : list ascii) : list ascii :=
  match l with
  | [] => []
  | c :: r => if p c then dropWhile p r else l
  end.

Definition trimChars (l : list ascii) : list ascii :=
  rev (dropWhile isWhitespace (rev (dropWhile isWhitespace l))).

(** [s.trim()] *)
Definition trim (s : string) : string :=
  string_of_list_ascii (trimChars (list_ascii_of_string s)).

(** [s.startsWith(p)] *)
Fixpoint startsWith (s p : string) : bool :=
  match p, s with
  | EmptyString, _ => true
  | String _ _, EmptyString => false
  | String a p', String b s' => Ascii.eqb a b && startsWith s' p'
  end.

(** [s.includes(sub)] *)
Fixpoint includes (s sub : string) : bool :=
  startsWith s sub ||
  match s with
  | EmptyString => false
  | String _ r => includes r sub
  end.

(** A string is falsy exactly when it is empty. *)
Definition truthy (s : string) : bool := negb (String.eqb s "").

(** [String(n)] for an integer. *)
Definition ofZ (z : Z) : string := NilZero.string_of_int (Z.to_int z).

End JsString.

(* ===================================================================== *)
(** * categoryNormalizer.ts *)
(* ===================================================================== *)

Module CategoryNormalizer.
Import JsString.

(** The service key is kept as the string the caller passes: the type
    [ServiceKey] names five of them, and the function ends with a default
    for every other value. *)
Definition normalizeCategory (service : string) (rawCategory : option string) : string :=
  let input := trim (match rawCategory with Some r => r | None => "" end) in
  if String.eqb input "" then ""
  else if String.eqb service "smart_teller" then
    let v := toLowerCase input in
    if includes v "interface freezing" || includes v "unresponsive" || includes v "slow"
    then "Interface freezing, slow and or unresponsive"
    else if includes v "core" && includes v "bank" && includes v "error"
    then "Core Banking Error"
    else if startsWith v "assign application to user"
    then "Assign application to user on Smart Teller"
    else if startsWith v "transaction failure"
    then "Transaction Failure"
    else input
  else if String.eqb service "cards" then
    let v := toLowerCase input in
    if includes v "issuance" && includes v "connect"
    then "Card Issuance Connectivity issues"
    else if includes v "error code" || (includes v "complain" && includes v "error")
    then "Card Complain with error code"
    else if includes v "card" && includes v "error"
    then "Card error"
    else if includes v "indigo"
    then "Challenges on indigo"
    else input
  else if String.eqb service "flexcube" then
    let v := toLowerCase input in
    if includes v "account maintenance" then "Account Maintenance"
    else if includes v "cheque" && includes v "book" then "Cheque Book"
    else if includes v "account" && includes v "closure" then "Account Closure"
    else if includes v "account" && includes v "class" && includes v "transfer"
    then "Account Class Transfer"
    else input
  else if String.eqb service "ibps" then
    let v := toLowerCase input in
    if includes v "account" && includes v "opening" then "Account Opening Challenges"
    else if (includes v "ao" && includes v "update")
            || (includes v "account" && includes v "opening" && includes v "update")
    then "AO update Challenges"
    else if includes v "account maintenance" then "Account Maintenance"
    else if (includes v "ft" && includes v "validation")
            || includes v "fund transfer validation"
    then "FT validation issue"
    else input
  else if String.eqb service "mfs" then
    let v := toLowerCase input in
    if includes v "virtual" && includes v "card" then "Issue creating virtual cards"
    else if includes v "onboarding" && includes v "non"
            && (includes v "recipient" || includes v "recipient")
    then "Onboarding - Non recipient OTP"
    else if includes v "onboarding" then "Onboarding related"
    else if includes v "account" && includes v "activation" then "Account Activation"
    else input
  else input.

End CategoryNormalizer.

(* ===================================================================== *)
(** * types/ticket.ts *)
(* ===================================================================== *)

Module Ticket.
Import JsString.

(** An integer-valued JavaScript number, or [NaN]. *)
Inductive jsint : Type :=
| NaN
| Int (z : Z).

(** [TicketData].  Every field but [week_number] holds a string, and the
    row parser fills them by name ([ticket[fieldName] = value]), so the
    string fields are a finite map from the field's name to its value; an
    absent key is an absent (undefined) field. *)
Record TicketData : Type := mkTicket {
  fields : gmap string string;
  week_number : option jsint
}.

Definition emptyTicket : TicketData := mkTicket ∅ None.

(** [ticket.k] *)
Definition get (t : TicketData) (k : string) : option string := fields t !! k.

(** [ticket.k = v] *)
Definition set (t : TicketData) (k v : string) : TicketData :=
  mkTicket (<[k := v]> (fields t)) (week_number t).

(** [ticket.k = undefined]: every later read of the field sees it absent. *)
Definition unset (t : TicketData) (k : string) : TicketData :=
  mkTicket (delete k (fields t)) (week_number t).

(** [!ticket.k] for a string field: absent or empty. *)
Definition missing (t : TicketData) (k : string) : bool :=
  match get t k with
  | Some s => negb (truthy s)
  | None => true
  end.

(** [ticket.k || fallback] *)
Definition getOr (t : TicketData) (k fallback : string) : string :=
  match get t k with
  | Some s => if truthy s then s else fallback
  | None => fallback
  end.

(** [TrendData] *)
Record TrendData : Type := mkTrend {
  period : string;
  count : Z
}.

(** [CategoryBreakdown] *)
Record CategoryBreakdown : Type := mkBreakdown {
  category : string;
  bcount : Z;
  percentage : Q
}.

End Ticket.

(* ===================================================================== *)
(** * Arrays and insertion-ordered maps *)
(* ===================================================================== *)

Module JsArray.

Section Sort.
Context {A : Type}.
Variable cmp : A -> A -> Z.

(** [Array.prototype.sort(cmp)] is a stable sort: [a] stays before a
    later [b] unless [cmp a b > 0]. *)
Fixpoint insertSorted (x : A) (l : list A) : list A :=
  match l with
  | [] => [x]
  | y :: r => if cmp x y <=? 0 then x :: l else y :: insertSorted x r
  end.

Definition sort (l : list A) : list A := fold_right insertSorted [] l.

End Sort.

(** [arr.slice(0, n)] *)
Definition sliceTo {A : Type} (n : nat) (l : list A) : list A := firstn n l.

(** [arr.indexOf(x)], [-1] when absent. *)
Fixpoint indexOf (l : list string) (x : string) : Z :=
  match l with
  | [] => -1
  | y :: r => if String.eqb y x then 0
              else let i := indexOf r x in if i <? 0 then -1 else i + 1
  end.

(** A [Map<string, number>]: keys in insertion order. *)
Fixpoint mapGet (m : list (string * Z)) (k : string) : option Z :=
  match m with
  | [] => None
  | (k', v) :: r => if String.eqb k' k then Some v else mapGet r k
  end.

Fixpoint mapSet (m : list (string * Z)) (k : string) (v : Z) : list (string * Z) :=
  match m with
  | [] => [(k, v)]
  | (k', v') :: r => if String.eqb k' k then (k', v) :: r else (k', v') :: mapSet r k v
  end.

(** [map.get(k) || 0] *)
Definition mapGetOr0 (m : list (string * Z)) (k : string) : Z :=
  match mapGet m k with
  | Some v => v
  | None => 0
  end.

End JsArray.

(* ===================================================================== *)
(** * The breakdown aggregations of the trend analytics dashboard *)
(* ===================================================================== *)

Module Breakdown.
Import JsString Ticket JsArray.

(** The loop every aggregation starts with:
    [data.forEach(t => m.set(key(t), (m.get(key(t)) || 0) + 1))]. *)
Definition tally (key : TicketData -> string) (data : list TicketData) : list (string * Z) :=
  fold_left (fun m t => mapSet m (key t) (mapGetOr0 m (key t) + 1)) data [].

(** [total > 0 ? (count / total) * 100 : 0] *)
Definition percentOf (cnt total : Z) : Q :=
  if 0 <? total then (inject_Z cnt / inject_Z total) * 100 else 0%Q.

(** [Array.from(m.entries()).map(([category, count]) => ({...}))] *)
Definition entries (total : Z) (m : list (string * Z)) : list CategoryBreakdown :=
  map (fun '(c, n) => mkBreakdown c n (percentOf n total)) m.

(** [(a, b) => b.count - a.count] *)
Definition byCountDesc (a b : CategoryBreakdown) : Z := bcount b - bcount a.

Definition priorityOrder : list string := ["P1"; "P2"; "P3"; "P4"; "Unassigned"].

(** [(a, b) => order.indexOf(a.category) - order.indexOf(b.category)] *)
Definition byPriorityOrder (a b : CategoryBreakdown) : Z :=
  indexOf priorityOrder (category a) - indexOf priorityOrder (category b).

Definition total (data : list TicketData) : Z := Z.of_nat (length data).

(** [ticket.field || fallback]: the value a ticket has in a dimension. *)
Definition dimension (field fallback : string) (t : TicketData) : string :=
  getOr t field fallback.

Definition calculateCategoryBreakdown (data : list TicketData) : list CategoryBreakdown :=
  sort byCountDesc
    (entries (total data) (tally (dimension "third_lvl_category" "Uncategorized") data)).

Definition calculatePriorityBreakdown (data : list TicketData) : list CategoryBreakdown :=
  sort byPriorityOrder
    (entries (total data) (tally (dimension "priority" "Unassigned") data)).

Definition calculateStatusBreakdown (data : list TicketData) : list CategoryBreakdown :=
  sort byCountDesc
    (entries (total data) (tally (dimension "status" "Unknown") data)).

Definition calculateClusterBreakdown (data : list TicketData) : list CategoryBreakdown :=
  sort byCountDesc
    (entries (total data) (tally (dimension "cluster" "Unassigned") data)).

Definition calculateAffiliateBreakdown (data : list TicketData) : list CategoryBreakdown :=
  sliceTo 15
    (sort byCountDesc
       (entries (total data) (tally (dimension "affiliate" "Unassigned") data))).

Definition calculateRecordTypeBreakdown (data : list TicketData) : list CategoryBreakdown :=
  sliceTo 10
    (sort byCountDesc
       (entries (total data) (tally (dimension "service_record_type" "Unknown") data))).

Definition calculateSupportGroupBreakdown (data : list TicketData) : list CategoryBreakdown :=
  sliceTo 10
    (sort byCountDesc
       (entries (total data) (tally (dimension "support_group" "Unassigned") data))).

Definition calculateInitiatorBreakdown (data : list TicketData) : list CategoryBreakdown :=
  sliceTo 10
    (sort byCountDesc
       (entries (total data) (tally (dimension "initiator" "Unknown") data))).




End Breakdown.

(* ===================================================================== *)
(** * Numbers that come out of a division *)
(* ===================================================================== *)

Module JsNumber.

(** The value of [a / b] and of what is computed from it: an exact
    rational, or one of the three values IEEE arithmetic adds. *)
Inductive number : Type :=
| NotANumber
| PosInf
| NegInf
| Fin (q : Q).

Definition Qgtb (a b : Q) : bool := negb (Qle_bool a b).
Definition Qltb (a b : Q) : bool := negb (Qle_bool b a).

(** [a / b] for finite [a] and [b]; a zero divisor is [+0]. *)
Definition div (a b : Q) : number :=
  if Qeq_bool b 0%Q then
    if Qeq_bool a 0%Q then NotANumber else if Qgtb a 0%Q then PosInf else NegInf
  else Fin (a / b)%Q.

(** [x * c] for a finite [c > 0]. *)
Definition scale (x : number) (c : Q) : number :=
  match x with
  | Fin q => Fin (q * c)%Q
  | other => other
  end.

(** [Math.abs(x)] *)
Definition abs (x : number) : number :=
  match x with
  | NotANumber => NotANumber
  | PosInf | NegInf => PosInf
  | Fin q => Fin (Qabs q)
  end.

(** [x > c] and [x < c] for a finite [c]; false when [x] is [NaN]. *)
Definition gt (x : number) (c : Q) : bool :=
  match x with
  | NotANumber | NegInf => false
  | PosInf => true
  | Fin q => Qgtb q c
  end.

Definition lt (x : number) (c : Q) : bool :=
  match x with
  | NotANumber | PosInf => false
  | NegInf => true
  | Fin q => Qltb q c
  end.

(** [Math.sqrt(v) / a > c] and [Math.sqrt(v) / a < c] for [v >= 0] and
    [c > 0], decided without extracting the root: for [a > 0] the
    comparison is that of [v] with [(c * a)^2]; for [a = 0] the quotient
    is [+Infinity] or [NaN]; for [a < 0] it is negative or zero. *)
Definition sqrtRatioGt (v a c : Q) : bool :=
  if Qgtb a 0%Q then Qgtb v ((c * a) * (c * a))%Q
  else if Qeq_bool a 0%Q then Qgtb v 0%Q
  else false.

Definition sqrtRatioLt (v a c : Q) : bool :=
  if Qgtb a 0%Q then Qltb v ((c * a) * (c * a))%Q
  else if Qeq_bool a 0%Q then false
  else true.

End JsNumber.

(* ===================================================================== *)
(** * insightsGenerator.ts *)
(* ===================================================================== *)

Module InsightsGenerator.
Import JsString Ticket JsNumber.

Inductive Severity : Type := critical | warning | positive | neutral.
Inductive Icon : Type := alert | warningIcon | success | info.
Inductive Momentum : Type := accelerating | decelerating | steady.

(** [TrendInsight].  The [message] field is text interpolated from the
    values that select the other fields (counts, periods, the percentage
    printed with [toFixed]); no branch reads it, and it is not part of
    the record here. *)
Record TrendInsight : Type := mkInsight {
  severity : Severity;
  title : string;
  recommendation : option string;
  icon : Icon
}.

Record TrendPattern : Type := mkPattern {
  isIncreasing : bool;
  isDecreasing : bool;
  isVolatile : bool;
  isStable : bool;
  momentum : Momentum
}.

Definition sumZ (l : list Z) : Z := fold_left Z.add l 0.
Definition sumQ (l : list Q) : Q := fold_left Qplus l 0%Q.
Definition lengthZ {A} (l : list A) : Z := Z.of_nat (length l).

(** [data.slice(1).map((item, idx) => item.count - data[idx].count)] *)
Fixpoint deltas (counts : list Z) : list Z :=
  match counts with
  | a :: ((b :: _) as r) => (b - a) :: deltas r
  | _ => []
  end.

(** [l.slice(-n)] and [l.slice(0, -n)] for [n <= l.length]. *)
Definition lastN {A} (n : nat) (l : list A) : list A := skipn (length l - n) l.
Definition dropLastN {A} (n : nat) (l : list A) : list A := firstn (length l - n) l.

(** The mean of the absolute values: [l.map(Math.abs).reduce(+, 0) / l.length]. *)
Definition meanAbs (l : list Z) : Q :=
  (inject_Z (sumZ (map Z.abs l)) / inject_Z (lengthZ l))%Q.

(** The momentum block of [analyzeTrendPattern]. *)
Definition momentumOf (changes : list Z) : Momentum :=
  if (3 <=? length changes)%nat then
    let recentChanges := lastN 3 changes in
    let earlierChanges := dropLastN 3 changes in
    let recentAvg := meanAbs recentChanges in
    let earlierAvg :=
      if (0 <? length earlierChanges)%nat then meanAbs earlierChanges else recentAvg in
    if Qgtb recentAvg (earlierAvg * (13 # 10))%Q then accelerating
    else if Qltb recentAvg (earlierAvg * (7 # 10))%Q then decelerating
    else steady
  else steady.

Definition analyzeTrendPattern (data : list TrendData) : TrendPattern :=
  if (length data <? 2)%nat then
    mkPattern false false false true steady
  else
    let counts := map count data in
    let changes := deltas counts in
    let positiveChanges := length (List.filter (fun c => 0 <? c) changes) in
    let negativeChanges := length (List.filter (fun c => c <? 0) changes) in
    let avgChange := (inject_Z (sumZ changes) / inject_Z (lengthZ changes))%Q in
    let variance :=
      (sumQ (map (fun c => (inject_Z c - avgChange) * (inject_Z c - avgChange)) changes)
       / inject_Z (lengthZ changes))%Q in
    let avgVolume := (inject_Z (sumZ counts) / inject_Z (lengthZ data))%Q in
    mkPattern
      ((negativeChanges <? positiveChanges)%nat && Qgtb avgChange 0%Q)
      ((positiveChanges <? negativeChanges)%nat && Qltb avgChange 0%Q)
      (sqrtRatioGt variance avgVolume (3 # 10)%Q)
      (sqrtRatioLt variance avgVolume (15 # 100)%Q)
      (momentumOf changes).

(** [previous.count > 0 ? (change / previous.count) * 100 : 0] *)
Definition percentChangeOf (previous latest : Z) : Q :=
  if 0 <? previous then ((inject_Z (latest - previous) / inject_Z previous) * 100)%Q else 0%Q.

Definition iconOf (s : Severity) : Icon :=
  match s with
  | critical => alert
  | warning => warningIcon
  | positive => success
  | neutral => info
  end.

Definition noTrend : TrendData := mkTrend "" 0.

(** [arr[i]] *)
Definition at_ (l : list TrendData) (i : nat) : TrendData := nth i l noTrend.

(** The [insights.push({severity, title, message, recommendation, icon})]
    that ends the latest-versus-previous block. *)
Definition pushed (chosen : Severity * string * string) : TrendInsight :=
  let '(sev, ttl, rec) := chosen in mkInsight sev ttl (Some rec) (iconOf sev).

(** The week-over-week insight of [generateWeeklyInsights]. *)
Definition weeklyChangeInsight (pattern : TrendPattern) (previous latest : TrendData)
  : TrendInsight :=
  let change := count latest - count previous in
  let percentChange := percentChangeOf (count previous) (count latest) in
  if 0 <? Z.abs change then
    let magnitude := Qabs percentChange in
    pushed
      (if 0 <? change then
        if Qgtb magnitude 50%Q then
          (critical, "🚨 Significant Spike Detected",
           "Immediate investigation recommended. Check for system outages, new deployments, or emerging issues affecting multiple users.")
        else if Qgtb magnitude 20%Q then
          (warning, "⚠️ Notable Increase in Volume",
           "Review recent changes, monitor for patterns, and consider allocating additional support resources if trend continues.")
        else
          (warning, "📈 Slight Uptick Observed",
           match momentum pattern with
           | accelerating => "Monitor closely - this could be the start of a larger trend."
           | _ => "Normal fluctuation, but keep an eye on it."
           end)
      else
        if Qgtb magnitude 50%Q then
          (positive, "🎉 Dramatic Improvement",
           "Document what went well. Consider if recent initiatives (training, fixes, process improvements) contributed to this success.")
        else if Qgtb magnitude 20%Q then
          (positive, "✅ Significant Reduction",
           "Positive trend. Identify contributing factors to sustain this improvement.")
        else
          (positive, "👍 Modest Improvement",
           "Heading in the right direction. Continue current practices."))
  else
    mkInsight neutral "➡️ Stable Volume" None info.

Definition generateWeeklyInsights (weeklyTrend : list TrendData) : list TrendInsight :=
  if (length weeklyTrend <? 2)%nat then
    [mkInsight neutral "Insufficient Data" None info]
  else
    let latest := at_ weeklyTrend (length weeklyTrend - 1) in
    let previous := at_ weeklyTrend (length weeklyTrend - 2) in
    let first := at_ weeklyTrend 0 in
    let average :=
      (inject_Z (sumZ (map count weeklyTrend)) / inject_Z (lengthZ weeklyTrend))%Q in
    let pattern := analyzeTrendPattern weeklyTrend in
    let insights := [weeklyChangeInsight pattern previous latest] in
    let insights :=
      if isVolatile pattern && (4 <=? length weeklyTrend)%nat then
        insights ++ [mkInsight warning "🎢 High Volatility Detected"
          (Some "Investigate root causes of volatility. Look for recurring patterns (e.g., weekly cycles, deployment schedules) or external factors.")
          warningIcon]
      else insights in
    let insights :=
      match momentum pattern with
      | accelerating =>
        if isIncreasing pattern then
          insights ++ [mkInsight critical "🔥 Accelerating Growth"
            (Some "Urgent action needed. This pattern often indicates a systemic issue that's compounding. Escalate to leadership.")
            alert]
        else insights
      | _ => insights
      end in
    let deviationFromAvg :=
      scale (div (inject_Z (count latest) - average)%Q average) 100%Q in
    let insights :=
      if gt (abs deviationFromAvg) 30%Q then
        insights ++
        [ if gt deviationFromAvg 0%Q then
            mkInsight warning "📊 Well Above Average"
              (Some "This is significantly higher than typical. Ensure adequate staffing and prioritize critical issues.")
              warningIcon
          else
            mkInsight positive "📊 Well Below Average"
              (Some "Enjoying a quieter period. Good time for proactive work, training, or addressing technical debt.")
              success ]
      else insights in
    let insights :=
      if (3 <=? length weeklyTrend)%nat then
        let overallChange := count latest - count first in
        let overallPercent := percentChangeOf (count first) (count latest) in
        if Qgtb (Qabs overallPercent) 25%Q then
          insights ++
          [ if 0 <? overallChange then
              mkInsight warning
                ("📉 " +:+ ofZ (lengthZ weeklyTrend) +:+ "-Week Trend: Increased")
                (Some "Long-term upward trend suggests systemic issues. Consider root cause analysis, process improvements, or capacity planning.")
                warningIcon
            else
              mkInsight positive
                ("📉 " +:+ ofZ (lengthZ weeklyTrend) +:+ "-Week Trend: Decreased")
                (Some "Sustained improvement is excellent. Document success factors and ensure they're maintained.")
                success ]
        else insights
      else insights in
    firstn 3 insights.

(** The month-over-month insight of [generateMonthlyInsights]; there is
    none when the count did not change. *)
Definition monthlyChangeInsight (previous latest : TrendData) : list TrendInsight :=
  let change := count latest - count previous in
  let percentChange := percentChangeOf (count previous) (count latest) in
  if 0 <? Z.abs change then
    let magnitude := Qabs percentChange in
    [pushed
      (if 0 <? change then
        if Qgtb magnitude 40%Q then
          (critical, "🚨 Major Monthly Increase",
           "This level of increase over a full month indicates a serious trend. Conduct comprehensive analysis and consider strategic interventions.")
        else if Qgtb magnitude 15%Q then
          (warning, "📈 Monthly Volume Rising",
           "Monitor for seasonal patterns or emerging issues. Consider capacity planning if trend persists.")
        else
          (neutral, "➡️ Slight Monthly Increase", "")
      else
        if Qgtb magnitude 40%Q then
          (positive, "🎊 Outstanding Monthly Performance",
           "Exceptional performance! Analyze what drove this success and institutionalize those practices.")
        else if Qgtb magnitude 15%Q then
          (positive, "✨ Strong Monthly Improvement",
           "Positive momentum. Identify and reinforce contributing factors.")
        else
          (positive, "👌 Modest Monthly Improvement", ""))]
  else [].

Definition generateMonthlyInsights (monthlyTrend : list TrendData) : list TrendInsight :=
  if (length monthlyTrend <? 2)%nat then
    [mkInsight neutral "Insufficient Data" None info]
  else
    let latest := at_ monthlyTrend (length monthlyTrend - 1) in
    let previous := at_ monthlyTrend (length monthlyTrend - 2) in
    let average :=
      (inject_Z (sumZ (map count monthlyTrend)) / inject_Z (lengthZ monthlyTrend))%Q in
    let pattern := analyzeTrendPattern monthlyTrend in
    let insights := monthlyChangeInsight previous latest in
    let insights :=
      if (6 <=? length monthlyTrend)%nat then
        let peakMonth :=
          fold_left (fun mx m => if count mx <? count m then m else mx)
            monthlyTrend (at_ monthlyTrend 0) in
        let lowMonth :=
          fold_left (fun mn m => if count m <? count mn then m else mn)
            monthlyTrend (at_ monthlyTrend 0) in
        let range := count peakMonth - count lowMonth in
        let rangePercent := scale (div (inject_Z range) average) 100%Q in
        if gt rangePercent 50%Q then
          insights ++ [mkInsight warning "🌊 High Seasonal Variation"
            (Some "Consider flexible staffing models or identify seasonal drivers to better manage peak periods.")
            warningIcon]
        else insights
      else insights in
    let insights :=
      if isIncreasing pattern && (3 <=? length monthlyTrend)%nat then
        insights ++ [mkInsight warning "📈 Sustained Upward Trend"
          (Some "Strategic review needed. Consider root cause analysis, process optimization, or capacity expansion.")
          warningIcon]
      else if isDecreasing pattern && (3 <=? length monthlyTrend)%nat then
        insights ++ [mkInsight positive "📉 Sustained Improvement"
          (Some "Document and share success stories. Ensure improvements are sustainable.")
          success]
      else insights in
    firstn 3 insights.

End InsightsGenerator.

(* ===================================================================== *)
(** * Regular expressions *)
(* ===================================================================== *)

Module Regex.
Import JsString.

(** The fragment of regular expressions the date patterns use.
    Repetition is greedy and only ever applied to a character class. *)
Inductive re : Type :=
| Eps
| Chr (p : ascii -> bool)
| Seq (a b : re)
| Alt (a b : re)
| Opt (a : re)
| Rep (p : ascii -> bool) (min : nat) (max : option nat)
| Grp (n : nat) (a : re).

(** Capture groups: [None] is an [undefined] group. *)
Definition captures : Type := nat -> option string.

Definition noCaptures : captures := fun _ => None.

Definition setCapture (n : nat) (s : string) (c : captures) : captures :=
  fun m => if (m =? n)%nat then Some s else c m.

(** Greedy repetition of a character class, with backtracking into the
    continuation [k]. *)
Fixpoint rep (p : ascii -> bool) (min : nat) (max : option nat)
    (s : list ascii) (k : list ascii -> option captures) : option captures :=
  let stop := match min with O => k s | S _ => None end in
  match s with
  | a :: s' =>
    if p a && negb (match max with Some O => true | _ => false end) then
      match rep p (pred min) (option_map pred max) s' k with
      | Some c => Some c
      | None => stop
      end
    else stop
  | [] => stop
  end.

(** What was consumed between [s] and its suffix [s']. *)
Definition consumed (s s' : list ascii) : string :=
  string_of_list_ascii (firstn (length s - length s') s).

(** A backtracking matcher in continuation-passing style: alternatives
    are tried left to right, optional parts are tried before they are
    skipped. *)
Fixpoint run (r : re) (s : list ascii) (c : captures)
    (k : list ascii -> captures -> option captures) : option captures :=
  match r with
  | Eps => k s c
  | Chr p =>
    match s with
    | a :: s' => if p a then k s' c else None
    | [] => None
    end
  | Seq a b => run a s c (fun s' c' => run b s' c' k)
  | Alt a b =>
    match run a s c k with
    | Some c' => Some c'
    | None => run b s c k
    end
  | Opt a =>
    match run a s c k with
    | Some c' => Some c'
    | None => k s c
    end
  | Rep p min max => rep p min max s (fun s' => k s' c)
  | Grp n a => run a s c (fun s' c' => k s' (setCapture n (consumed s s') c'))
  end.

(** [str.match(/^r$/)]: the whole string must match. *)
Definition matchWhole (r : re) (str : string) : option captures :=
  run r (list_ascii_of_string str) noCaptures
    (fun s' c => match s' with [] => Some c | _ => None end).

(** Building blocks. *)
Definition digit : ascii -> bool := isDigit.
Definition space : ascii -> bool := isWhitespace.
Definition letter : ascii -> bool := fun a => isLower a || isUpper a.
Definition oneOf (chars : string) : ascii -> bool :=
  fun a => existsb (Ascii.eqb a) (list_ascii_of_string chars).
Definition charCI (c : ascii) : ascii -> bool :=
  fun a => Ascii.eqb (lowerChar a) (lowerChar c).

Fixpoint seqs (l : list re) : re :=
  match l with
  | [] => Eps
  | [r] => r
  | r :: l' => Seq r (seqs l')
  end.

Fixpoint alts (l : list re) : re :=
  match l with
  | [] => Chr (fun _ => false)
  | [r] => r
  | r :: l' => Alt r (alts l')
  end.

(** A literal, case-insensitive (the [i] flag). *)
Definition litCI (w : string) : re :=
  seqs (map (fun c => Chr (charCI c)) (list_ascii_of_string w)).

Definition digits (min max : nat) : re := Rep digit min (Some max).

End Regex.

(* ===================================================================== *)
(** * The Date object *)
(* ===================================================================== *)

Module JsDate.
Import JsString Ticket.

(** What the host decides: how [new Date(string)] reads a string (the
    language fixes the ISO format and leaves every other string to the
    implementation; [None] is an invalid date), and the offset of local
    time from UTC in milliseconds, asked for a UTC time value
    ([isUTC = true]) or for a local one. *)
Record Host : Type := mkHost {
  Date_parse : string -> option Z;
  LocalTZA : Z -> bool -> Z
}.

Definition msPerDay : Z := 86400000.

(** Days from 1970-01-01 to the first of a month of the proleptic
    Gregorian calendar ([month] from 1 to 12). *)
Definition daysFromCivil (y month d : Z) : Z :=
  let y' := if month <=? 2 then y - 1 else y in
  let era := y' / 400 in
  let yoe := y' - era * 400 in
  let mp := (month + 9) mod 12 in
  let doy := (153 * mp + 2) / 5 + d - 1 in
  let doe := yoe * 365 + yoe / 4 - yoe / 100 + doy in
  era * 146097 + doe - 719468.

(** The inverse: year, month (1 to 12) and day of a day number. *)
Definition civilFromDays (days : Z) : Z * Z * Z :=
  let z := days + 719468 in
  let era := z / 146097 in
  let doe := z - era * 146097 in
  let yoe := (doe - doe / 1460 + doe / 36524 - doe / 146096) / 365 in
  let doy := doe - (365 * yoe + yoe / 4 - yoe / 100) in
  let mp := (5 * doy + 2) / 153 in
  let d := doy - (153 * mp + 2) / 5 + 1 in
  let m := if mp <? 10 then mp + 3 else mp - 9 in
  let y := yoe + era * 400 in
  (if m <=? 2 then y + 1 else y, m, d).

(** [MakeDay(year, month, date)] with [month] from 0; months outside
    0..11 carry into the year, days outside the month into the months. *)
Definition MakeDay (year month date : Z) : Z :=
  let ym := year + month / 12 in
  let mn := month mod 12 in
  daysFromCivil ym (mn + 1) 1 + date - 1.

Definition MakeTime (hour minute sec ms : Z) : Z :=
  hour * 3600000 + minute * 60000 + sec * 1000 + ms.

Definition MakeDate (day time : Z) : Z := day * msPerDay + time.

(** [TimeClip]: a time value is an integer within 8.64e15 ms of the epoch. *)
Definition TimeClip (t : Z) : jsint :=
  if Z.abs t <=? 8640000000000000 then Int t else NaN.

Section WithHost.
Variable host : Host.

Definition LocalTime (t : Z) : Z := t + LocalTZA host t true.
Definition UTC (t : Z) : Z := t - LocalTZA host t false.

(** [new Date(year, monthIndex, day, hours, minutes, seconds).getTime()]:
    the fields are read in local time, and a year from 0 to 99 means
    1900 + year. *)
Definition dateOfFields (year monthIndex day hours minutes seconds : Z) : jsint :=
  let yr := if (0 <=? year) && (year <=? 99) then 1900 + year else year in
  TimeClip (UTC (MakeDate (MakeDay yr monthIndex day) (MakeTime hours minutes seconds 0))).

(** [new Date(string).getTime()] *)
Definition dateOfString (s : string) : jsint :=
  match Date_parse host s with
  | Some t => TimeClip t
  | None => NaN
  end.

(** [d.setHours(0, 0, 0, 0)]: the start of the local day. *)
Definition startOfLocalDay (t : jsint) : jsint :=
  match t with
  | NaN => NaN
  | Int v => TimeClip (UTC (MakeDate (LocalTime v / msPerDay) (MakeTime 0 0 0 0)))
  end.

End WithHost.

Definition padLeft (width : nat) (s : string) : string :=
  string_of_list_ascii (repeat "0"%char (width - String.length s)) +:+ s.

(** [d.toISOString()] for a valid time value. *)
Definition toISOString (t : Z) : string :=
  let '(y, m, d) := civilFromDays (t / msPerDay) in
  let r := t mod msPerDay in
  let year :=
    if (0 <=? y) && (y <=? 9999) then padLeft 4 (ofZ y)
    else (if y <? 0 then "-" else "+") +:+ padLeft 6 (ofZ (Z.abs y)) in
  year +:+ "-" +:+ padLeft 2 (ofZ m) +:+ "-" +:+ padLeft 2 (ofZ d)
  +:+ "T" +:+ padLeft 2 (ofZ (r / 3600000))
  +:+ ":" +:+ padLeft 2 (ofZ (r / 60000 mod 60))
  +:+ ":" +:+ padLeft 2 (ofZ (r / 1000 mod 60))
  +:+ "." +:+ padLeft 3 (ofZ (r mod 1000)) +:+ "Z".

End JsDate.

(* ===================================================================== *)
(** * excelParser.ts: the column, date and priority normalisers *)
(* ===================================================================== *)

Module ExcelParser.
Import JsString Ticket JsNumber Regex JsDate.

(** [COLUMN_MAPPING] *)
Definition COLUMN_MAPPING : list (string * string) :=
  [ ("ticket id", "ticket_id");
    ("ticketid", "ticket_id");
    ("request time", "request_time");
    ("requesttime", "request_time");
    ("week", "week_label");
    ("weeks", "week_label");
    ("initiator", "initiator");
    ("affiliate", "affiliate");
    ("cluster", "cluster");
    ("clusters", "cluster");
    ("service record type", "service_record_type");
    ("servicerecordtype", "service_record_type");
    ("record type", "service_record_type");
    ("category", "category");
    ("sub-category", "sub_category");
    ("subcategory", "sub_category");
    ("sub category", "sub_category");
    ("third lvl category", "third_lvl_category");
    ("third level category", "third_lvl_category");
    ("thirdlvlcategory", "third_lvl_category");
    ("3rd lvl category", "third_lvl_category");
    ("title", "title");
    ("description", "description");
    ("name", "name");
    ("support group", "support_group");
    ("supportgroup", "support_group");
    ("process", "process");
    ("process manager", "process_manager");
    ("processmanager", "process_manager");
    ("manager", "process_manager");
    ("priority", "priority");
    ("status", "status");
    ("resolution", "resolution");
    ("root cause", "root_cause");
    ("rootcause", "root_cause");
    ("incident origin", "incident_origin");
    ("incidentorigin", "incident_origin");
    ("close time", "close_time");
    ("closetime", "close_time");
    ("sla indicator", "sla_indicator");
    ("slaindicator", "sla_indicator") ].

(** What an object literal inherits: the two lower-case names of
    [Object.prototype] are found by [COLUMN_MAPPING[name]] as well, and
    are truthy; used as a property key they read as these strings. *)
Definition inheritedKeys : list (string * string) :=
  [ ("constructor", "function Object() { [native code] }");
    ("__proto__", "[object Object]") ].

Fixpoint lookup (table : list (string * string)) (k : string) : option string :=
  match table with
  | [] => None
  | (k', v) :: r => if String.eqb k' k then Some v else lookup r k
  end.

(** [normalizeColumnName]: [COLUMN_MAPPING[normalized] || null] *)
Definition normalizeColumnName (header : string) : option string :=
  let normalized := trim (toLowerCase header) in
  match lookup COLUMN_MAPPING normalized with
  | Some field => Some field
  | None => lookup inheritedKeys normalized
  end.

(** [parseInt(s)] for a decimal numeral: leading white space, an optional
    sign, then the longest run of digits; [None] is [NaN].  (Every
    argument the parser passes is a capture of [\d] digits, so the
    hexadecimal prefix cannot occur.) *)
Fixpoint span (p : ascii -> bool) (l : list ascii) : list ascii * list ascii :=
  match l with
  | a :: r => if p a then let '(x, y) := span p r in (a :: x, y) else ([], l)
  | [] => ([], [])
  end.

Definition digitValue (a : ascii) : Z := Z.of_nat (nat_of_ascii a) - 48.

Definition digitsValue (l : list ascii) : Z :=
  fold_left (fun acc a => acc * 10 + digitValue a) l 0.

Definition signOf (l : list ascii) : bool * list ascii :=
  match l with
  | "-"%char :: r => (true, r)
  | "+"%char :: r => (false, r)
  | _ => (false, l)
  end.

Definition parseInt (s : string) : option Z :=
  let '(neg, l) := signOf (dropWhile isWhitespace (list_ascii_of_string s)) in
  let '(ds, _) := span isDigit l in
  match ds with
  | [] => None
  | _ => Some (if neg then - digitsValue ds else digitsValue ds)
  end.

(** [parseFloat(s)]: the longest prefix that is a decimal literal
    (sign, digits, fraction, exponent) or [Infinity]. *)
Definition fractionOf (l : list ascii) : list ascii * list ascii :=
  match l with
  | "."%char :: r => span isDigit r
  | _ => ([], l)
  end.

Definition exponentOf (l : list ascii) : Z :=
  match l with
  | c :: r =>
    if Ascii.eqb c "e" || Ascii.eqb c "E" then
      let '(eneg, r1) := signOf r in
      let '(ed, _) := span isDigit r1 in
      match ed with
      | [] => 0
      | _ => if eneg then - digitsValue ed else digitsValue ed
      end
    else 0
  | [] => 0
  end.

Definition parseFloat (s : string) : number :=
  let '(neg, l) := signOf (dropWhile isWhitespace (list_ascii_of_string s)) in
  if startsWith (string_of_list_ascii l) "Infinity" then
    if neg then NegInf else PosInf
  else
    let '(ip, l2) := span isDigit l in
    let '(fp, l3) := fractionOf l2 in
    match ip ++ fp with
    | [] => NotANumber
    | mantissa =>
      let v := (inject_Z (digitsValue mantissa)
                * Qpower 10 (exponentOf l3 - Z.of_nat (length fp)))%Q in
      Fin (if neg then (- v)%Q else v)
    end.

(** [parseInt(m[i])]; an [undefined] group reads as [NaN]. *)
Definition intOf (g : option string) : option Z :=
  match g with
  | Some s => parseInt s
  | None => None
  end.

(** [m[i] ? parseInt(m[i]) : 0] *)
Definition intOr0 (g : option string) : option Z :=
  match g with
  | Some s => if truthy s then parseInt s else Some 0
  | None => Some 0
  end.

(** [monthMap] *)
Definition monthMap : list (string * Z) :=
  [ ("jan", 0); ("feb", 1); ("mar", 2); ("apr", 3); ("may", 4); ("jun", 5);
    ("jul", 6); ("aug", 7); ("sep", 8); ("oct", 9); ("nov", 10); ("dec", 11) ].

Definition monthIndex (name : string) : option Z := JsArray.mapGet monthMap name.

(** [s.substring(0, 3)] *)
Definition substring3 (s : string) : string := String.substring 0 3 s.

(** The patterns of [parseDate]. *)
Definition sep : re := Chr (oneOf "/-.").
Definition spaceOrDash : re := Chr (fun a => space a || Ascii.eqb a "-").

(** [(?:\s+(\d{1,2}):(\d{2})(?::(\d{2}))?)?] *)
Definition timeOfDay (ampm : re) : re :=
  Opt (seqs [ Rep space 1 None; Grp 4 (digits 1 2); Chr (oneOf ":"); Grp 5 (digits 2 2);
              Opt (seqs [Chr (oneOf ":"); Grp 6 (digits 2 2)]); ampm ]).

(** [(?:\s*(AM|PM))?] *)
Definition amPm : re := Opt (seqs [Rep space 0 None; Grp 7 (Alt (litCI "AM") (litCI "PM"))]).

(** [(Jan|Feb|Mar|Apr|May|Jun|Jul|Aug|Sep|Oct|Nov|Dec)] *)
Definition monthName : re :=
  alts (map litCI ["Jan"; "Feb"; "Mar"; "Apr"; "May"; "Jun";
                   "Jul"; "Aug"; "Sep"; "Oct"; "Nov"; "Dec"]).

Definition ddmmyyyyRe : re :=
  seqs [ Grp 1 (digits 1 2); sep; Grp 2 (digits 1 2); sep; Grp 3 (digits 4 4);
         timeOfDay amPm ].

Definition yyyymmddRe : re :=
  seqs [ Grp 1 (digits 4 4); sep; Grp 2 (digits 1 2); sep; Grp 3 (digits 1 2);
         timeOfDay Eps ].

Definition ddmmmyyyyRe : re :=
  seqs [ Grp 1 (digits 1 2); spaceOrDash; Grp 2 monthName; Rep letter 0 None;
         spaceOrDash; Grp 3 (digits 4 4); timeOfDay Eps ].

Definition mmmddyyyyRe : re :=
  seqs [ Grp 1 monthName; Rep letter 0 None; Rep space 1 None; Grp 2 (digits 1 2);
         Opt (Chr (oneOf ",")); Rep space 1 None; Grp 3 (digits 4 4); timeOfDay Eps ].

(** [!isNaN(date.getTime())] guarding [return date.toISOString()]. *)
Definition isoOf (t : jsint) : option string :=
  match t with
  | Int v => Some (toISOString v)
  | NaN => None
  end.

(** The integral part of a number, rounding towards zero. *)
Definition truncate (x : Q) : Z := Z.quot (Qnum x) (Zpos (Qden x)).

(** [new Date(x).getTime()] for a finite number [x]. *)
Definition dateOfNumber (x : Q) : jsint :=
  if Qgtb (Qabs x) 8640000000000000%Q then NaN
  else Int (truncate x).

Section WithHost.
Variable host : Host.

(** Strategy (a): [new Date(trimmed)]. *)
Definition tryGeneric (trimmed : string) : option string :=
  isoOf (dateOfString host trimmed).

(** Strategy (b): DD/MM/YYYY, and MM/DD/YYYY when that fails and the
    first number is above 12.  A number that is [NaN] fails every
    comparison and makes every date invalid, so the block falls through. *)
Definition tryDayFirst (trimmed : string) : option string :=
  match matchWhole ddmmyyyyRe trimmed with
  | None => None
  | Some m =>
    match intOf (m 1%nat), intOf (m 2%nat), intOf (m 3%nat),
          intOr0 (m 4%nat), intOr0 (m 5%nat), intOr0 (m 6%nat) with
    | Some day, Some month, Some year, Some hour0, Some minute, Some second =>
      let hour :=
        match m 7%nat with
        | Some ampm =>
          if truthy ampm then
            let h1 :=
              if String.eqb (toUpperCase ampm) "PM" && (hour0 <? 12) then hour0 + 12
              else hour0 in
            if String.eqb (toUpperCase ampm) "AM" && (h1 =? 12) then 0 else h1
          else hour0
        | None => hour0
        end in
      let dayFirst :=
        if (day <=? 31) && (month <=? 12)
        then isoOf (dateOfFields host year (month - 1) day hour minute second)
        else None in
      match dayFirst with
      | Some iso => Some iso
      | None =>
        if (12 <? day) && (month <=? 31)
        then isoOf (dateOfFields host year (day - 1) month hour minute second)
        else None
      end
    | _, _, _, _, _, _ => None
    end
  end.

(** Strategy (c): YYYY-MM-DD. *)
Definition tryYearFirst (trimmed : string) : option string :=
  match matchWhole yyyymmddRe trimmed with
  | None => None
  | Some m =>
    match intOf (m 1%nat), intOf (m 2%nat), intOf (m 3%nat),
          intOr0 (m 4%nat), intOr0 (m 5%nat), intOr0 (m 6%nat) with
    | Some year, Some month, Some day, Some hour, Some minute, Some second =>
      isoOf (dateOfFields host year (month - 1) day hour minute second)
    | _, _, _, _, _, _ => None
    end
  end.

(** The body shared by the two named-month strategies, from the captures
    of the day, the month name and the year on. *)
Definition namedMonthDate (day : option string) (name : option string)
    (m : captures) : option string :=
  match intOf day, intOf (m 3%nat),
        intOr0 (m 4%nat), intOr0 (m 5%nat), intOr0 (m 6%nat) with
  | Some d, Some year, Some hour, Some minute, Some second =>
    match name with
    | Some n =>
      match monthIndex (substring3 (toLowerCase n)) with
      | Some month => isoOf (dateOfFields host year month d hour minute second)
      | None => None
      end
    | None => None
    end
  | _, _, _, _, _ => None
  end.

(** Strategy (d), first form: DD Mon YYYY. *)
Definition tryDayMonthName (trimmed : string) : option string :=
  match matchWhole ddmmmyyyyRe trimmed with
  | None => None
  | Some m => namedMonthDate (m 1%nat) (m 2%nat) m
  end.

(** Strategy (d), second form: Mon DD, YYYY. *)
Definition tryMonthNameDay (trimmed : string) : option string :=
  match matchWhole mmmddyyyyRe trimmed with
  | None => None
  | Some m => namedMonthDate (m 2%nat) (m 1%nat) m
  end.

(** [new Date(1899, 11, 30)] *)
Definition excelEpoch : jsint := dateOfFields host 1899 11 30 0 0 0.

(** Strategy (e): a spreadsheet serial number. *)
Definition trySerial (trimmed : string) : option string :=
  match parseFloat trimmed with
  | Fin excelSerial =>
    if Qgtb excelSerial 0 && Qltb excelSerial 100000 then
      match excelEpoch with
      | Int epoch => isoOf (dateOfNumber (inject_Z epoch + excelSerial * 86400000)%Q)
      | NaN => None
      end
    else None
  | _ => None
  end.

Definition parseDate (dateStr : string) : option string :=
  if negb (truthy dateStr) || String.eqb (trim dateStr) "" then None
  else
    let trimmed := trim dateStr in
    match tryGeneric trimmed with
    | Some iso => Some iso
    | None =>
    match tryDayFirst trimmed with
    | Some iso => Some iso
    | None =>
    match tryYearFirst trimmed with
    | Some iso => Some iso
    | None =>
    match tryDayMonthName trimmed with
    | Some iso => Some iso
    | None =>
    match tryMonthNameDay trimmed with
    | Some iso => Some iso
    | None => trySerial trimmed
    end end end end end.

End WithHost.

(** [validatePriority] *)
Fixpoint findPriorityCode (l : list ascii) : option string :=
  match l with
  | a :: ((b :: _) as r) =>
    if Ascii.eqb a "P" && oneOf "1234" b then Some (String a (String b EmptyString))
    else findPriorityCode r
  | _ => None
  end.

Definition priorityMap : list (string * string) :=
  [ ("CRITICAL", "P1"); ("HIGH", "P2"); ("MEDIUM", "P3");
    ("LOW", "P4"); ("URGENT", "P1"); ("NORMAL", "P3") ].

Definition validatePriority (priority : string) : option string :=
  if negb (truthy priority) then None
  else
    let normalized := trim (toUpperCase priority) in
    if existsb (String.eqb normalized) ["P1"; "P2"; "P3"; "P4"] then Some normalized
    else
      match findPriorityCode (list_ascii_of_string normalized) with
      | Some code => Some code
      | None =>
        match List.find (fun kv => includes normalized (fst kv)) priorityMap with
        | Some kv => Some (snd kv)
        | None => None
        end
      end.

End ExcelParser.

(* ===================================================================== *)
(** * The CSV tokenizer (papaparse), as the parser sees it *)
(* ===================================================================== *)

Module Papa.

(** One entry of [result.errors]. *)
Record ParseError : Type := mkError {
  code : string;
  row : option Z;
  message : string
}.

(** [Papa.parse(csvText, {header: true, ...})]: each row is an object
    keyed by the header of the column; [fields] is [result.meta.fields]. *)
Record ParseResult : Type := mkResult {
  data : list (gmap string string);
  errors : list ParseError;
  fields : option (list string)
}.

(** The call returns a result or throws; an exception that is an
    [Error] carries its message. *)
Inductive Outcome : Type :=
| Returned (r : ParseResult)
| Threw (errorMessage : option string).

End Papa.

(* ===================================================================== *)
(** * excelParser.ts: the row parser and the week assigner *)
(* ===================================================================== *)

Module RowParser.
Import JsString Ticket JsDate ExcelParser.

(** [ParsedData] *)
Record ParsedData : Type := mkParsed {
  data : list TicketData;
  errors : list string;
  warnings : list string
}.

(** [index + 2] in a message: the header is row 1. *)
Definition rowLabel (index : nat) : string := ofZ (Z.of_nat index + 2).

(** The [result.errors.forEach] block: field-count mismatches become
    warnings, every other tokenizer error is an error of the batch. *)
Definition reportTokenizerError (acc : list string * list string) (err : Papa.ParseError)
  : list string * list string :=
  let '(errs, warns) := acc in
  let rowNum :=
    match Papa.row err with
    | Some r => ofZ (r + 2)
    | None => "Unknown"
    end in
  if String.eqb (Papa.code err) "TooFewFields" || String.eqb (Papa.code err) "TooManyFields"
  then (errs, warns ++ ["Row " +:+ rowNum +:+ ": " +:+ Papa.message err
                          +:+ " - Row will be skipped if invalid"])
  else (errs ++ ["Row " +:+ rowNum +:+ ": " +:+ Papa.message err], warns).

(** [headers.forEach(header => { ... mappedHeaders.set(header, mapped) })] *)
Definition mapHeaders (headers : list string) : gmap string string :=
  fold_left
    (fun m header =>
       match normalizeColumnName header with
       | Some mapped => <[header := mapped]> m
       | None => m
       end)
    headers ∅.

(** [mappedHeaders.has(f) || Array.from(mappedHeaders.values()).includes(f)] *)
Definition hasColumn (mappedHeaders : gmap string string) (f : string) : bool :=
  match mappedHeaders !! f with
  | Some _ => true
  | None => existsb (fun kv => String.eqb (snd kv) f) (map_to_list mappedHeaders)
  end.

Section WithHost.
Variable host : Host.
(** The tokenizer, and the clock read while row [index] is handled. *)
Variable Papa_parse : string -> Papa.Outcome.
Variable Date_now : nat -> Z.

(** The body of the inner [headers.forEach]: one column of one row. *)
Definition applyColumn (mappedHeaders : gmap string string) (row : gmap string string)
    (index : nat) (st : TicketData * list string) (header : string)
  : TicketData * list string :=
  let '(ticket, warns) := st in
  match mappedHeaders !! header, row !! header with
  | Some fieldName, Some cell =>
    if truthy fieldName then
      let value := trim cell in
      if String.eqb value "" then st
      else if String.eqb fieldName "request_time" || String.eqb fieldName "close_time" then
        match parseDate host value with
        | Some parsedDate => (Ticket.set ticket fieldName parsedDate, warns)
        | None =>
          if String.eqb fieldName "request_time"
          then (ticket, warns ++ ["Row " +:+ rowLabel index +:+ ": Invalid date format in "
                                    +:+ header])
          else st
        end
      else if String.eqb fieldName "priority" then
        match validatePriority value with
        | Some p => (Ticket.set ticket fieldName p, warns)
        | None =>
          (Ticket.unset ticket fieldName,
           if truthy value
           then warns ++ ["Row " +:+ rowLabel index +:+ ": Invalid priority value "
                            +:+ String (ascii_of_nat 34) value
                            +:+ String (ascii_of_nat 34) ". Expected P1-P4."]
           else warns)
        end
      else (Ticket.set ticket fieldName value, warns)
    else st
  | _, _ => st
  end.

(** The body of [result.data.forEach]: one row.  Nothing in it throws
    (cells are strings, and the normalisers return for every string), so
    the [catch] around it is never entered. *)
Definition processRow (headers : list string) (mappedHeaders : gmap string string)
    (acc : list TicketData * list string) (indexed : nat * gmap string string)
  : list TicketData * list string :=
  let '(parsedTickets, warns) := acc in
  let '(index, row) := indexed in
  let '(ticket, warns) :=
    fold_left (applyColumn mappedHeaders row index) headers (emptyTicket, warns) in
  let '(ticket, warns) :=
    if missing ticket "ticket_id" then
      let surrogateId := "AUTO-" +:+ ofZ (Date_now index) +:+ "-" +:+ rowLabel index in
      (Ticket.set ticket "ticket_id" surrogateId,
       warns ++ ["Row " +:+ rowLabel index +:+ ": Missing Ticket ID, generated "
                   +:+ surrogateId])
    else (ticket, warns) in
  if missing ticket "request_time" then
    (parsedTickets,
     warns ++ ["Row " +:+ rowLabel index +:+ ": Missing Request Time, skipping row"])
  else (parsedTickets ++ [ticket], warns).

(** [arr.forEach((x, index) => ...)] sees each element with its index. *)
Definition indexed {A} (l : list A) : list (nat * A) := combine (seq 0 (length l)) l.

Definition parseExcelData (csvText : string) : ParsedData :=
  match Papa_parse csvText with
  | Papa.Threw errorMessage =>
    mkParsed []
      ["Parse error: " +:+ match errorMessage with Some m => m | None => "Unknown error" end]
      []
  | Papa.Returned result =>
    let '(errs, warns) := fold_left reportTokenizerError (Papa.errors result) ([], []) in
    let headers := match Papa.fields result with Some f => f | None => [] end in
    let mappedHeaders := mapHeaders headers in
    let errs :=
      if negb (hasColumn mappedHeaders "ticket_id")
      then errs ++ ["Missing required column: Ticket ID"] else errs in
    let errs :=
      if negb (hasColumn mappedHeaders "request_time")
      then errs ++ ["Missing required column: Request Time"] else errs in
    if (0 <? length errs)%nat then mkParsed [] errs warns
    else
      let '(parsedTickets, warns) :=
        fold_left (processRow headers mappedHeaders) (indexed (Papa.data result)) ([], warns) in
      let errs :=
        if (length parsedTickets =? 0)%nat
        then errs ++ ["No valid ticket data found in the input"] else errs in
      mkParsed parsedTickets errs warns
  end.

(** [ticket.week_label && ticket.week_label.trim() !== ''] *)
Definition hasWeekLabel (t : TicketData) : bool :=
  match get t "week_label" with
  | Some l => truthy l && negb (String.eqb (trim l) "")
  | None => false
  end.

(** [!t.week_label || t.week_label.trim() === ''] *)
Definition needsWeek (t : TicketData) : bool :=
  match get t "week_label" with
  | Some l => negb (truthy l) || String.eqb (trim l) ""
  | None => true
  end.

(** [Math.min(a, b)]: [NaN] when either is. *)
Definition minInt (a b : jsint) : jsint :=
  match a, b with
  | Int x, Int y => Int (Z.min x y)
  | _, _ => NaN
  end.

(** [Math.min(...dates)] for a non-empty array. *)
Definition minOf (dates : list jsint) : jsint :=
  match dates with
  | [] => NaN
  | d :: r => fold_left minInt r d
  end.

(** [`${n}`] *)
Definition showInt (n : jsint) : string :=
  match n with
  | Int z => ofZ z
  | NaN => "NaN"
  end.

(** [tickets.map(t => t.request_time).filter(d => d).map(d => new Date(d).getTime())] *)
Definition requestTimes (tickets : list TicketData) : list jsint :=
  map (dateOfString host)
    (List.filter truthy
       (omap (fun t => get t "request_time") tickets)).

(** The earliest request time of the batch, moved to the start of its
    local day. *)
Definition minDate (tickets : list TicketData) : jsint :=
  startOfLocalDay host (minOf (requestTimes tickets)).

(** The callback of the final [tickets.map]. *)
Definition assignWeek (anchor : jsint) (ticket : TicketData) : TicketData :=
  if hasWeekLabel ticket then ticket
  else
    match get ticket "request_time" with
    | Some request_time =>
      if truthy request_time then
        let weekNumber :=
          match dateOfString host request_time, anchor with
          | Int ticketDate, Int anchorDate =>
            let diffTime := ticketDate - anchorDate in
            let diffDays := diffTime / msPerDay in
            Int (diffDays / 7 + 1)
          | _, _ => NaN
          end in
        mkTicket (<["week_label" := "Week " +:+ showInt weekNumber]> (fields ticket))
                 (Some weekNumber)
      else ticket
    | None => ticket
    end.

Definition calculateWeekNumbers (tickets : list TicketData) : list TicketData :=
  if (length tickets =? 0)%nat then tickets
  else
    let ticketsNeedingWeeks := List.filter needsWeek tickets in
    if (length ticketsNeedingWeeks =? 0)%nat then tickets
    else if (length (requestTimes tickets) =? 0)%nat then tickets
    else map (assignWeek (minDate tickets)) tickets.

End WithHost.

End RowParser.

(* ===================================================================== *)
(** * A reference host *)
(* ===================================================================== *)

(** A host that reads the date-time string format of the language
    standard ([YYYY-MM-DDTHH:mm:ss.sssZ] and its shorter forms) and no
    other string, in a time zone at a fixed offset from UTC.  Every
    conforming implementation agrees with it on the strings it accepts. *)
Module StandardHost.
Import JsString Ticket Regex JsDate ExcelParser.

Definition isoRe : re :=
  seqs [ Grp 1 (Alt (seqs [Chr (oneOf "+-"); digits 6 6]) (digits 4 4));
         Opt (seqs [ Chr (oneOf "-"); Grp 2 (digits 2 2);
                     Opt (seqs [Chr (oneOf "-"); Grp 3 (digits 2 2)]) ]);
         Opt (seqs [ Chr (oneOf "T"); Grp 4 (digits 2 2);
                     Chr (oneOf ":"); Grp 5 (digits 2 2);
                     Opt (seqs [ Chr (oneOf ":"); Grp 6 (digits 2 2);
                                 Opt (seqs [Chr (oneOf "."); Grp 7 (digits 3 3)]) ]);
                     Opt (Grp 8 (Alt (Chr (oneOf "Z"))
                                     (seqs [ Chr (oneOf "+-"); digits 2 2;
                                             Chr (oneOf ":"); digits 2 2 ]))) ]) ].

Definition daysInMonth (y m : Z) : Z :=
  daysFromCivil (if m =? 12 then y + 1 else y) (if m =? 12 then 1 else m + 1) 1
  - daysFromCivil y m 1.

Definition intOr (dflt : Z) (g : option string) : Z :=
  match g with
  | Some s => match parseInt s with Some v => v | None => dflt end
  | None => dflt
  end.

(** The offset a zone designator stands for, in minutes. *)
Definition zoneMinutes (z : string) : Z :=
  match z with
  | String sign rest =>
    let hh := intOr 0 (Some (String.substring 0 2 rest)) in
    let mm := intOr 0 (Some (String.substring 3 2 rest)) in
    if Ascii.eqb sign "-" then - (hh * 60 + mm)
    else if Ascii.eqb sign "+" then hh * 60 + mm
    else 0
  | EmptyString => 0
  end.

Definition isoParse (offsetMs : Z) (s : string) : option Z :=
  match matchWhole isoRe s with
  | None => None
  | Some m =>
    let year := intOr 0 (m 1%nat) in
    let month := intOr 1 (m 2%nat) in
    let day := intOr 1 (m 3%nat) in
    let hour := intOr 0 (m 4%nat) in
    let minute := intOr 0 (m 5%nat) in
    let second := intOr 0 (m 6%nat) in
    let ms := intOr 0 (m 7%nat) in
    let wellFormed :=
      negb (match m 1%nat with Some y => String.eqb y "-000000" | None => true end)
      && (1 <=? month) && (month <=? 12)
      && (1 <=? day) && (day <=? daysInMonth year month)
      && (minute <=? 59) && (second <=? 59)
      && ((hour <=? 23) || ((hour =? 24) && (minute =? 0) && (second =? 0) && (ms =? 0))) in
    if wellFormed then
      let t := MakeDate (MakeDay year (month - 1) day) (MakeTime hour minute second ms) in
      let utc :=
        match m 8%nat with
        | Some z => t - zoneMinutes z * 60000
        | None =>
          match m 4%nat with
          | Some _ => t - offsetMs
          | None => t
          end
        end in
      match TimeClip utc with
      | Int v => Some v
      | NaN => None
      end
    else None
  end.

(** The host at [offsetMinutes] east of UTC. *)
Definition atOffset (offsetMinutes : Z) : Host :=
  mkHost (isoParse (offsetMinutes * 60000)) (fun _ _ => offsetMinutes * 60000).

(** UTC, and West Africa Time (UTC+01:00, no daylight saving). *)
Definition utc : Host := atOffset 0.
Definition lagos : Host := atOffset 60.

End StandardHost.

(* ===================================================================== *)
(** * config/highlightedCategories.ts *)
(* ===================================================================== *)

Module HighlightedCategories.
Import JsString.

(** [ServiceKey] *)
Inductive ServiceKey : Type := flexcube | cards | ibps | mfs | smart_teller.

(** The string a key is at run time. *)
Definition keyName (serviceKey : ServiceKey) : string :=
  match serviceKey with
  | flexcube => "flexcube"
  | cards => "cards"
  | ibps => "ibps"
  | mfs => "mfs"
  | smart_teller => "smart_teller"
  end.

Definition HIGHLIGHTED_CATEGORIES (serviceKey : ServiceKey) : list string :=
  match serviceKey with
  | flexcube =>
    [ "Account Maintenance"; "Cheque Book"; "Account Closure"; "Account Class Transfer" ]
  | cards =>
    [ "Card Complain with error code"; "Card error"; "Challenges on indigo";
      "Card Issuance Connectivity issues" ]
  | ibps =>
    [ "Account Opening Challenges"; "AO update Challenges"; "Account Maintenance";
      "FT validation issue" ]
  | mfs =>
    [ "Issue creating virtual cards"; "Onboarding related"; "Account Activation";
      "Onboarding - Non recipient OTP" ]
  | smart_teller =>
    [ "Interface freezing, slow and or unresponsive"; "Core Banking Error";
      "Assign application to user on Smart Teller"; "Transaction Failure" ]
  end.

(** [isHighlightedCategory(serviceKey, category)].  The table has a list
    for each of the five keys, so the guard [if (!highlights) return false]
    does not fire for a key of the declared type. *)
Definition isHighlightedCategory (serviceKey : ServiceKey) (category : string) : bool :=
  let highlights := HIGHLIGHTED_CATEGORIES serviceKey in
  let normalizedCategory := toLowerCase (trim category) in
  existsb (fun h => String.eqb (toLowerCase h) normalizedCategory) highlights.

(** [getHighlightedCategories(serviceKey)] *)
Definition getHighlightedCategories (serviceKey : ServiceKey) : list string :=
  HIGHLIGHTED_CATEGORIES serviceKey.

End HighlightedCategories.

(* ===================================================================== *)
(** * The file check before a spreadsheet is read *)
(* ===================================================================== *)

(** What the check reads of a [File]. *)
Module File.

Record t : Type := mk {
  size : Z;
  name : string;
  type : string
}.

End File.

Module FileReader.
Import JsString.

Inductive ErrorType : Type := sizeError | format | empty | read.

(** [FileValidationError] *)
Record FileValidationError : Type := mkError {
  type : ErrorType;
  message : string
}.

Definition ALLOWED_EXTENSIONS : list string := [".xlsx"; ".xls"; ".csv"].

Definition ALLOWED_MIME_TYPES : list string :=
  [ "application/vnd.openxmlformats-officedocument.spreadsheetml.sheet";
    "application/vnd.ms-excel";
    "text/csv";
    "application/octet-stream" ].

(** [s.endsWith(suffix)] *)
Definition endsWith (s suffix : string) : bool :=
  let n := String.length s in
  let k := String.length suffix in
  (k <=? n)%nat && String.eqb (substring (n - k) k s) suffix.

(** [validateExcelFile(file)]: [None] is the source's [null]. *)
Definition validateExcelFile (file : File.t) : option FileValidationError :=
  if File.size file =? 0 then Some (mkError empty "File is empty")
  else
    let fileName := toLowerCase (File.name file) in
    let hasValidExtension := existsb (fun ext => endsWith fileName ext) ALLOWED_EXTENSIONS in
    if negb hasValidExtension then
      Some (mkError format
              "Invalid file format. Please upload an Excel file (.xlsx, .xls) or CSV file (.csv)")
    else
      let hasValidMimeType :=
        existsb (fun m => String.eqb m (File.type file)) ALLOWED_MIME_TYPES
        || String.eqb (File.type file) "" in
      if negb hasValidMimeType && negb hasValidExtension then
        Some (mkError format ("Unsupported file type: " +:+ File.type file))
      else None.

End FileReader.

(* ===================================================================== *)
(** * The trend analytics dashboard: weekly trend and drill-down *)
(* ===================================================================== *)

Module Dashboard.
Import JsString Ticket JsArray.

(** The loop of [calculateWeeklyTrend]: tickets without a week label are
    not counted. *)
Definition weekTally (data : list TicketData) : list (string * Z) :=
  fold_left
    (fun weekMap ticket =>
       match get ticket "week_label" with
       | Some week_label =>
         if truthy week_label
         then mapSet weekMap week_label (mapGetOr0 weekMap week_label + 1)
         else weekMap
       | None => weekMap
       end)
    data [].

(** [s.replace(pattern, replacement)] for a string pattern and a
    replacement without [$]: the first occurrence is replaced. *)
Fixpoint replace (s pattern replacement : string) : string :=
  if startsWith s pattern then
    replacement +:+ substring (String.length pattern) (String.length s) s
  else
    match s with
    | EmptyString => EmptyString
    | String c r => String c (replace r pattern replacement)
    end.

Definition isHexDigit (c : ascii) : bool :=
  let n := nat_of_ascii c in
  isDigit c || ((97 <=? n)%nat && (n <=? 102)%nat) || ((65 <=? n)%nat && (n <=? 70)%nat).

Definition hexDigitValue (c : ascii) : Z :=
  let n := Z.of_nat (nat_of_ascii c) in
  if isDigit c then n - 48 else if isLower c then n - 87 else n - 55.

Definition hexDigitsValue (l : list ascii) : Z :=
  fold_left (fun acc a => acc * 16 + hexDigitValue a) l 0.

(** [parseInt(s)] without a radix: leading white space, a sign, the
    prefix [0x] or [0X] for hexadecimal, then the longest run of digits;
    [None] is [NaN]. *)
Definition parseInt (s : string) : option Z :=
  let '(neg, l) := ExcelParser.signOf (dropWhile isWhitespace (list_ascii_of_string s)) in
  let '(ds, value) :=
    match l with
    | "0"%char :: "x"%char :: r | "0"%char :: "X"%char :: r =>
      let '(ds, _) := ExcelParser.span isHexDigit r in (ds, hexDigitsValue ds)
    | _ =>
      let '(ds, _) := ExcelParser.span isDigit l in (ds, ExcelParser.digitsValue ds)
    end in
  match ds with
  | [] => None
  | _ => Some (if neg then - value else value)
  end.

(** [parseInt(period.replace('Week ', ''))] *)
Definition weekOf (t : TrendData) : option Z := parseInt (replace (period t) "Week " "").

(** [(a, b) => numA - numB].  The difference is [NaN] when either number
    is, and [sort] reads a [NaN] from its comparator as [+0]. *)
Definition byWeek (a b : TrendData) : Z :=
  match weekOf a, weekOf b with
  | Some numA, Some numB => numA - numB
  | _, _ => 0
  end.

Definition calculateWeeklyTrend (data : list TicketData) : list TrendData :=
  sort byWeek (map (fun '(period, count) => mkTrend period count) (weekTally data)).

(** The [type] of a drill-down. *)
Inductive DrillDownType : Type := ofPriority | ofCategory | ofStatus.

(** The tickets [openDrillDown(type, item)] puts in the modal. *)
Definition openDrillDown (tickets : list TicketData) (type : DrillDownType) (item : string)
  : list TicketData :=
  List.filter
    (fun ticket =>
       match type with
       | ofPriority => String.eqb (getOr ticket "priority" "Unassigned") item
       | ofCategory => String.eqb (getOr ticket "third_lvl_category" "Unknown") item
       | ofStatus => String.eqb (getOr ticket "status" "Unknown") item
       end)
    tickets.

(** The tickets [handleChartClick] puts in the modal for a point of the
    trend chart: [ticket.week_label === period]. *)
Definition handleChartClick (tickets : list TicketData) (period : string) : list TicketData :=
  List.filter
    (fun ticket =>
       match get ticket "week_label" with
       | Some week_label => String.eqb week_label period
       | None => false
       end)
    tickets.

End Dashboard.

(* ===================================================================== *)
(** * The import dialog: parse, then assign weeks *)
(* ===================================================================== *)

Module ExcelImport.
Import JsString Ticket JsDate RowParser.

Section WithHost.
Variable host : Host.
Variable Papa_parse : string -> Papa.Outcome.
Variable Date_now : nat -> Z.

(** What [handleFileSelect] and [handleParse] store as the parsed result
    of a text: the parser's result when it reports an error, and
    otherwise the same with the weeks assigned. *)
Definition parsedResult (csvText : string) : ParsedData :=
  let result := parseExcelData host Papa_parse Date_now csvText in
  if (0 <? length (errors result))%nat then result
  else
    let dataWithWeeks := calculateWeekNumbers host (data result) in
    mkParsed dataWithWeeks (errors result) (warnings result).

End WithHost.

End ExcelImport.
(* ===================================================================== *)
(** * Properties of the string helpers *)
(* ===================================================================== *)

Module JsStringFacts.
Import JsString.

Lemma dropWhile_idem p l : dropWhile p (dropWhile p l) = dropWhile p l.
Proof.
  induction l as [|c r IH]; simpl; [reflexivity|].
  destruct (p c) eqn:E; [exact IH|]. simpl. now rewrite E.
Qed.

Lemma dropWhile_head p l :
  dropWhile p l = [] \/ exists c t, dropWhile p l = c :: t /\ p c = false.
Proof.
  induction l as [|c r IH]; simpl; [now left|].
  destruct (p c) eqn:E; [exact IH|]. right. now exists c, r.
Qed.

Lemma dropWhile_snoc p l c :
  p c = false -> dropWhile p (l ++ [c]) = dropWhile p l ++ [c].
Proof.
  intros Hc. induction l as [|a r IH]; simpl.
  - now rewrite Hc.
  - destruct (p a); [exact IH | reflexivity].
Qed.

Lemma dropWhile_fixed p c t : p c = false -> dropWhile p (c :: t) = c :: t.
Proof. intros H. simpl. now rewrite H. Qed.

Lemma trim_end_cons p c t :
  p c = false ->
  rev (dropWhile p (rev (c :: t))) = c :: rev (dropWhile p (rev t)).
Proof.
  intros Hc. simpl rev at 2.
  rewrite (dropWhile_snoc _ _ _ Hc), rev_app_distr. reflexivity.
Qed.

Lemma trimChars_idem l : trimChars (trimChars l) = trimChars l.
Proof.
  unfold trimChars.
  destruct (dropWhile_head isWhitespace l) as [E | (c & t & E & Hc)];
    rewrite E; [reflexivity|].
  rewrite (trim_end_cons _ _ _ Hc), (dropWhile_fixed _ _ _ Hc).
  rewrite (trim_end_cons _ _ _ Hc), rev_involutive, dropWhile_idem.
  reflexivity.
Qed.

Lemma trim_idem s : trim (trim s) = trim s.
Proof.
  unfold trim. now rewrite list_ascii_of_string_of_list_ascii, trimChars_idem.
Qed.

End JsStringFacts.

(* ===================================================================== *)
(** * Properties of the category normaliser *)
(* ===================================================================== *)

Module CategoryNormalizerFacts.
Import JsString JsStringFacts CategoryNormalizer.

(** Every canonical label of every service is mapped to itself. *)
Example canonical_labels_are_fixed :
  Forall (fun '(svc, label) => normalizeCategory svc (Some label) = label)
    [ ("smart_teller", "Interface freezing, slow and or unresponsive");
      ("smart_teller", "Core Banking Error");
      ("smart_teller", "Assign application to user on Smart Teller");
      ("smart_teller", "Transaction Failure");
      ("cards", "Card Issuance Connectivity issues");
      ("cards", "Card Complain with error code");
      ("cards", "Card error");
      ("cards", "Challenges on indigo");
      ("flexcube", "Account Maintenance");
      ("flexcube", "Cheque Book");
      ("flexcube", "Account Closure");
      ("flexcube", "Account Class Transfer");
      ("ibps", "Account Opening Challenges");
      ("ibps", "AO update Challenges");
      ("ibps", "Account Maintenance");
      ("ibps", "FT validation issue");
      ("mfs", "Issue creating virtual cards");
      ("mfs", "Onboarding - Non recipient OTP");
      ("mfs", "Onboarding related");
      ("mfs", "Account Activation") ].
Proof. repeat constructor. Qed.

Ltac split_conditions H :=
  repeat match type of H with
         | _ = (if ?b then _ else _) => destruct b eqn:?
         end.

Ltac known_service :=
  match goal with
  | E : String.eqb ?s _ = true |- _ => apply String.eqb_eq in E; subst s
  end.

Ltac replay_conditions :=
  repeat match goal with
         | E : ?b = _ |- context [?b] => rewrite E
         end.

(** C9. [normalizeCategory] is idempotent for every service key and every
    raw value: a canonical label is mapped to itself, and an input that no
    rule matches comes back trimmed and is stable under a second pass. *)
Theorem normalizeCategory_idempotent (service : string) (raw : option string) :
  normalizeCategory service (Some (normalizeCategory service raw))
  = normalizeCategory service raw.
Proof.
  remember (normalizeCategory service raw) as r eqn:Hr.
  unfold normalizeCategory in Hr. cbv zeta in Hr.
  split_conditions Hr; subst r;
    try (try known_service; vm_compute; reflexivity);
    unfold normalizeCategory; cbv zeta; rewrite trim_idem;
    replay_conditions; reflexivity.
Qed.

End CategoryNormalizerFacts.


(* ===================================================================== *)
(** * Properties of the breakdown aggregations *)
(* ===================================================================== *)

Module BreakdownFacts.
Import JsString Ticket JsArray Breakdown.

Definition sumVals (m : list (string * Z)) : Z :=
  fold_right (fun kv acc => snd kv + acc) 0 m.

Lemma sumVals_mapSet m k :
  sumVals (mapSet m k (mapGetOr0 m k + 1)) = sumVals m + 1.
Proof.
  unfold mapGetOr0.
  induction m as [|[k' v'] r IH]; simpl; [lia|].
  destruct (String.eqb k' k); simpl; lia.
Qed.

Section Tally.
Variable key : TicketData -> string.

Lemma sumVals_tally_from data m :
  sumVals (fold_left (fun m t => mapSet m (key t) (mapGetOr0 m (key t) + 1)) data m)
  = sumVals m + Z.of_nat (length data).
Proof.
  revert m. induction data as [|t r IH]; intros m; simpl length; simpl fold_left.
  - lia.
  - rewrite IH, sumVals_mapSet. lia.
Qed.

Lemma sumVals_tally data : sumVals (tally key data) = total data.
Proof. unfold tally, total. now rewrite sumVals_tally_from. Qed.

(** Every key of the tally has been seen at least once. *)
Definition positiveVals (m : list (string * Z)) : Prop :=
  List.Forall (fun kv => 0 < snd kv) m.

Lemma positiveVals_mapSet m k :
  positiveVals m -> positiveVals (mapSet m k (mapGetOr0 m k + 1)).
Proof.
  unfold positiveVals, mapGetOr0.
  induction m as [|[k' v'] r IH]; simpl; intros H.
  - repeat constructor.
  - inversion H as [|? ? Hv Hr]; subst. simpl in Hv.
    destruct (String.eqb k' k); constructor; simpl; auto; lia.
Qed.

Lemma positiveVals_tally data : positiveVals (tally key data).
Proof.
  unfold tally.
  assert (G : forall m, positiveVals m ->
    positiveVals (fold_left (fun m t => mapSet m (key t) (mapGetOr0 m (key t) + 1)) data m)).
  { induction data as [|t r IH]; intros m Hm; simpl; auto using positiveVals_mapSet. }
  apply G. constructor.
Qed.

(** The keys of the tally are the distinct values of the dimension. *)
Lemma keys_mapSet m k v :
  map fst (mapSet m k v)
  = if in_dec string_dec k (map fst m) then map fst m else map fst m ++ [k].
Proof.
  induction m as [|[k' v'] r IH]; simpl; [reflexivity|].
  destruct (String.eqb k' k) eqn:E.
  - apply String.eqb_eq in E. subst k'. simpl.
    destruct (string_dec k k); [|congruence].
    reflexivity.
  - apply String.eqb_neq in E. simpl. rewrite IH.
    destruct (string_dec k' k); [congruence|].
    destruct (in_dec string_dec k (map fst r)); reflexivity.
Qed.

Lemma keys_tally_from data m :
  List.NoDup (map fst m) ->
  let m' := fold_left (fun m t => mapSet m (key t) (mapGetOr0 m (key t) + 1)) data m in
  List.NoDup (map fst m') /\
  (forall k, In k (map fst m') <-> In k (map fst m) \/ In k (map key data)).
Proof.
  revert m. induction data as [|t r IH]; intros m Hm; simpl.
  - split; [assumption|]. intros k. tauto.
  - set (m1 := mapSet m (key t) (mapGetOr0 m (key t) + 1)).
    assert (K : map fst m1 =
      if in_dec string_dec (key t) (map fst m) then map fst m else map fst m ++ [key t])
      by apply keys_mapSet.
    assert (Hm1 : List.NoDup (map fst m1)).
    { rewrite K. destruct (in_dec string_dec (key t) (map fst m)); [assumption|].
      apply List.NoDup_app; [assumption | repeat constructor; simpl; tauto |].
      intros x Hx [<-|[]]. contradiction. }
    destruct (IH m1 Hm1) as [Hnd Hin]. split; [exact Hnd|].
    intros k. rewrite Hin, K.
    destruct (in_dec string_dec (key t) (map fst m)) as [i|n].
    + split; [tauto|]. intros [H|[<-|H]]; tauto.
    + rewrite in_app_iff. simpl. tauto.
Qed.


End Tally.


(** An entry as [entries] builds it. *)
Definition entryOf (T : Z) (e : CategoryBreakdown) : Prop :=
  percentage e = percentOf (bcount e) T /\ 0 < bcount e.

Lemma entries_entryOf T m : positiveVals m -> List.Forall (entryOf T) (entries T m).
Proof.
  induction 1 as [|[k v] r Hv Hr IH]; simpl; constructor; auto.
  split; [reflexivity | exact Hv].
Qed.

Lemma insertSorted_perm {A} (cmp : A -> A -> Z) x l :
  Permutation.Permutation (insertSorted cmp x l) (x :: l).
Proof.
  induction l as [|y r IH]; simpl; [reflexivity|].
  destruct (cmp x y <=? 0); [reflexivity|].
  rewrite IH. apply Permutation.perm_swap.
Qed.

Lemma sort_perm {A} (cmp : A -> A -> Z) l :
  Permutation.Permutation (sort cmp l) l.
Proof.
  induction l as [|x r IH]; simpl; [reflexivity|].
  rewrite insertSorted_perm. now constructor.
Qed.






Section Aggregation.
Variable key : TicketData -> string.
Variable cmp : CategoryBreakdown -> CategoryBreakdown -> Z.

(** The shape shared by the eight aggregations. *)
Definition aggregated (data : list TicketData) : list CategoryBreakdown :=
  sort cmp (entries (total data) (tally key data)).

Lemma aggregated_entryOf data : List.Forall (entryOf (total data)) (aggregated data).
Proof.
  unfold aggregated.
  eapply Permutation.Permutation_Forall; [symmetry; apply sort_perm|].
  apply entries_entryOf, positiveVals_tally.
Qed.





Lemma Forall_firstn {A} (P : A -> Prop) n l : List.Forall P l -> List.Forall P (firstn n l).
Proof.
  intros H. revert n. induction H; intros [|n]; simpl; constructor; auto.
Qed.




End Aggregation.

(** A batch with one ticket for each of sixteen affiliates. *)
Definition sixteenAffiliates : list TicketData :=
  map (fun a => Ticket.set emptyTicket "affiliate" a)
    ["A01"; "A02"; "A03"; "A04"; "A05"; "A06"; "A07"; "A08";
     "A09"; "A10"; "A11"; "A12"; "A13"; "A14"; "A15"; "A16"].




(** Three tickets, two of them of one category. *)
Definition threeTickets : list TicketData :=
  [ Ticket.set (Ticket.set emptyTicket "third_lvl_category" "Login") "affiliate" "ENG";
    Ticket.set (Ticket.set emptyTicket "third_lvl_category" "Login") "priority" "P1";
    Ticket.set emptyTicket "status" "Closed" ].


End BreakdownFacts.

(* ===================================================================== *)
(** * Properties of the trend analyser and the insight generators *)
(* ===================================================================== *)

Module InsightsFacts.
Import JsString Ticket JsNumber InsightsGenerator.

Lemma Qgtb_true a b : Qgtb a b = true <-> (b < a)%Q.
Proof.
  unfold Qgtb. rewrite negb_true_iff, <- not_true_iff_false, Qle_bool_iff.
  split; [apply Qnot_le_lt | apply Qlt_not_le].
Qed.

Lemma Qltb_true a b : Qltb a b = true <-> (a < b)%Q.
Proof. unfold Qltb. apply (Qgtb_true b a). Qed.






(** ** The latest-versus-previous insight *)

(** How large a percent change is, against a lower and an upper threshold. *)
Inductive Band : Type := small | notable | large.

Definition bandOf (lo hi percentChange : Q) : Band :=
  if Qgtb (Qabs percentChange) hi then large
  else if Qgtb (Qabs percentChange) lo then notable
  else small.

(** Severity and wording of the weekly insight: an increase is bad news,
    a decrease good news. *)
Definition weeklyVerdict (rising : bool) (b : Band) : Severity * string :=
  match rising, b with
  | true, large => (critical, "🚨 Significant Spike Detected")
  | true, notable => (warning, "⚠️ Notable Increase in Volume")
  | true, small => (warning, "📈 Slight Uptick Observed")
  | false, large => (positive, "🎉 Dramatic Improvement")
  | false, notable => (positive, "✅ Significant Reduction")
  | false, small => (positive, "👍 Modest Improvement")
  end.

Definition monthlyVerdict (rising : bool) (b : Band) : Severity * string :=
  match rising, b with
  | true, large => (critical, "🚨 Major Monthly Increase")
  | true, notable => (warning, "📈 Monthly Volume Rising")
  | true, small => (neutral, "➡️ Slight Monthly Increase")
  | false, large => (positive, "🎊 Outstanding Monthly Performance")
  | false, notable => (positive, "✨ Strong Monthly Improvement")
  | false, small => (positive, "👌 Modest Monthly Improvement")
  end.

Definition verdict (i : TrendInsight) : Severity * string := (severity i, title i).

Definition headed (x : TrendInsight) (l : list TrendInsight) : Prop :=
  exists rest, l = x :: rest.

Lemma headed_app x l l' : headed x l -> headed x (l ++ l').
Proof. intros [r ->]. now exists (r ++ l'). Qed.

Lemma headed_firstn3 x l : headed x l -> headed x (firstn 3 l).
Proof. intros [r ->]. now exists (firstn 2 r). Qed.

Lemma headed_one x : headed x [x].
Proof. now exists []. Qed.

Lemma at_last_two earlier (previous latest : TrendData) :
  let l := earlier ++ [previous; latest] in
  (length l <? 2)%nat = false
  /\ at_ l (length l - 1) = latest
  /\ at_ l (length l - 2) = previous.
Proof.
  cbv zeta. rewrite length_app. simpl length. unfold at_. repeat split.
  - apply Nat.ltb_ge. lia.
  - rewrite app_nth2 by lia.
    replace (length earlier + 2 - 1 - length earlier)%nat with 1%nat by lia.
    reflexivity.
  - rewrite app_nth2 by lia.
    replace (length earlier + 2 - 2 - length earlier)%nat with 0%nat by lia.
    reflexivity.
Qed.

Lemma weekly_head earlier previous latest :
  headed
    (weeklyChangeInsight (analyzeTrendPattern (earlier ++ [previous; latest]))
       previous latest)
    (generateWeeklyInsights (earlier ++ [previous; latest])).
Proof.
  unfold generateWeeklyInsights.
  destruct (at_last_two earlier previous latest) as (L & E1 & E2).
  rewrite L, E1, E2. cbv zeta.
  destruct (analyzeTrendPattern _) as [inc dec vol stab mom]. simpl.
  apply headed_firstn3.
  repeat match goal with
         | |- headed _ (if ?b then _ else _) => destruct b
         | |- headed _ (match ?m with accelerating => _ | _ => _ end) => destruct m
         | |- headed _ (_ ++ _) => apply headed_app
         end; first [apply headed_one | eexists; reflexivity].
Qed.

Lemma monthly_head earlier previous latest :
  count latest <> count previous ->
  exists i, monthlyChangeInsight previous latest = [i]
    /\ headed i (generateMonthlyInsights (earlier ++ [previous; latest])).
Proof.
  intros Hne. unfold generateMonthlyInsights.
  destruct (at_last_two earlier previous latest) as (L & E1 & E2).
  rewrite L, E1, E2. cbv zeta.
  assert (M : exists i, monthlyChangeInsight previous latest = [i]).
  { unfold monthlyChangeInsight.
    assert (P : (0 <? Z.abs (count latest - count previous)) = true)
      by (apply Z.ltb_lt; lia).
    rewrite P. eexists. reflexivity. }
  destruct M as [i M]. exists i. split; [exact M|]. rewrite M.
  apply headed_firstn3.
  repeat match goal with
         | |- headed _ (if ?b then _ else _) => destruct b
         | |- headed _ (_ ++ _) => apply headed_app
         end; first [apply headed_one | eexists; reflexivity].
Qed.

Lemma weeklyChangeInsight_verdict pattern previous latest :
  count latest <> count previous ->
  verdict (weeklyChangeInsight pattern previous latest)
  = weeklyVerdict (count previous <? count latest)
      (bandOf 20 50 (percentChangeOf (count previous) (count latest)))
  /\ icon (weeklyChangeInsight pattern previous latest)
     = iconOf (severity (weeklyChangeInsight pattern previous latest)).
Proof.
  intros Hne. unfold weeklyChangeInsight, bandOf, verdict.
  assert (P : (0 <? Z.abs (count latest - count previous)) = true)
    by (apply Z.ltb_lt; lia).
  rewrite P.
  replace (0 <? count latest - count previous) with (count previous <? count latest)
    by (destruct (Z.ltb_spec (count previous) (count latest));
        destruct (Z.ltb_spec 0 (count latest - count previous)); lia || reflexivity).
  destruct (count previous <? count latest);
    destruct (Qgtb _ 50); try (split; reflexivity);
    destruct (Qgtb _ 20); split; reflexivity.
Qed.

Lemma monthlyChangeInsight_verdict previous latest i :
  monthlyChangeInsight previous latest = [i] ->
  verdict i
  = monthlyVerdict (count previous <? count latest)
      (bandOf 15 40 (percentChangeOf (count previous) (count latest)))
  /\ icon i = iconOf (severity i).
Proof.
  unfold monthlyChangeInsight, bandOf, verdict.
  destruct (0 <? Z.abs (count latest - count previous)); [|discriminate].
  replace (0 <? count latest - count previous) with (count previous <? count latest)
    by (destruct (Z.ltb_spec (count previous) (count latest));
        destruct (Z.ltb_spec 0 (count latest - count previous)); lia || reflexivity).
  destruct (count previous <? count latest);
    destruct (Qgtb _ 40); try (intros [= <-]; split; reflexivity);
    destruct (Qgtb _ 15); intros [= <-]; split; reflexivity.
Qed.

(** The series of the example: weekly counts 10 and 25. *)
Definition tenThenTwentyFive : list TrendData :=
  [mkTrend "Week 1" 10; mkTrend "Week 2" 25].

(** Monthly counts 100 and 145: a rise of 45%. *)
Definition hundredThen145 : list TrendData :=
  [mkTrend "Jan 2025" 100; mkTrend "Feb 2025" 145].

(** C3 as stated fails for the monthly entry point: a rise of 45% is not
    above 50%, so thresholds of 20% and 50% would make it a [notable]
    change (a warning, as the weekly generator reports for the same
    counts), but the monthly generator reports it as critical. *)
Lemma monthly_thresholds_are_not_20_50 :
  (percentChangeOf 100 145 == 45)%Q
  /\ bandOf 20 50 (percentChangeOf 100 145) = notable
  /\ (exists i rest, generateMonthlyInsights hundredThen145 = i :: rest
        /\ verdict i = (critical, "🚨 Major Monthly Increase")
        /\ verdict i <> monthlyVerdict true (bandOf 20 50 (percentChangeOf 100 145)))
  /\ (exists i rest, generateWeeklyInsights hundredThen145 = i :: rest
        /\ verdict i = (warning, "⚠️ Notable Increase in Volume")).
Proof.
  split; [vm_compute; reflexivity|]. split; [vm_compute; reflexivity|]. split.
  - eexists; eexists. split; [vm_compute; reflexivity|].
    split; [reflexivity | vm_compute; discriminate].
  - eexists; eexists. split; [vm_compute; reflexivity | reflexivity].
Qed.

(** C3, amended.  Whenever the latest count differs from the previous
    one, both generators put the latest-versus-previous insight first, and
    choose its severity and wording from the sign of the change (a rise
    is bad news, a fall good news) and from the magnitude of the percent
    change against two thresholds: 20% and 50% for the weekly generator,
    15% and 40% for the monthly one.  For the weekly counts 10 and 25 the
    percent change is 150 and the insight is the critical spike. *)
Theorem change_insight_thresholds :
  (forall earlier previous latest,
      count latest <> count previous ->
      exists i rest,
        generateWeeklyInsights (earlier ++ [previous; latest]) = i :: rest
        /\ verdict i
           = weeklyVerdict (count previous <? count latest)
               (bandOf 20 50 (percentChangeOf (count previous) (count latest)))
        /\ icon i = iconOf (severity i))
  /\ (forall earlier previous latest,
      count latest <> count previous ->
      exists i rest,
        generateMonthlyInsights (earlier ++ [previous; latest]) = i :: rest
        /\ verdict i
           = monthlyVerdict (count previous <? count latest)
               (bandOf 15 40 (percentChangeOf (count previous) (count latest)))
        /\ icon i = iconOf (severity i))
  /\ ((percentChangeOf 10 25 == 150)%Q
      /\ exists i rest,
           generateWeeklyInsights tenThenTwentyFive = i :: rest
           /\ verdict i = (critical, "🚨 Significant Spike Detected")).
Proof.
  split; [|split].
  - intros earlier previous latest Hne.
    destruct (weekly_head earlier previous latest) as [rest E].
    eexists; exists rest. split; [exact E|].
    now apply weeklyChangeInsight_verdict.
  - intros earlier previous latest Hne.
    destruct (monthly_head earlier previous latest Hne) as (i & M & [rest E]).
    exists i, rest. split; [exact E|].
    now apply (monthlyChangeInsight_verdict previous latest).
  - split; [vm_compute; reflexivity|].
    eexists; eexists. split; vm_compute; reflexivity.
Qed.

End InsightsFacts.

(* ===================================================================== *)
(** * Properties of the regular expression matcher *)
(* ===================================================================== *)

Module RegexFacts.
Import JsString Regex.

(** Every character, for deciding facts about character classes. *)
Definition allAscii : list ascii := map ascii_of_nat (seq 0 256).

Lemma in_allAscii a : In a allAscii.
Proof.
  unfold allAscii. rewrite <- (ascii_nat_embedding a).
  apply in_map, in_seq. pose proof (nat_ascii_bounded a). lia.
Qed.

(** [p] holds of no more characters than [q]. *)
Definition subclass (p q : ascii -> bool) : bool :=
  forallb (fun a => implb (p a) (q a)) allAscii.

Lemma subclass_spec p q a : subclass p q = true -> p a = true -> q a = true.
Proof.
  unfold subclass. rewrite forallb_forall. intros H Hp.
  specialize (H a (in_allAscii a)). now rewrite Hp in H.
Qed.

Definition countIf (q : ascii -> bool) (w : list ascii) : nat :=
  length (List.filter q w).









End RegexFacts.

(* ===================================================================== *)
(** * Properties of the date normaliser *)
(* ===================================================================== *)

Module DateFacts.
Import JsString JsStringFacts Ticket JsNumber Regex RegexFacts JsDate ExcelParser.



(** A numeral as a spreadsheet writes a serial date: digits, with at most
    one decimal point after the first digit. *)
Definition numericChar (a : ascii) : bool := isDigit a || Ascii.eqb a ".".

Definition isNumericString (s : string) : bool :=
  let l := list_ascii_of_string s in
  match l with c :: _ => isDigit c | [] => false end
  && forallb numericChar l
  && (countIf (Ascii.eqb ".") l <=? 1)%nat.

Lemma numeric_parts s :
  isNumericString s = true ->
  exists c t, list_ascii_of_string s = c :: t
    /\ isDigit c = true
    /\ forallb numericChar (c :: t) = true
    /\ (countIf (Ascii.eqb ".") (c :: t) <= 1)%nat.
Proof.
  unfold isNumericString. intros H.
  apply andb_prop in H. destruct H as [H C]. apply andb_prop in H. destruct H as [D A].
  destruct (list_ascii_of_string s) as [|c t]; [discriminate|].
  exists c, t. repeat split; auto. now apply Nat.leb_le.
Qed.

Lemma dropWhile_none p l :
  forallb (fun a => negb (p a)) l = true -> dropWhile p l = l.
Proof.
  destruct l as [|a l]; [reflexivity|]. simpl. intros H.
  apply andb_prop in H. destruct H as [H _].
  now destruct (p a).
Qed.

Lemma forallb_weaken (p q : ascii -> bool) l :
  subclass p q = true -> forallb p l = true -> forallb q l = true.
Proof.
  intros S. rewrite !forallb_forall. intros H a Ha.
  apply (subclass_spec p q a S). now apply H.
Qed.

Lemma forallb_rev (p : ascii -> bool) l : forallb p l = true -> forallb p (rev l) = true.
Proof.
  rewrite !forallb_forall. intros H a Ha. apply H. now apply in_rev.
Qed.

Lemma trim_numeric s : isNumericString s = true -> trim s = s.
Proof.
  intros H. destruct (numeric_parts s H) as (c & t & E & _ & A & _).
  assert (W : forallb (fun a => negb (isWhitespace a)) (c :: t) = true).
  { apply (forallb_weaken numericChar); [vm_compute; reflexivity | exact A]. }
  unfold trim, trimChars. rewrite E.
  rewrite (dropWhile_none _ _ W), (dropWhile_none _ _ (forallb_rev _ _ W)).
  now rewrite rev_involutive, <- E, string_of_list_ascii_of_string.
Qed.





Section WithHost.
Variable host : Host.





End WithHost.

(** ** The four spellings of 15 January 2025 *)

Definition fifteenthOfJanuary : list string :=
  ["15/01/2025"; "2025-01-15"; "15 Jan 2025"; "Jan 15, 2025"].

(** In a browser at UTC the four spellings give one instant. *)
Example same_day_at_utc :
  map (parseDate StandardHost.utc) fifteenthOfJanuary
  = [ Some "2025-01-15T00:00:00.000Z"; Some "2025-01-15T00:00:00.000Z";
      Some "2025-01-15T00:00:00.000Z"; Some "2025-01-15T00:00:00.000Z" ].
Proof. vm_compute. reflexivity. Qed.

(** C5 fails away from UTC.  In a browser one hour east of UTC the
    generic parse reads the ISO spelling as midnight UTC, and the three
    pattern strategies read the other spellings as local midnight, an hour
    earlier and on the previous day of the ISO string.  Five hours west of
    UTC the day agrees and the time of day differs, with no time given in
    the input. *)
Theorem same_day_spellings_disagree :
  map (parseDate StandardHost.lagos) fifteenthOfJanuary
  = [ Some "2025-01-14T23:00:00.000Z"; Some "2025-01-15T00:00:00.000Z";
      Some "2025-01-14T23:00:00.000Z"; Some "2025-01-14T23:00:00.000Z" ]
  /\ map (parseDate (StandardHost.atOffset (-300))) fifteenthOfJanuary
     = [ Some "2025-01-15T05:00:00.000Z"; Some "2025-01-15T00:00:00.000Z";
         Some "2025-01-15T05:00:00.000Z"; Some "2025-01-15T05:00:00.000Z" ].
Proof. split; vm_compute; reflexivity. Qed.

(** The serial number of 15 January 2025, with and without half a day. *)
Example serial_dates_at_utc :
  map (parseDate StandardHost.utc) ["45672"; "45672.5"; "0"; "100000"]
  = [ Some "2025-01-15T00:00:00.000Z"; Some "2025-01-15T12:00:00.000Z"; None; None ].
Proof. vm_compute. reflexivity. Qed.

(** Day first; month first when the first number cannot be a day but
    is above 12. *)
Example day_first_then_month_first :
  map (parseDate StandardHost.utc) ["13/01/2025"; "13/25/2025"]
  = [ Some "2025-01-13T00:00:00.000Z"; Some "2026-01-25T00:00:00.000Z" ].
Proof. vm_compute. reflexivity. Qed.

End DateFacts.

(* ===================================================================== *)
(** * Properties of the row parser *)
(* ===================================================================== *)

Module RowParserFacts.
Import JsString Ticket JsDate ExcelParser RowParser.

(** The tokenizer errors that are not field-count mismatches. *)
Definition isFieldCountMismatch (err : Papa.ParseError) : bool :=
  String.eqb (Papa.code err) "TooFewFields" || String.eqb (Papa.code err) "TooManyFields".

Definition criticalErrors (result : Papa.ParseResult) : list Papa.ParseError :=
  List.filter (fun err => negb (isFieldCountMismatch err)) (Papa.errors result).

Definition renderError (err : Papa.ParseError) : string :=
  "Row " +:+ match Papa.row err with Some r => ofZ (r + 2) | None => "Unknown" end
  +:+ ": " +:+ Papa.message err.

(** The headers of a tokenizer result, mapped to the schema. *)
Definition columnsOf (result : Papa.ParseResult) : gmap string string :=
  mapHeaders (match Papa.fields result with Some f => f | None => [] end).

(** The errors that reject a batch before any of its rows is read. *)
Definition fatalErrors (result : Papa.ParseResult) : list string :=
  map renderError (criticalErrors result)
  ++ (if hasColumn (columnsOf result) "ticket_id" then []
      else ["Missing required column: Ticket ID"])
  ++ (if hasColumn (columnsOf result) "request_time" then []
      else ["Missing required column: Request Time"]).

Lemma tokenizer_errors_from l errs warns :
  fst (fold_left reportTokenizerError l (errs, warns))
  = errs ++ map renderError (List.filter (fun err => negb (isFieldCountMismatch err)) l).
Proof.
  revert errs warns. induction l as [|e l IH]; intros errs warns; simpl.
  - now rewrite app_nil_r.
  - unfold isFieldCountMismatch at 1.
    destruct (String.eqb (Papa.code e) "TooFewFields"
              || String.eqb (Papa.code e) "TooManyFields"); simpl.
    + apply IH.
    + rewrite IH. unfold renderError at 2. now rewrite <- app_assoc.
Qed.

Lemma length_zero_nil {A} (l : list A) : (0 <? length l)%nat = false -> l = [].
Proof. destruct l; [reflexivity | discriminate]. Qed.

Section WithHost.
Variable host : Host.
Variable Papa_parse : string -> Papa.Outcome.
Variable Date_now : nat -> Z.

Local Abbreviation parse := (parseExcelData host Papa_parse Date_now).

(** The three ways a call ends. *)
Lemma parseExcelData_cases csvText :
  (exists m, Papa_parse csvText = Papa.Threw m
             /\ data (parse csvText) = [] /\ exists e, errors (parse csvText) = [e])
  \/ (exists result, Papa_parse csvText = Papa.Returned result
             /\ fatalErrors result <> []
             /\ data (parse csvText) = []
             /\ errors (parse csvText) = fatalErrors result)
  \/ (exists result, Papa_parse csvText = Papa.Returned result
             /\ fatalErrors result = []
             /\ ((data (parse csvText) <> [] /\ errors (parse csvText) = [])
                 \/ (data (parse csvText) = []
                     /\ errors (parse csvText) = ["No valid ticket data found in the input"]))).
Proof.
  unfold parseExcelData.
  destruct (Papa_parse csvText) as [result | m] eqn:P.
  2:{ left. exists m. simpl. eauto. }
  right.
  pose proof (tokenizer_errors_from (Papa.errors result) [] []) as T.
  destruct (fold_left reportTokenizerError (Papa.errors result) ([], []))
    as [errs warns] eqn:F.
  simpl in T.
  set (errs2 :=
    (if negb (hasColumn (mapHeaders match Papa.fields result with
                                     | Some f => f | None => [] end) "request_time")
     then (if negb (hasColumn (mapHeaders match Papa.fields result with
                                           | Some f => f | None => [] end) "ticket_id")
           then errs ++ ["Missing required column: Ticket ID"] else errs)
          ++ ["Missing required column: Request Time"]
     else (if negb (hasColumn (mapHeaders match Papa.fields result with
                                           | Some f => f | None => [] end) "ticket_id")
           then errs ++ ["Missing required column: Ticket ID"] else errs))).
  assert (E : errs2 = fatalErrors result).
  { unfold errs2, fatalErrors, columnsOf, criticalErrors. rewrite T.
    destruct (hasColumn _ "ticket_id"); destruct (hasColumn _ "request_time"); simpl;
      rewrite ?app_nil_r, <- ?app_assoc; reflexivity. }
  destruct (0 <? length errs2)%nat eqn:L.
  - left. exists result. split; [reflexivity|]. rewrite <- E.
    split; [intros ->; discriminate | split; reflexivity].
  - right. exists result. split; [reflexivity|].
    apply length_zero_nil in L. rewrite <- E. split; [exact L|].
    destruct (fold_left _ (indexed (Papa.data result)) ([], warns))
      as [parsedTickets warns'].
    rewrite L. destruct parsedTickets as [|t r]; simpl.
    + right. split; reflexivity.
    + left. split; [discriminate | reflexivity].
Qed.

Lemma fatalErrors_nonempty result :
  fatalErrors result <> []
  <-> (criticalErrors result <> []
       \/ hasColumn (columnsOf result) "ticket_id" = false
       \/ hasColumn (columnsOf result) "request_time" = false).
Proof.
  unfold fatalErrors.
  destruct (criticalErrors result) as [|e l];
    destruct (hasColumn (columnsOf result) "ticket_id");
    destruct (hasColumn (columnsOf result) "request_time"); simpl;
    split; intros H; try congruence; try (intuition congruence); auto.
Qed.

(** C10. A call that returns no record returns at least one error: the
    tokenizer threw, or the batch was rejected before its rows were read,
    or no row was kept and 'No valid ticket data found' is reported. *)
Theorem empty_data_has_error (csvText : string) :
  data (parseExcelData host Papa_parse Date_now csvText) = [] -> errors (parseExcelData host Papa_parse Date_now csvText) <> [].
Proof.
  intros D.
  destruct (parseExcelData_cases csvText)
    as [(m & _ & _ & e & E) | [(r & _ & F & _ & E) | (r & _ & _ & [[N _] | [_ E]])]].
  - rewrite E. discriminate.
  - now rewrite E.
  - contradiction.
  - rewrite E. discriminate.
Qed.

(** C1, amended.  A non-empty [errors] always comes with an empty [data].
    When the tokenizer returns, the batch is rejected before any row is
    read exactly when the tokenizer reported an error that is not a
    field-count mismatch, or no header maps to [ticket_id], or no header
    maps to [request_time] (one missing column is enough); [errors] then
    lists exactly these.  Otherwise the rows are read, and the only
    error left is the one reported when no row was kept. *)
Theorem batch_rejection (csvText : string) :
  (errors (parseExcelData host Papa_parse Date_now csvText) <> [] -> data (parseExcelData host Papa_parse Date_now csvText) = [])
  /\ (forall m, Papa_parse csvText = Papa.Threw m ->
        data (parseExcelData host Papa_parse Date_now csvText) = [] /\ errors (parseExcelData host Papa_parse Date_now csvText) <> [])
  /\ (forall result, Papa_parse csvText = Papa.Returned result ->
        ((criticalErrors result <> []
          \/ hasColumn (columnsOf result) "ticket_id" = false
          \/ hasColumn (columnsOf result) "request_time" = false) ->
         data (parseExcelData host Papa_parse Date_now csvText) = []
         /\ errors (parseExcelData host Papa_parse Date_now csvText) = fatalErrors result
         /\ errors (parseExcelData host Papa_parse Date_now csvText) <> [])
        /\ (~ (criticalErrors result <> []
               \/ hasColumn (columnsOf result) "ticket_id" = false
               \/ hasColumn (columnsOf result) "request_time" = false) ->
            (data (parseExcelData host Papa_parse Date_now csvText) <> [] /\ errors (parseExcelData host Papa_parse Date_now csvText) = [])
            \/ (data (parseExcelData host Papa_parse Date_now csvText) = []
                /\ errors (parseExcelData host Papa_parse Date_now csvText) = ["No valid ticket data found in the input"]))).
Proof.
  destruct (parseExcelData_cases csvText)
    as [(m & P & D & e & E) | [(r & P & F & D & E) | (r & P & F & O)]].
  - split; [intros _; exact D|]. split.
    + intros m' _. split; [exact D | rewrite E; discriminate].
    + intros result P'. congruence.
  - split; [intros _; exact D|]. split.
    + intros m P'. congruence.
    + intros result P'. assert (result = r) by congruence. subst result. split.
      * intros _. split; [exact D|]. split; [exact E | now rewrite E].
      * intros N. exfalso. apply N. now apply fatalErrors_nonempty.
  - split.
    { destruct O as [[_ E] | [D _]]; [rewrite E; congruence | intros _; exact D]. }
    split.
    + intros m P'. congruence.
    + intros result P'. assert (result = r) by congruence. subst result. split.
      * intros H. apply fatalErrors_nonempty in H. contradiction.
      * intros _. exact O.
Qed.

End WithHost.

(** ** Concrete batches *)

Definition LF : string := String (ascii_of_nat 10) EmptyString.
Definition quote : string := String (ascii_of_nat 34) EmptyString.

(** A sheet with both required columns and one well-formed row whose
    last cell opens a quote that is never closed.  The tokenizer returns
    the row and reports the quote. *)
Definition unterminatedQuoteCsv : string :=
  "Ticket ID,Request Time,Title" +:+ LF +:+ "T1,2025-01-15,"  +:+ quote +:+ "Printer".

Definition unterminatedQuoteRows : list (gmap string string) :=
  [ list_to_map [ ("Ticket ID", "T1"); ("Request Time", "2025-01-15");
                  ("Title", quote +:+ "Printer") ] ].

Definition unterminatedQuoteResult : Papa.ParseResult :=
  Papa.mkResult unterminatedQuoteRows
    [Papa.mkError "MissingQuotes" (Some 0) "Quoted field unterminated"]
    (Some ["Ticket ID"; "Request Time"; "Title"]).

(** The same rows without the tokenizer error. *)
Definition cleanResult : Papa.ParseResult :=
  Papa.mkResult unterminatedQuoteRows [] (Some ["Ticket ID"; "Request Time"; "Title"]).

(** A sheet with a ticket id column and no request time column. *)
Definition noRequestTimeResult : Papa.ParseResult :=
  Papa.mkResult
    [ list_to_map [("Ticket ID", "T1"); ("Title", "Printer")] ]
    [] (Some ["Ticket ID"; "Title"]).

Definition clock : nat -> Z := fun _ => 1736899200000.

Definition parseWith (result : Papa.ParseResult) : ParsedData :=
  parseExcelData StandardHost.utc (fun _ => Papa.Returned result) clock unterminatedQuoteCsv.

(** C1 as stated fails: missing both required columns is not the only
    condition that rejects a batch.  A tokenizer error that is not a
    field-count mismatch rejects a batch that has both columns and a row
    that parses; and so does the absence of one of the two columns. *)
Lemma batch_rejected_with_columns_present :
  (hasColumn (columnsOf unterminatedQuoteResult) "ticket_id" = true
   /\ hasColumn (columnsOf unterminatedQuoteResult) "request_time" = true
   /\ errors (parseWith unterminatedQuoteResult) = ["Row 2: Quoted field unterminated"]
   /\ data (parseWith unterminatedQuoteResult) = []
   /\ length (data (parseWith cleanResult)) = 1%nat
   /\ errors (parseWith cleanResult) = [])
  /\ (hasColumn (columnsOf noRequestTimeResult) "ticket_id" = true
      /\ errors (parseWith noRequestTimeResult) = ["Missing required column: Request Time"]
      /\ data (parseWith noRequestTimeResult) = []).
Proof.
  repeat split; vm_compute; reflexivity.
Qed.

Definition throwingTokenizer : string -> Papa.Outcome :=
  fun _ => Papa.Threw (Some "out of memory").

Lemma empty_data_has_error_witness :
  data (parseExcelData StandardHost.utc throwingTokenizer clock "") = []
  /\ errors (parseExcelData StandardHost.utc throwingTokenizer clock "") <> [].
Proof.
  split; [reflexivity|].
  apply (empty_data_has_error StandardHost.utc throwingTokenizer clock "").
  reflexivity.
Defined.

End RowParserFacts.

(* ===================================================================== *)
(** * Properties of the week assigner *)
(* ===================================================================== *)

Module WeekAssignerFacts.
Import JsString JsStringFacts Ticket JsDate ExcelParser RowParser.

Lemma needsWeek_hasWeekLabel t : needsWeek t = negb (hasWeekLabel t).
Proof.
  unfold needsWeek, hasWeekLabel. destruct (get t "week_label"); [|reflexivity].
  now rewrite negb_andb, negb_involutive.
Qed.

(** A generated label is never blank. *)
Lemma week_label_not_blank n :
  truthy ("Week " +:+ showInt n) && negb (String.eqb (trim ("Week " +:+ showInt n)) "") = true.
Proof.
  change ("Week " +:+ showInt n) with (String "W" ("eek " +:+ showInt n)).
  unfold trim. simpl list_ascii_of_string. unfold trimChars.
  rewrite (dropWhile_fixed isWhitespace "W"%char _ eq_refl).
  rewrite (trim_end_cons isWhitespace "W"%char _ eq_refl).
  reflexivity.
Qed.

Section WithHost.
Variable host : Host.

Local Abbreviation assign := (assignWeek host).

Lemma assignWeek_labelled anchor t : hasWeekLabel t = true -> assign anchor t = t.
Proof. unfold assignWeek. now intros ->. Qed.

(** What [assignWeek] does to a ticket it labels. *)
Lemma assignWeek_assigned anchor t s :
  hasWeekLabel t = false -> get t "request_time" = Some s -> truthy s = true ->
  let weekNumber :=
    match dateOfString host s, anchor with
    | Int ticketDate, Int anchorDate => Int ((ticketDate - anchorDate) / msPerDay / 7 + 1)
    | _, _ => NaN
    end in
  assign anchor t
  = mkTicket (<["week_label" := "Week " +:+ showInt weekNumber]> (fields t)) (Some weekNumber).
Proof.
  intros L R T. unfold assignWeek. rewrite L, R, T. reflexivity.
Qed.

Lemma assignWeek_cases anchor t :
  assign anchor t = t \/ hasWeekLabel (assign anchor t) = true.
Proof.
  destruct (hasWeekLabel t) eqn:L; [left; now apply assignWeek_labelled|].
  destruct (get t "request_time") as [s|] eqn:R.
  2:{ left. unfold assignWeek. now rewrite L, R. }
  destruct (truthy s) eqn:T.
  2:{ left. unfold assignWeek. now rewrite L, R, T. }
  right. rewrite (assignWeek_assigned anchor t s L R T). cbv zeta.
  unfold hasWeekLabel, get. simpl fields. rewrite lookup_insert_eq.
  apply week_label_not_blank.
Qed.

Lemma assignWeek_idem anchor t : assign anchor (assign anchor t) = assign anchor t.
Proof.
  destruct (assignWeek_cases anchor t) as [E | L].
  - now rewrite E.
  - now apply assignWeek_labelled.
Qed.

Lemma assignWeek_request_time anchor t :
  get (assign anchor t) "request_time" = get t "request_time".
Proof.
  unfold assignWeek.
  destruct (hasWeekLabel t); [reflexivity|].
  destruct (get t "request_time") as [s|] eqn:R; [|exact R].
  destruct (truthy s); [|exact R].
  unfold get. simpl fields. rewrite lookup_insert_ne by discriminate. exact R.
Qed.

Lemma requestTimes_assigned anchor tickets :
  requestTimes host (map (assign anchor) tickets) = requestTimes host tickets.
Proof.
  unfold requestTimes. f_equal. f_equal.
  induction tickets as [|t r IH]; [reflexivity|].
  simpl map. cbn [omap list_omap].
  rewrite assignWeek_request_time, IH. reflexivity.
Qed.

Lemma calculateWeekNumbers_cases tickets :
  calculateWeekNumbers host tickets = tickets
  \/ (tickets <> []
      /\ List.filter needsWeek tickets <> []
      /\ requestTimes host tickets <> []
      /\ calculateWeekNumbers host tickets = map (assign (minDate host tickets)) tickets).
Proof.
  unfold calculateWeekNumbers.
  destruct tickets as [|t r] eqn:E; [now left|]. rewrite <- E.
  replace (length tickets =? 0)%nat with false by (subst; reflexivity).
  destruct (List.filter needsWeek tickets) as [|n ns] eqn:F; [now left|].
  destruct (requestTimes host tickets) as [|d ds] eqn:D; [now left|].
  right. simpl. repeat split; subst; discriminate || reflexivity.
Qed.

(** C6, amended.  Week assignment is idempotent, and it leaves every
    record that already carries a non-blank [week_label] (one that is not
    empty once trimmed) as it was. *)
Theorem week_assignment_idempotent (tickets : list TicketData) :
  calculateWeekNumbers host (calculateWeekNumbers host tickets)
  = calculateWeekNumbers host tickets
  /\ (forall i t,
        nth_error tickets i = Some t -> hasWeekLabel t = true ->
        nth_error (calculateWeekNumbers host tickets) i = Some t).
Proof.
  destruct (calculateWeekNumbers_cases tickets) as [E | (N & F & D & E)].
  - rewrite E. split; [exact E | auto].
  - split.
    + rewrite E.
      destruct (calculateWeekNumbers_cases (map (assign (minDate host tickets)) tickets))
        as [E' | (_ & _ & _ & E')]; [exact E'|].
      rewrite E'. unfold minDate at 1. rewrite requestTimes_assigned.
      fold (minDate host tickets). rewrite map_map.
      apply map_ext. intros t. apply assignWeek_idem.
    + intros i t Hi L. rewrite E, nth_error_map, Hi. simpl.
      now rewrite assignWeek_labelled.
Qed.

Lemma calculateWeekNumbers_assigns tickets :
  List.filter needsWeek tickets <> [] ->
  requestTimes host tickets <> [] ->
  calculateWeekNumbers host tickets = map (assign (minDate host tickets)) tickets.
Proof.
  intros F D.
  destruct (calculateWeekNumbers_cases tickets) as [E | (_ & _ & _ & E)]; [|exact E].
  unfold calculateWeekNumbers in *.
  destruct tickets as [|t r] eqn:Et; [now elim F|]. rewrite <- Et in *.
  replace (length tickets =? 0)%nat with false in * by (subst; reflexivity).
  destruct (List.filter needsWeek tickets) as [|n ns]; [now elim F|].
  destruct (requestTimes host tickets) as [|d ds]; [now elim D|].
  reflexivity.
Qed.

Lemma requestTimes_nonempty tickets t s :
  In t tickets -> get t "request_time" = Some s -> truthy s = true ->
  requestTimes host tickets <> [].
Proof.
  intros Hin R T. unfold requestTimes.
  assert (M : In s (List.filter truthy (omap (fun t => get t "request_time") tickets))).
  { apply filter_In. split; [|exact T].
    induction tickets as [|a r IH]; [contradiction|].
    cbn [omap list_omap].
    destruct Hin as [-> | Hin].
    - rewrite R. now left.
    - destruct (get a "request_time"); [right|]; now apply IH. }
  intros E. apply (in_map (dateOfString host)) in M. rewrite E in M. contradiction.
Qed.

Lemma week_formula_monotone anchor t1 t2 :
  t1 <= t2 ->
  (t1 - anchor) / msPerDay / 7 + 1 <= (t2 - anchor) / msPerDay / 7 + 1
  /\ (t1 + 7 * msPerDay <= t2 ->
      (t1 - anchor) / msPerDay / 7 + 1 < (t2 - anchor) / msPerDay / 7 + 1).
Proof.
  intros H. unfold msPerDay. split.
  - apply Z.add_le_mono_r. apply Z.div_le_mono; [lia|].
    apply Z.div_le_mono; lia.
  - intros H7.
    assert (D : (t1 - anchor) / 86400000 + 7 <= (t2 - anchor) / 86400000).
    { replace ((t1 - anchor) / 86400000 + 7)
        with ((t1 - anchor + 7 * 86400000) / 86400000)
        by (rewrite Z.div_add by lia; reflexivity).
      apply Z.div_le_mono; lia. }
    assert (W : (t1 - anchor) / 86400000 / 7 + 1 <= (t2 - anchor) / 86400000 / 7).
    { replace ((t1 - anchor) / 86400000 / 7 + 1)
        with (((t1 - anchor) / 86400000 + 1 * 7) / 7)
        by (rewrite Z.div_add by lia; reflexivity).
      apply Z.div_le_mono; lia. }
    lia.
Qed.

(** C4, amended.  Within a batch whose earliest day is a valid date,
    [week_number] does not decrease with [request_time]: of two records
    that get their week assigned, the one with the later request time has
    a week number at least as large, and a strictly larger one when the
    two request times are seven days or more apart.  (Records less than a
    week apart can share a week number.) *)
Theorem week_number_monotone (tickets : list TicketData) (anchor : Z)
    (i j : nat) (r1 r2 : TicketData) (s1 s2 : string) (t1 t2 : Z) :
  minDate host tickets = Int anchor ->
  nth_error tickets i = Some r1 -> nth_error tickets j = Some r2 ->
  hasWeekLabel r1 = false -> hasWeekLabel r2 = false ->
  get r1 "request_time" = Some s1 -> get r2 "request_time" = Some s2 ->
  truthy s1 = true -> truthy s2 = true ->
  dateOfString host s1 = Int t1 -> dateOfString host s2 = Int t2 ->
  t1 <= t2 ->
  exists o1 o2 w1 w2,
    nth_error (calculateWeekNumbers host tickets) i = Some o1
    /\ nth_error (calculateWeekNumbers host tickets) j = Some o2
    /\ week_number o1 = Some (Int w1) /\ week_number o2 = Some (Int w2)
    /\ w1 = (t1 - anchor) / msPerDay / 7 + 1
    /\ w2 = (t2 - anchor) / msPerDay / 7 + 1
    /\ w1 <= w2
    /\ (t1 + 7 * msPerDay <= t2 -> w1 < w2).
Proof.
  intros A Hi Hj L1 L2 R1 R2 T1 T2 D1 D2 Hle.
  assert (E : calculateWeekNumbers host tickets = map (assign (Int anchor)) tickets).
  { rewrite <- A. apply calculateWeekNumbers_assigns.
    - intros F.
      assert (N : In r1 (List.filter needsWeek tickets)).
      { apply filter_In. split; [now apply nth_error_In with (n := i)|].
        now rewrite needsWeek_hasWeekLabel, L1. }
      rewrite F in N. contradiction.
    - apply (requestTimes_nonempty tickets r1 s1); auto.
      now apply nth_error_In with (n := i). }
  pose proof (assignWeek_assigned (Int anchor) r1 s1 L1 R1 T1) as E1.
  pose proof (assignWeek_assigned (Int anchor) r2 s2 L2 R2 T2) as E2.
  cbv zeta in E1, E2. rewrite D1 in E1. rewrite D2 in E2.
  exists (assign (Int anchor) r1), (assign (Int anchor) r2).
  exists ((t1 - anchor) / msPerDay / 7 + 1), ((t2 - anchor) / msPerDay / 7 + 1).
  rewrite E, !nth_error_map, Hi, Hj. simpl option_map.
  split; [reflexivity|]. split; [reflexivity|].
  split; [now rewrite E1|]. split; [now rewrite E2|].
  split; [reflexivity|]. split; [reflexivity|].
  now apply week_formula_monotone.
Qed.

End WithHost.

(** ** Concrete batches *)

Definition ticketAt (id requestTime : string) : TicketData :=
  Ticket.set (Ticket.set emptyTicket "ticket_id" id) "request_time" requestTime.

(** Two tickets of the same morning. *)
Definition sameMorning : list TicketData :=
  [ ticketAt "T1" "2025-01-15T10:00:00.000Z"; ticketAt "T2" "2025-01-15T11:00:00.000Z" ].

(** C4 as stated fails: the second ticket is requested an hour after the
    first, and both are in week 1. *)
Lemma later_ticket_same_week :
  dateOfString StandardHost.utc "2025-01-15T10:00:00.000Z" = Int 1736935200000
  /\ dateOfString StandardHost.utc "2025-01-15T11:00:00.000Z" = Int 1736938800000
  /\ 1736935200000 < 1736938800000
  /\ map week_number (calculateWeekNumbers StandardHost.utc sameMorning)
     = [Some (Int 1); Some (Int 1)].
Proof. repeat split; vm_compute; reflexivity. Qed.

(** Two tickets ten days apart. *)
Definition tenDaysApart : list TicketData :=
  [ ticketAt "T1" "2025-01-15T10:00:00.000Z"; ticketAt "T2" "2025-01-25T09:00:00.000Z" ].

Lemma week_number_monotone_witness :
  exists o1 o2 w1 w2,
    nth_error (calculateWeekNumbers StandardHost.utc tenDaysApart) 0 = Some o1
    /\ nth_error (calculateWeekNumbers StandardHost.utc tenDaysApart) 1 = Some o2
    /\ week_number o1 = Some (Int w1) /\ week_number o2 = Some (Int w2)
    /\ w1 = (1736935200000 - 1736899200000) / msPerDay / 7 + 1
    /\ w2 = (1737795600000 - 1736899200000) / msPerDay / 7 + 1
    /\ w1 <= w2
    /\ (1736935200000 + 7 * msPerDay <= 1737795600000 -> w1 < w2).
Proof.
  apply (week_number_monotone StandardHost.utc tenDaysApart 1736899200000 0 1
           (ticketAt "T1" "2025-01-15T10:00:00.000Z")
           (ticketAt "T2" "2025-01-25T09:00:00.000Z")
           "2025-01-15T10:00:00.000Z" "2025-01-25T09:00:00.000Z"
           1736935200000 1737795600000);
    try (vm_compute; reflexivity).
  vm_compute. discriminate.
Defined.

(** A record whose label is a single space, with a request time. *)
Definition blankLabel : list TicketData :=
  [ Ticket.set (ticketAt "T1" "2025-01-15T10:00:00.000Z") "week_label" " " ].

(** C6 as stated fails for a label that is not empty but blank: it is
    treated as missing and overwritten. *)
Lemma blank_label_is_overwritten :
  (exists t, nth_error blankLabel 0 = Some t /\ get t "week_label" = Some " "
             /\ " " <> "")
  /\ (exists t', nth_error (calculateWeekNumbers StandardHost.utc blankLabel) 0 = Some t'
                 /\ get t' "week_label" = Some "Week 1"
                 /\ week_number t' = Some (Int 1)).
Proof.
  split; eexists; repeat split; try (vm_compute; reflexivity). discriminate.
Qed.

End WeekAssignerFacts.

(* ===================================================================== *)
(** * Further properties of the normalisers *)
(* ===================================================================== *)

Module NormaliserFacts.
Import JsString JsStringFacts Ticket JsNumber Regex RegexFacts JsDate ExcelParser.

(** ** The priority normaliser *)

Definition priorityCodes : list string := ["P1"; "P2"; "P3"; "P4"].

Lemma findPriorityCode_code l code :
  findPriorityCode l = Some code -> In code priorityCodes.
Proof.
  assert (G : forall n l, (length l <= n)%nat ->
                findPriorityCode l = Some code -> In code priorityCodes).
  { induction n as [|n IH]; intros [|a [|b r]] L H; simpl in *;
      try discriminate; try lia.
    destruct (Ascii.eqb a "P" && oneOf "1234" b) eqn:E.
    - injection H as <-. apply andb_prop in E. destruct E as [Ea Eb].
      apply Ascii.eqb_eq in Ea. subst a.
      unfold oneOf in Eb. simpl in Eb.
      repeat (apply orb_prop in Eb; destruct Eb as [Eb | Eb];
              [apply Ascii.eqb_eq in Eb; subst b; simpl; tauto|]).
      discriminate.
    - apply (IH (b :: r)); [simpl; lia | exact H]. }
  apply (G (length l)). lia.
Qed.

Lemma validatePriority_in_codes p c :
  validatePriority p = Some c -> In c priorityCodes.
Proof.
  unfold validatePriority.
  destruct (negb (truthy p)); [discriminate|].
  destruct (existsb _ _) eqn:E.
  - intros [= <-]. apply existsb_exists in E. destruct E as (x & Hx & Ex).
    apply String.eqb_eq in Ex. now rewrite Ex.
  - destruct (findPriorityCode _) as [code|] eqn:F.
    + intros [= <-]. now apply findPriorityCode_code in F.
    + destruct (List.find _ priorityMap) as [kv|] eqn:M; [|discriminate].
      intros [= <-]. apply find_some in M. destruct M as [M _].
      simpl in M. repeat (destruct M as [<- | M]; [simpl; tauto|]). contradiction.
Qed.

(** X1. Whatever the label, the priority normaliser answers with one of
    the four codes or with nothing, and a code it answers with is
    accepted unchanged. *)
Theorem validatePriority_closed (p c : string) :
  validatePriority p = Some c ->
  In c priorityCodes /\ validatePriority c = Some c.
Proof.
  intros H. pose proof (validatePriority_in_codes p c H) as I.
  split; [exact I|].
  simpl in I. repeat (destruct I as [<- | I]; [reflexivity|]). contradiction.
Qed.

Lemma validatePriority_closed_witness :
  In "P2" priorityCodes /\ validatePriority "P2" = Some "P2".
Proof.
  apply (validatePriority_closed "p2 - high" "P2"). reflexivity.
Defined.

(** ** The column mapper *)

Lemma list_of_mapChars f s :
  list_ascii_of_string (mapChars f s) = map f (list_ascii_of_string s).
Proof. induction s as [|c s IH]; simpl; [reflexivity | now rewrite IH]. Qed.

Lemma mapChars_of_list f l :
  mapChars f (string_of_list_ascii l) = string_of_list_ascii (map f l).
Proof. induction l as [|c l IH]; simpl; [reflexivity | now rewrite IH]. Qed.

Lemma dropWhile_map (p : ascii -> bool) f l :
  (forall a, p (f a) = p a) ->
  dropWhile p (map f l) = map f (dropWhile p l).
Proof.
  intros H. induction l as [|a l IH]; simpl; [reflexivity|].
  rewrite H. destruct (p a); [exact IH | reflexivity].
Qed.

(** Trimming commutes with a case mapping. *)
Lemma trim_mapChars f s :
  (forall a, isWhitespace (f a) = isWhitespace a) ->
  trim (mapChars f s) = mapChars f (trim s).
Proof.
  intros H. unfold trim, trimChars.
  rewrite list_of_mapChars, mapChars_of_list.
  rewrite (dropWhile_map _ _ _ H), <- map_rev, (dropWhile_map _ _ _ H), map_rev.
  reflexivity.
Qed.

Lemma lowerChar_space a : isWhitespace (lowerChar a) = isWhitespace a.
Proof. destruct a as [[] [] [] [] [] [] [] []]; reflexivity. Qed.

Lemma lower_upper a : lowerChar (upperChar a) = lowerChar a.
Proof. destruct a as [[] [] [] [] [] [] [] []]; reflexivity. Qed.

Lemma lower_lower a : lowerChar (lowerChar a) = lowerChar a.
Proof. destruct a as [[] [] [] [] [] [] [] []]; reflexivity. Qed.

Lemma mapChars_compose f g s : mapChars f (mapChars g s) = mapChars (fun a => f (g a)) s.
Proof. induction s as [|c s IH]; simpl; [reflexivity | now rewrite IH]. Qed.

Lemma mapChars_ext f g s : (forall a, f a = g a) -> mapChars f s = mapChars g s.
Proof. intros H. induction s as [|c s IH]; simpl; [reflexivity | now rewrite H, IH]. Qed.

(** X2. A header is recognised whatever its letter case and whatever
    white space surrounds it. *)
Theorem normalizeColumnName_insensitive (header : string) :
  normalizeColumnName (toUpperCase header) = normalizeColumnName header
  /\ normalizeColumnName (toLowerCase header) = normalizeColumnName header
  /\ normalizeColumnName (trim header) = normalizeColumnName header.
Proof.
  unfold normalizeColumnName. cbv zeta. repeat split.
  - unfold toLowerCase, toUpperCase. rewrite mapChars_compose.
    now rewrite (mapChars_ext _ lowerChar header lower_upper).
  - unfold toLowerCase. rewrite mapChars_compose.
    now rewrite (mapChars_ext _ lowerChar header lower_lower).
  - unfold toLowerCase.
    rewrite <- (trim_mapChars lowerChar header lowerChar_space), trim_idem.
    reflexivity.
Qed.

(** ** The date normaliser *)

(** X4. [parseDate] ignores the white space around its argument. *)
Theorem parseDate_ignores_padding (host : Host) (dateStr : string) :
  parseDate host (trim dateStr) = parseDate host dateStr.
Proof.
  unfold parseDate. rewrite trim_idem.
  destruct (String.eqb (trim dateStr) "") eqn:E.
  - now rewrite !orb_true_r.
  - rewrite !orb_false_r.
    assert (T : truthy (trim dateStr) = true) by (unfold truthy; now rewrite E).
    assert (S : truthy dateStr = true).
    { destruct dateStr; [discriminate E | reflexivity]. }
    now rewrite T, S.
Qed.

(** A time value within the range of [Date]. *)
Definition timeValue (t : Z) : Prop := Z.abs t <= 8640000000000000.

Definition isoInstant (s : string) : Prop := exists t, timeValue t /\ s = toISOString t.

Lemma TimeClip_value x t : TimeClip x = Int t -> timeValue t.
Proof.
  unfold TimeClip, timeValue.
  destruct (Z.abs x <=? 8640000000000000) eqn:E; [|discriminate].
  intros [= <-]. now apply Z.leb_le.
Qed.

Lemma truncate_bound x :
  (Qabs x <= 8640000000000000)%Q -> timeValue (truncate x).
Proof.
  unfold timeValue, truncate. destruct x as [n d].
  unfold Qabs, Qle. simpl. intros H.
  rewrite <- Z.quot_abs by discriminate. simpl (Z.abs (Z.pos d)).
  rewrite Z.quot_div_nonneg by lia.
  apply Z.div_le_upper_bound; lia.
Qed.

Lemma dateOfNumber_value x t : dateOfNumber x = Int t -> timeValue t.
Proof.
  unfold dateOfNumber. destruct (Qgtb (Qabs x) 8640000000000000) eqn:E; [discriminate|].
  intros [= <-]. apply truncate_bound.
  unfold Qgtb in E. apply negb_false_iff in E. now apply Qle_bool_iff.
Qed.

Lemma isoOf_instant j iso :
  isoOf j = Some iso -> (forall t, j = Int t -> timeValue t) -> isoInstant iso.
Proof.
  destruct j as [|t]; [discriminate|]. intros [= <-] H.
  exists t. split; [now apply H | reflexivity].
Qed.

Section WithHost.
Variable host : Host.

Lemma isoOf_fields y m d h mi s iso :
  isoOf (dateOfFields host y m d h mi s) = Some iso -> isoInstant iso.
Proof.
  intros H. apply (isoOf_instant _ _ H). intros t. apply TimeClip_value.
Qed.

Lemma tryGeneric_instant s iso : tryGeneric host s = Some iso -> isoInstant iso.
Proof.
  unfold tryGeneric, dateOfString. intros H. apply (isoOf_instant _ _ H).
  intros t. destruct (Date_parse host s); [apply TimeClip_value | discriminate].
Qed.

Ltac split_matches :=
  repeat match goal with
         | |- context [match ?x with _ => _ end] => destruct x eqn:?
         end.

Lemma tryDayFirst_instant s iso : tryDayFirst host s = Some iso -> isoInstant iso.
Proof.
  unfold tryDayFirst.
  destruct (matchWhole ddmmyyyyRe s) as [m|]; [|discriminate].
  destruct (intOf (m 1%nat)) as [day|]; [|discriminate].
  destruct (intOf (m 2%nat)) as [month|]; [|discriminate].
  destruct (intOf (m 3%nat)) as [year|]; [|discriminate].
  destruct (intOr0 (m 4%nat)) as [hour0|]; [|discriminate].
  destruct (intOr0 (m 5%nat)) as [minute|]; [|discriminate].
  destruct (intOr0 (m 6%nat)) as [second|]; [|discriminate].
  cbv zeta.
  match goal with
  | |- context [dateOfFields host year (month - 1) day ?h minute second] => generalize h
  end.
  intros hour.
  destruct ((day <=? 31) && (month <=? 12)).
  - destruct (isoOf (dateOfFields host year (month - 1) day hour minute second)) eqn:A.
    + intros [= <-]. now apply isoOf_fields in A.
    + destruct ((12 <? day) && (month <=? 31)); [apply isoOf_fields | discriminate].
  - destruct ((12 <? day) && (month <=? 31)); [apply isoOf_fields | discriminate].
Qed.

Lemma tryYearFirst_instant s iso : tryYearFirst host s = Some iso -> isoInstant iso.
Proof.
  unfold tryYearFirst.
  destruct (matchWhole yyyymmddRe s) as [m|]; [|discriminate].
  split_matches; try discriminate. apply isoOf_fields.
Qed.

Lemma namedMonthDate_instant day name m iso :
  namedMonthDate host day name m = Some iso -> isoInstant iso.
Proof.
  unfold namedMonthDate. split_matches; try discriminate. apply isoOf_fields.
Qed.

Lemma trySerial_instant s iso : trySerial host s = Some iso -> isoInstant iso.
Proof.
  unfold trySerial.
  destruct (parseFloat s) as [| | |v]; try discriminate.
  destruct (Qgtb v 0 && Qltb v 100000); [|discriminate].
  destruct (excelEpoch host) as [|epoch]; [discriminate|].
  intros H. apply (isoOf_instant _ _ H). intros t. apply dateOfNumber_value.
Qed.

Lemma parseDate_instant (dateStr iso : string) :
  parseDate host dateStr = Some iso -> isoInstant iso.
Proof.
  unfold parseDate.
  destruct (negb (truthy dateStr) || String.eqb (trim dateStr) ""); [discriminate|].
  cbv zeta.
  destruct (tryGeneric host (trim dateStr)) eqn:A;
    [intros [= <-]; now apply tryGeneric_instant in A|].
  destruct (tryDayFirst host (trim dateStr)) eqn:B;
    [intros [= <-]; now apply tryDayFirst_instant in B|].
  destruct (tryYearFirst host (trim dateStr)) eqn:C;
    [intros [= <-]; now apply tryYearFirst_instant in C|].
  destruct (tryDayMonthName host (trim dateStr)) eqn:D.
  { intros [= <-]. unfold tryDayMonthName in D.
    destruct (matchWhole ddmmmyyyyRe (trim dateStr)); [|discriminate].
    now apply namedMonthDate_instant in D. }
  destruct (tryMonthNameDay host (trim dateStr)) eqn:E.
  { intros [= <-]. unfold tryMonthNameDay in E.
    destruct (matchWhole mmmddyyyyRe (trim dateStr)); [|discriminate].
    now apply namedMonthDate_instant in E. }
  apply trySerial_instant.
Qed.

(** X5. Whatever the host and the input, a date [parseDate] returns is
    the ISO rendering of a time value within the range of [Date]. *)
Theorem parseDate_returns_instant (dateStr iso : string) :
  parseDate host dateStr = Some iso -> isoInstant iso.
Proof. apply parseDate_instant. Qed.

End WithHost.

Lemma parseDate_returns_instant_witness :
  isoInstant "2025-01-14T23:00:00.000Z".
Proof.
  apply (parseDate_returns_instant StandardHost.lagos " 15/01/2025 ").
  vm_compute. reflexivity.
Defined.

End NormaliserFacts.

(* ===================================================================== *)
(** * Invariants of the row parser *)
(* ===================================================================== *)

Module RowInvariants.
Import JsString JsStringFacts Ticket JsDate ExcelParser RowParser NormaliserFacts.

(** ** Required columns *)

Lemma mapHeaders_from (headers : list string) (m : gmap string string) (h : string) :
  fold_left
    (fun m header =>
       match normalizeColumnName header with
       | Some mapped => <[header := mapped]> m
       | None => m
       end) headers m !! h
  = match normalizeColumnName h with
    | Some f => if in_dec string_dec h headers then Some f else m !! h
    | None => m !! h
    end.
Proof.
  revert m. induction headers as [|a r IH]; intros m; simpl fold_left.
  - simpl. now destruct (normalizeColumnName h).
  - rewrite IH. destruct (normalizeColumnName h) as [f|] eqn:N.
    + destruct (in_dec string_dec h r) as [i|n];
        destruct (in_dec string_dec h (a :: r)) as [i'|n']; try reflexivity.
      * elim n'. now right.
      * destruct i' as [-> | i']; [|contradiction].
        rewrite N. now rewrite lookup_insert_eq.
      * destruct (normalizeColumnName a) eqn:Na; [|reflexivity].
        rewrite lookup_insert_ne; [reflexivity|]. intros ->. apply n'. now left.
    + destruct (normalizeColumnName a) eqn:Na; [|reflexivity].
      rewrite lookup_insert_ne; [reflexivity|]. intros ->. congruence.
Qed.

Lemma mapHeaders_lookup headers h f :
  mapHeaders headers !! h = Some f <-> In h headers /\ normalizeColumnName h = Some f.
Proof.
  unfold mapHeaders. rewrite mapHeaders_from, lookup_empty.
  destruct (normalizeColumnName h) as [f'|].
  - destruct (in_dec string_dec h headers); split.
    + intros [= <-]. now split.
    + now intros [_ [= <-]].
    + discriminate.
    + intros [i _]. contradiction.
  - split; [discriminate | intros [_ H]; discriminate].
Qed.

Lemma hasColumn_true (m : gmap string string) f :
  hasColumn m f = true <-> is_Some (m !! f) \/ exists k, m !! k = Some f.
Proof.
  unfold hasColumn. destruct (m !! f) as [v|] eqn:E.
  - split; [intros _; left; eauto | reflexivity].
  - rewrite existsb_exists. split.
    + intros ([k v] & Hin & Hv). simpl in Hv. apply String.eqb_eq in Hv. subst v.
      right. exists k. apply elem_of_map_to_list. now apply list_elem_of_In.
    + intros [[v Hv] | [k Hk]]; [discriminate|].
      exists (k, f). split.
      * apply list_elem_of_In. now apply elem_of_map_to_list.
      * simpl. apply String.eqb_refl.
Qed.

(** X3. The check for a required column succeeds exactly when some
    header of the sheet normalises to that field; a header spelled like
    the field name itself ([ticket_id], [request_time]) does not count. *)
Theorem required_column_present (headers : list string) :
  (hasColumn (mapHeaders headers) "ticket_id" = true
   <-> exists h, In h headers /\ normalizeColumnName h = Some "ticket_id")
  /\ (hasColumn (mapHeaders headers) "request_time" = true
      <-> exists h, In h headers /\ normalizeColumnName h = Some "request_time")
  /\ normalizeColumnName "ticket_id" = None
  /\ normalizeColumnName "request_time" = None.
Proof.
  assert (G : forall f, normalizeColumnName f = None ->
    (hasColumn (mapHeaders headers) f = true
     <-> exists h, In h headers /\ normalizeColumnName h = Some f)).
  { intros f N. rewrite hasColumn_true. split.
    - intros [[v Hv] | [k Hk]].
      + apply mapHeaders_lookup in Hv. destruct Hv as [_ Hv]. congruence.
      + exists k. now apply mapHeaders_lookup.
    - intros (h & Hin & Hn). right. exists h. now apply mapHeaders_lookup. }
  split; [apply G; reflexivity|]. split; [apply G; reflexivity|].
  split; reflexivity.
Qed.

(** ** Records *)

Lemma get_set t k v k' :
  get (Ticket.set t k v) k' = if String.eqb k k' then Some v else get t k'.
Proof.
  unfold get, Ticket.set. simpl.
  destruct (String.eqb k k') eqn:E.
  - apply String.eqb_eq in E. subst. apply lookup_insert_eq.
  - apply String.eqb_neq in E. now apply lookup_insert_ne.
Qed.

Lemma get_unset t k k' :
  get (Ticket.unset t k) k' = if String.eqb k k' then None else get t k'.
Proof.
  unfold get, Ticket.unset. simpl.
  destruct (String.eqb k k') eqn:E.
  - apply String.eqb_eq in E. subst. apply lookup_delete_eq.
  - apply String.eqb_neq in E. now apply lookup_delete_ne.
Qed.

Lemma append_not_empty a c r : a +:+ String c r <> "".
Proof. destruct a; discriminate. Qed.

Lemma isoInstant_not_empty s : isoInstant s -> s <> "".
Proof.
  intros (t & _ & ->). unfold toISOString.
  destruct (civilFromDays (t / msPerDay)) as [[y m] d].
  apply append_not_empty.
Qed.

(** What holds of a ticket at every point of the row parser: no field is
    empty, the priority is one of the four codes, the two times are ISO
    instants. *)
Definition fieldsOk (t : TicketData) : Prop :=
  (forall k v, get t k = Some v -> v <> "")
  /\ (forall v, get t "priority" = Some v -> In v priorityCodes)
  /\ (forall v, get t "request_time" = Some v -> isoInstant v)
  /\ (forall v, get t "close_time" = Some v -> isoInstant v).

Lemma fieldsOk_empty : fieldsOk emptyTicket.
Proof.
  unfold fieldsOk, get, emptyTicket. simpl.
  repeat split; intros *; rewrite lookup_empty; discriminate.
Qed.

(** Setting a field that is none of the three typed ones to a non-empty
    value. *)
Lemma fieldsOk_set_plain t k v :
  fieldsOk t -> v <> "" ->
  String.eqb k "priority" = false -> String.eqb k "request_time" = false ->
  String.eqb k "close_time" = false ->
  fieldsOk (Ticket.set t k v).
Proof.
  intros (A & B & C & D) Hv Kp Kr Kc. unfold fieldsOk.
  repeat split; intros *; rewrite get_set.
  - destruct (String.eqb k k0); [intros [= <-]; exact Hv | apply A].
  - rewrite Kp. apply B.
  - rewrite Kr. apply C.
  - rewrite Kc. apply D.
Qed.

Lemma fieldsOk_set_time t k v :
  fieldsOk t -> isoInstant v ->
  String.eqb k "request_time" || String.eqb k "close_time" = true ->
  fieldsOk (Ticket.set t k v).
Proof.
  intros (A & B & C & D) Hv K. unfold fieldsOk.
  assert (Kp : String.eqb k "priority" = false).
  { apply orb_prop in K. destruct K as [K | K]; apply String.eqb_eq in K; now subst. }
  repeat split; intros *; rewrite get_set.
  - destruct (String.eqb k k0); [intros [= <-]; now apply isoInstant_not_empty | apply A].
  - rewrite Kp. apply B.
  - destruct (String.eqb k "request_time"); [now intros [= <-] | apply C].
  - destruct (String.eqb k "close_time"); [now intros [= <-] | apply D].
Qed.

Lemma fieldsOk_set_priority t v :
  fieldsOk t -> In v priorityCodes -> fieldsOk (Ticket.set t "priority" v).
Proof.
  intros (A & B & C & D) Hv. unfold fieldsOk.
  repeat split; intros *; rewrite get_set.
  - destruct (String.eqb "priority" k).
    + intros [= <-]. simpl in Hv.
      repeat (destruct Hv as [<- | Hv]; [discriminate|]). contradiction.
    + apply A.
  - simpl. now intros [= <-].
  - simpl. apply C.
  - simpl. apply D.
Qed.

Lemma fieldsOk_unset t k : fieldsOk t -> fieldsOk (Ticket.unset t k).
Proof.
  intros (A & B & C & D). unfold fieldsOk.
  repeat split; intros *; rewrite get_unset.
  - destruct (String.eqb k k0); [discriminate | apply A].
  - destruct (String.eqb k "priority"); [discriminate | apply B].
  - destruct (String.eqb k "request_time"); [discriminate | apply C].
  - destruct (String.eqb k "close_time"); [discriminate | apply D].
Qed.

Section WithHost.
Variable host : Host.
Variable Papa_parse : string -> Papa.Outcome.
Variable Date_now : nat -> Z.

Lemma applyColumn_ok mappedHeaders row index st header :
  fieldsOk (fst st) -> fieldsOk (fst (applyColumn host mappedHeaders row index st header)).
Proof.
  destruct st as [ticket warns]. simpl fst. intros Ok. unfold applyColumn.
  destruct (mappedHeaders !! header) as [fieldName|]; [|exact Ok].
  destruct (row !! header) as [cell|]; [|exact Ok].
  destruct (truthy fieldName); [|exact Ok].
  cbv zeta. destruct (String.eqb (trim cell) "") eqn:V; [exact Ok|].
  destruct (String.eqb fieldName "request_time" || String.eqb fieldName "close_time") eqn:T.
  - destruct (parseDate host (trim cell)) as [parsedDate|] eqn:P.
    + simpl. apply fieldsOk_set_time; [exact Ok | | exact T].
      now apply (parseDate_instant host (trim cell)).
    + now destruct (String.eqb fieldName "request_time").
  - apply orb_false_elim in T. destruct T as [Tr Tc].
    destruct (String.eqb fieldName "priority") eqn:Pr.
    + apply String.eqb_eq in Pr. subst fieldName.
      destruct (validatePriority (trim cell)) as [p|] eqn:Vp; simpl.
      * apply fieldsOk_set_priority; [exact Ok|].
        now apply (validatePriority_in_codes (trim cell)).
      * now apply fieldsOk_unset.
    + simpl. apply fieldsOk_set_plain; auto. now apply String.eqb_neq.
Qed.

Lemma applyColumns_ok mappedHeaders row index headers st :
  fieldsOk (fst st) ->
  fieldsOk (fst (fold_left (applyColumn host mappedHeaders row index) headers st)).
Proof.
  revert st. induction headers as [|h r IH]; intros st Ok; simpl; [exact Ok|].
  apply IH. now apply applyColumn_ok.
Qed.

(** A record as the row parser returns it. *)
Definition recordOk (t : TicketData) : Prop :=
  fieldsOk t
  /\ (exists id, get t "ticket_id" = Some id /\ id <> "")
  /\ (exists requestTime, get t "request_time" = Some requestTime /\ isoInstant requestTime).

Lemma missing_false t k :
  missing t k = false -> exists v, get t k = Some v /\ truthy v = true.
Proof.
  unfold missing. destruct (get t k) as [v|]; [|discriminate].
  intros H. exists v. split; [reflexivity|]. now apply negb_false_iff.
Qed.

Lemma processRow_ok headers mappedHeaders acc indexedRow :
  List.Forall recordOk (fst acc) ->
  List.Forall recordOk
    (fst (processRow host Date_now headers mappedHeaders acc indexedRow))
  /\ (length (fst (processRow host Date_now headers mappedHeaders acc indexedRow))
      <= S (length (fst acc)))%nat.
Proof.
  destruct acc as [parsed warns]. destruct indexedRow as [index row]. simpl fst.
  intros Ok. unfold processRow.
  pose proof (applyColumns_ok mappedHeaders row index headers (emptyTicket, warns)
                fieldsOk_empty) as F.
  destruct (fold_left _ headers (emptyTicket, warns)) as [ticket warns1]. simpl in F.
  set (withId :=
    if missing ticket "ticket_id"
    then (Ticket.set ticket "ticket_id"
            ("AUTO-" +:+ ofZ (Date_now index) +:+ "-" +:+ rowLabel index),
          warns1 ++ ["Row " +:+ rowLabel index +:+ ": Missing Ticket ID, generated "
                       +:+ ("AUTO-" +:+ ofZ (Date_now index) +:+ "-" +:+ rowLabel index)])
    else (ticket, warns1)).
  assert (W : fieldsOk (fst withId)
              /\ exists id, get (fst withId) "ticket_id" = Some id /\ id <> "").
  { unfold withId. destruct (missing ticket "ticket_id") eqn:M; simpl.
    - split.
      + apply fieldsOk_set_plain; auto; discriminate.
      + eexists. rewrite get_set. simpl. split; [reflexivity | discriminate].
    - split; [exact F|]. destruct (missing_false _ _ M) as (v & G & T).
      exists v. split; [exact G|]. intros ->. discriminate. }
  destruct withId as [ticket2 warns2]. simpl in W. destruct W as [F2 I2].
  destruct (missing ticket2 "request_time") eqn:R; simpl.
  - split; [exact Ok | lia].
  - split; [|rewrite length_app; simpl; lia].
    apply Forall_app. split; [exact Ok|]. constructor; [|constructor].
    split; [exact F2|]. split; [exact I2|].
    destruct (missing_false _ _ R) as (v & G & _).
    exists v. split; [exact G|]. destruct F2 as (_ & _ & C & _). now apply C.
Qed.

Lemma processRows_ok headers mappedHeaders rows acc :
  List.Forall recordOk (fst acc) ->
  List.Forall recordOk
    (fst (fold_left (processRow host Date_now headers mappedHeaders) rows acc))
  /\ (length (fst (fold_left (processRow host Date_now headers mappedHeaders) rows acc))
      <= length (fst acc) + length rows)%nat.
Proof.
  revert acc. induction rows as [|r rows IH]; intros acc Ok; simpl fold_left.
  - split; [exact Ok | simpl; lia].
  - destruct (processRow_ok headers mappedHeaders acc r Ok) as [Ok1 L1].
    destruct (IH _ Ok1) as [Ok2 L2]. split; [exact Ok2|]. simpl length. lia.
Qed.

(** What [parseExcelData] returns as [data]: nothing, or what the rows
    of the tokenizer's result left. *)
Lemma data_of_parse csvText :
  data (parseExcelData host Papa_parse Date_now csvText) = []
  \/ exists result warns,
       Papa_parse csvText = Papa.Returned result
       /\ data (parseExcelData host Papa_parse Date_now csvText)
          = fst (fold_left
                   (processRow host Date_now
                      (match Papa.fields result with Some f => f | None => [] end)
                      (mapHeaders (match Papa.fields result with Some f => f | None => [] end)))
                   (indexed (Papa.data result)) ([], warns)).
Proof.
  unfold parseExcelData.
  destruct (Papa_parse csvText) as [result | m]; [|now left].
  destruct (fold_left reportTokenizerError (Papa.errors result) ([], [])) as [errs warns].
  cbv zeta.
  match goal with
  | |- context [if (0 <? length ?e)%nat then _ else _] => destruct (0 <? length e)%nat
  end; [now left|].
  right. exists result, warns. split; [reflexivity|].
  destruct (fold_left _ (indexed (Papa.data result)) ([], warns)) as [parsed warns'].
  reflexivity.
Qed.

Lemma length_indexed {A} (l : list A) : length (indexed l) = length l.
Proof. unfold indexed. rewrite length_combine, length_seq. lia. Qed.

(** X6. Every record [parseExcelData] returns carries a non-empty
    [ticket_id] and a [request_time] that is the ISO rendering of a valid
    instant, and none of its fields holds an empty string. *)
Theorem parsed_records_are_complete (csvText : string) :
  List.Forall
    (fun t =>
       (exists id, get t "ticket_id" = Some id /\ id <> "")
       /\ (exists requestTime, get t "request_time" = Some requestTime
                               /\ isoInstant requestTime)
       /\ (forall k v, get t k = Some v -> v <> ""))
    (data (parseExcelData host Papa_parse Date_now csvText)).
Proof.
  destruct (data_of_parse csvText) as [E | (result & warns & _ & E)]; rewrite E;
    [constructor|].
  eapply List.Forall_impl; [|apply processRows_ok; constructor].
  intros t ((A & _) & I & R). auto.
Qed.

(** X7. In every returned record the priority is absent or one of P1 to
    P4, and a close time, when present, is the ISO rendering of a valid
    instant. *)
Theorem parsed_records_are_typed (csvText : string) :
  List.Forall
    (fun t =>
       (forall p, get t "priority" = Some p -> In p priorityCodes)
       /\ (forall c, get t "close_time" = Some c -> isoInstant c))
    (data (parseExcelData host Papa_parse Date_now csvText)).
Proof.
  destruct (data_of_parse csvText) as [E | (result & warns & _ & E)]; rewrite E;
    [constructor|].
  eapply List.Forall_impl; [|apply processRows_ok; constructor].
  intros t ((_ & B & _ & D) & _). auto.
Qed.

(** X8. A row gives at most one record: when the tokenizer returns, the
    records are never more than its data rows. *)
Theorem parsed_records_at_most_rows (csvText : string) (result : Papa.ParseResult) :
  Papa_parse csvText = Papa.Returned result ->
  (length (data (parseExcelData host Papa_parse Date_now csvText))
   <= length (Papa.data result))%nat.
Proof.
  intros P.
  destruct (data_of_parse csvText) as [E | (result' & warns & P' & E)]; rewrite E;
    [simpl; lia|].
  assert (result' = result) by congruence. subst result'.
  etransitivity; [apply processRows_ok; constructor|].
  simpl. now rewrite length_indexed.
Qed.

End WithHost.

Lemma parsed_records_at_most_rows_witness :
  (length (data (parseExcelData StandardHost.utc
                   (fun _ => Papa.Returned RowParserFacts.cleanResult)
                   RowParserFacts.clock ""))
   <= length (Papa.data RowParserFacts.cleanResult))%nat.
Proof.
  apply (parsed_records_at_most_rows StandardHost.utc
           (fun _ => Papa.Returned RowParserFacts.cleanResult) RowParserFacts.clock
           "" RowParserFacts.cleanResult).
  reflexivity.
Defined.

End RowInvariants.

(* ===================================================================== *)
(** * Further properties of the week assigner *)
(* ===================================================================== *)

Module WeekBuckets.
Import JsString JsStringFacts Ticket JsDate ExcelParser RowParser WeekAssignerFacts.

Section WithHost.
Variable host : Host.

Lemma assignWeek_other_fields anchor t k :
  k <> "week_label" -> get (assignWeek host anchor t) k = get t k.
Proof.
  intros K. unfold assignWeek.
  destruct (hasWeekLabel t); [reflexivity|].
  destruct (get t "request_time") as [s|]; [|reflexivity].
  destruct (truthy s); [|reflexivity].
  unfold get. simpl fields. now rewrite lookup_insert_ne by congruence.
Qed.

Lemma Forall2_map_right {A B} (R : A -> B -> Prop) (f : A -> B) l :
  (forall x, R x (f x)) -> Forall2 R l (map f l).
Proof. intros H. induction l; simpl; constructor; auto. Qed.

Lemma Forall2_same {A} (R : A -> A -> Prop) l : (forall x, R x x) -> Forall2 R l l.
Proof. intros H. induction l; constructor; auto. Qed.

(** X9. Week assignment returns the records in the same number and
    order, and changes no field of a record other than its week label
    (and week number). *)
Theorem week_assignment_keeps_fields (tickets : list TicketData) :
  Forall2
    (fun before after => forall k, k <> "week_label" -> get after k = get before k)
    tickets (calculateWeekNumbers host tickets).
Proof.
  destruct (calculateWeekNumbers_cases host tickets) as [E | (_ & _ & _ & E)]; rewrite E.
  - now apply Forall2_same.
  - apply Forall2_map_right. intros t k K. now apply assignWeek_other_fields.
Qed.

(** The record at position [i] gets its week from the batch anchor. *)
Lemma assigned_record tickets anchor i r s t :
  minDate host tickets = Int anchor ->
  nth_error tickets i = Some r ->
  hasWeekLabel r = false ->
  get r "request_time" = Some s -> truthy s = true ->
  dateOfString host s = Int t ->
  nth_error (calculateWeekNumbers host tickets) i
  = Some (mkTicket
            (<["week_label" := "Week " +:+ ofZ ((t - anchor) / msPerDay / 7 + 1)]> (fields r))
            (Some (Int ((t - anchor) / msPerDay / 7 + 1)))).
Proof.
  intros A Hi L R T D.
  assert (E : calculateWeekNumbers host tickets = map (assignWeek host (Int anchor)) tickets).
  { rewrite <- A. apply calculateWeekNumbers_assigns.
    - intros F.
      assert (N : In r (List.filter needsWeek tickets)).
      { apply filter_In. split; [now apply nth_error_In with (n := i)|].
        now rewrite needsWeek_hasWeekLabel, L. }
      rewrite F in N. contradiction.
    - apply (requestTimes_nonempty host tickets r s); auto.
      now apply nth_error_In with (n := i). }
  rewrite E, nth_error_map, Hi. simpl option_map.
  rewrite (assignWeek_assigned host (Int anchor) r s L R T). cbv zeta.
  now rewrite D.
Qed.



Lemma fold_min_nan l : fold_left minInt l NaN = NaN.
Proof. induction l as [|d l IH]; simpl; [reflexivity | exact IH]. Qed.

Lemma fold_min_int l x m :
  fold_left minInt l (Int x) = Int m ->
  m <= x /\ (m = x \/ In (Int m) l) /\ (forall d, In (Int d) l -> m <= d).
Proof.
  revert x. induction l as [|d l IH]; intros x H; simpl in H.
  - injection H as <-. split; [lia|]. split; [now left|]. intros d [].
  - destruct d as [|y]; simpl in H; [rewrite fold_min_nan in H; discriminate|].
    destruct (IH _ H) as (A & B & C). split; [lia|]. split.
    + destruct B as [-> | B]; [|right; now right].
      destruct (Z.min_spec x y) as [[_ ->] | [_ ->]]; [now left | right; now left].
    + intros d [[= <-] | Hd]; [lia | now apply C].
Qed.

Lemma minOf_int l m :
  minOf l = Int m -> In (Int m) l /\ (forall d, In (Int d) l -> m <= d).
Proof.
  destruct l as [|d l]; [discriminate|]. simpl.
  destruct d as [|x]; [rewrite fold_min_nan; discriminate|].
  intros H. destruct (fold_min_int _ _ _ H) as (A & B & C). split.
  - destruct B as [-> | B]; [now left | now right].
  - intros d [[= <-] | Hd]; [exact A | now apply C].
Qed.

Lemma requestTimes_member tickets r s :
  In r tickets -> get r "request_time" = Some s -> truthy s = true ->
  In (dateOfString host s) (requestTimes host tickets).
Proof.
  intros Hin R T. unfold requestTimes. apply in_map, filter_In. split; [|exact T].
  induction tickets as [|a l IH]; [contradiction|].
  cbn [omap list_omap].
  destruct Hin as [-> | Hin].
  - rewrite R. now left.
  - destruct (get a "request_time"); [right|]; now apply IH.
Qed.

(** X11. In a time zone at a fixed offset from UTC, every week number
    the assigner gives is at least 1, and the record with the earliest
    request time of the batch is in week 1. *)
Theorem earliest_record_is_week_one (offset : Z) (tickets : list TicketData)
    (anchor : Z) (i : nat) (r : TicketData) (s : string) (t : Z) :
  (forall u isUTC, LocalTZA host u isUTC = offset) ->
  minDate host tickets = Int anchor ->
  nth_error tickets i = Some r ->
  hasWeekLabel r = false ->
  get r "request_time" = Some s -> truthy s = true ->
  dateOfString host s = Int t ->
  exists o w,
    nth_error (calculateWeekNumbers host tickets) i = Some o
    /\ week_number o = Some (Int w)
    /\ 1 <= w
    /\ ((forall d, In (Int d) (requestTimes host tickets) -> t <= d) -> w = 1).
Proof.
  intros Z0 A Hi L R T D.
  eexists. exists ((t - anchor) / msPerDay / 7 + 1).
  split; [apply (assigned_record tickets anchor i r s t); assumption|].
  split; [reflexivity|].
  unfold minDate in A.
  destruct (minOf (requestTimes host tickets)) as [|m] eqn:M; [discriminate|].
  destruct (minOf_int _ _ M) as [Min Mle].
  simpl in A. unfold UTC, LocalTime in A. rewrite !Z0 in A.
  unfold TimeClip in A.
  destruct (Z.abs _ <=? 8640000000000000); [|discriminate].
  injection A as A. unfold MakeDate, MakeTime, msPerDay in A.
  pose proof (Z.div_mod (m + offset) 86400000 ltac:(lia)) as E.
  pose proof (Z.mod_pos_bound (m + offset) 86400000 ltac:(lia)) as B.
  assert (In (Int t) (requestTimes host tickets)) as Tin.
  { rewrite <- D. apply (requestTimes_member tickets r s); auto.
    now apply nth_error_In with (n := i). }
  pose proof (Mle _ Tin) as Mt.
  unfold msPerDay. split.
  - assert (0 <= (t - anchor) / 86400000 / 7).
    { apply Z.div_pos; [|lia]. apply Z.div_pos; lia. }
    lia.
  - intros Hmin. pose proof (Hmin _ Min) as Tm.
    assert (t = m) by lia. subst t.
    rewrite (Z.div_small (m - anchor) 86400000) by lia. reflexivity.
Qed.

End WithHost.


Lemma earliest_record_is_week_one_witness :
  exists o w,
    nth_error (calculateWeekNumbers StandardHost.lagos tenDaysApart) 0 = Some o
    /\ week_number o = Some (Int w)
    /\ 1 <= w
    /\ ((forall d, In (Int d) (requestTimes StandardHost.lagos tenDaysApart)
                   -> 1736935200000 <= d) -> w = 1).
Proof.
  apply (earliest_record_is_week_one StandardHost.lagos 3600000 tenDaysApart
           1736895600000 0
           (ticketAt "T1" "2025-01-15T10:00:00.000Z") "2025-01-15T10:00:00.000Z"
           1736935200000); vm_compute; reflexivity.
Defined.

End WeekBuckets.

(* ===================================================================== *)
(** * Further properties of the trend analyser and the insights *)
(* ===================================================================== *)

Module InsightExtras.
Import JsString Ticket JsNumber InsightsGenerator InsightsFacts.

Lemma Qgtb_false a b : Qgtb a b = false <-> (a <= b)%Q.
Proof. unfold Qgtb. rewrite negb_false_iff. apply Qle_bool_iff. Qed.

Lemma Qltb_false a b : Qltb a b = false <-> (b <= a)%Q.
Proof. apply (Qgtb_false b a). Qed.

(** X12. The analyser never calls a series both increasing and
    decreasing, and never both volatile and stable. *)
Theorem trend_flags_are_exclusive (data : list TrendData) :
  isIncreasing (analyzeTrendPattern data) && isDecreasing (analyzeTrendPattern data) = false
  /\ isVolatile (analyzeTrendPattern data) && isStable (analyzeTrendPattern data) = false.
Proof.
  unfold analyzeTrendPattern.
  destruct (length data <? 2)%nat; [split; reflexivity|].
  cbv zeta. simpl isIncreasing. simpl isDecreasing. simpl isVolatile. simpl isStable.
  split.
  - match goal with
    | |- ((?n <? ?p)%nat && _) && ((?p <? ?n)%nat && _) = false =>
      destruct (Nat.ltb_spec n p); destruct (Nat.ltb_spec p n); try reflexivity; lia
    end.
  - match goal with
    | |- sqrtRatioGt ?v ?a _ && sqrtRatioLt ?v ?a _ = false => generalize v a
    end.
    intros v a. unfold sqrtRatioGt, sqrtRatioLt.
    destruct (Qgtb a 0) eqn:A.
    + destruct (Qgtb v _) eqn:G; [|reflexivity].
      apply Qgtb_true in G. simpl. apply Qltb_false.
      apply Qlt_le_weak. eapply Qle_lt_trans; [|exact G].
      assert (S : (0 <= a * a)%Q) by (unfold Qle, Qmult; simpl; nia).
      lra.
    + destruct (Qeq_bool a 0); [now rewrite andb_false_r | reflexivity].
Qed.

Lemma last_two {A} (l : list A) :
  (2 <= length l)%nat -> exists earlier previous latest, l = earlier ++ [previous; latest].
Proof.
  intros H. destruct (rev l) as [|z [|y r]] eqn:E.
  - apply (f_equal (@length A)) in E. rewrite length_rev in E. simpl in E. lia.
  - apply (f_equal (@length A)) in E. rewrite length_rev in E. simpl in E. lia.
  - exists (rev r), y, z. rewrite <- (rev_involutive l), E. simpl.
    now rewrite <- app_assoc.
Qed.

(** X13. Both generators return at most three insights, and the weekly
    one always returns at least one. *)
Theorem insight_lists_are_short (trend : list TrendData) :
  (1 <= length (generateWeeklyInsights trend) <= 3)%nat
  /\ (length (generateMonthlyInsights trend) <= 3)%nat.
Proof.
  split.
  - destruct (length trend <? 2)%nat eqn:L.
    + unfold generateWeeklyInsights. rewrite L. simpl. lia.
    + apply Nat.ltb_ge in L. destruct (last_two trend L) as (e & p & q & ->).
      destruct (weekly_head e p q) as [rest E]. rewrite E. split; [simpl; lia|].
      rewrite <- E. unfold generateWeeklyInsights.
      destruct (length (e ++ [p; q]) <? 2)%nat; [simpl; lia|].
      cbv zeta. rewrite length_firstn. lia.
  - unfold generateMonthlyInsights.
    destruct (length trend <? 2)%nat; [simpl; lia|].
    cbv zeta. rewrite length_firstn. lia.
Qed.

(** X14. A rise from a previous count of zero is never reported as a
    spike, however large it is: its percent change is taken to be 0, so
    the weekly generator reports the slight uptick and the monthly one the
    slight increase. *)
Theorem rise_from_zero_is_slight (earlier : list TrendData) (previous latest : TrendData) :
  count previous <= 0 -> 0 < count latest ->
  (percentChangeOf (count previous) (count latest) == 0)%Q
  /\ (exists i rest,
        generateWeeklyInsights (earlier ++ [previous; latest]) = i :: rest
        /\ verdict i = (warning, "📈 Slight Uptick Observed"))
  /\ (exists i rest,
        generateMonthlyInsights (earlier ++ [previous; latest]) = i :: rest
        /\ verdict i = (neutral, "➡️ Slight Monthly Increase")).
Proof.
  intros P L.
  assert (Z0 : percentChangeOf (count previous) (count latest) = 0%Q).
  { unfold percentChangeOf.
    destruct (0 <? count previous) eqn:E; [apply Z.ltb_lt in E; lia | reflexivity]. }
  assert (R : (count previous <? count latest) = true) by (apply Z.ltb_lt; lia).
  assert (N : count latest <> count previous) by lia.
  split; [now rewrite Z0|]. split.
  - destruct (weekly_head earlier previous latest) as [rest E].
    eexists; exists rest. split; [exact E|].
    rewrite (proj1 (weeklyChangeInsight_verdict _ previous latest N)), Z0, R.
    reflexivity.
  - destruct (monthly_head earlier previous latest N) as (i & M & [rest E]).
    exists i, rest. split; [exact E|].
    rewrite (proj1 (monthlyChangeInsight_verdict previous latest i M)), Z0, R.
    reflexivity.
Qed.

Lemma rise_from_zero_is_slight_witness :
  (percentChangeOf 0 500 == 0)%Q
  /\ (exists i rest,
        generateWeeklyInsights ([] ++ [mkTrend "Week 1" 0; mkTrend "Week 2" 500]) = i :: rest
        /\ verdict i = (warning, "📈 Slight Uptick Observed"))
  /\ (exists i rest,
        generateMonthlyInsights ([] ++ [mkTrend "Week 1" 0; mkTrend "Week 2" 500]) = i :: rest
        /\ verdict i = (neutral, "➡️ Slight Monthly Increase")).
Proof.
  apply (rise_from_zero_is_slight [] (mkTrend "Week 1" 0) (mkTrend "Week 2" 500));
    simpl; lia.
Defined.

(** ** A flat series *)

(** Every period has the same count. *)
Definition flat (c : Z) (data : list TrendData) : Prop :=
  List.Forall (fun d => count d = c) data.

Lemma counts_of_flat c data : flat c data -> map count data = repeat c (length data).
Proof. induction 1 as [|d r Hd Hr IH]; simpl; [reflexivity | now rewrite Hd, IH]. Qed.

Lemma deltas_repeat c n : deltas (repeat c (S n)) = repeat 0 n.
Proof.
  induction n as [|n IH]; [reflexivity|].
  change (deltas (repeat c (S (S n)))) with ((c - c) :: deltas (repeat c (S n))).
  now rewrite IH, Z.sub_diag.
Qed.

Definition zeros (l : list Z) : Prop := List.Forall (fun z => z = 0) l.

Lemma zeros_repeat n : zeros (repeat 0 n).
Proof. induction n; simpl; constructor; auto. Qed.

Lemma sumZ_from l a : fold_left Z.add l a = a + fold_left Z.add l 0.
Proof.
  revert a. induction l as [|x l IH]; intros a; simpl; [lia|].
  rewrite (IH (a + x)), (IH (0 + x)). lia.
Qed.

Lemma sumZ_zeros l : zeros l -> sumZ (map Z.abs l) = 0 /\ sumZ l = 0.
Proof.
  unfold sumZ. induction 1 as [|x l Hx Hl [IH1 IH2]]; simpl; [split; reflexivity|].
  subst x. simpl. now split.
Qed.

Lemma sumZ_repeat c n : sumZ (repeat c n) = c * Z.of_nat n.
Proof.
  unfold sumZ. induction n as [|n IH]; [simpl; lia|].
  simpl repeat. simpl fold_left. rewrite sumZ_from, IH. lia.
Qed.

Lemma no_sign_in_zeros (p : Z -> bool) l :
  p 0 = false -> zeros l -> List.filter p l = [].
Proof.
  intros P. induction 1 as [|x l Hx Hl IH]; simpl; [reflexivity|].
  subst x. now rewrite P.
Qed.

Lemma sumQ_from l a : (fold_left Qplus l a == a + fold_left Qplus l 0)%Q.
Proof.
  revert a. induction l as [|x l IH]; intros a; simpl; [ring|].
  rewrite (IH (a + x)%Q), (IH (0 + x)%Q). ring.
Qed.

Lemma sumQ_zero l : List.Forall (fun q => (q == 0)%Q) l -> (sumQ l == 0)%Q.
Proof.
  unfold sumQ. induction 1 as [|x l Hx Hl IH]; simpl; [reflexivity|].
  rewrite sumQ_from, IH, Hx. ring.
Qed.

Lemma spread_of_zeros l (k : Q) :
  zeros l ->
  (sumQ (map (fun x : Z => (inject_Z x - inject_Z 0 / k) * (inject_Z x - inject_Z 0 / k)) l)
   == 0)%Q.
Proof.
  intros H. apply sumQ_zero. apply List.Forall_map.
  eapply List.Forall_impl; [|exact H]. intros x ->. unfold Qdiv. ring.
Qed.

Lemma meanAbs_zeros l : zeros l -> (meanAbs l == 0)%Q.
Proof.
  intros H. unfold meanAbs. rewrite (proj1 (sumZ_zeros l H)).
  unfold Qdiv. ring.
Qed.

Lemma zeros_firstn n l : zeros l -> zeros (firstn n l).
Proof.
  intros H. revert n. induction H as [|x l Hx Hl IH]; intros [|n]; simpl.
  - constructor.
  - constructor.
  - constructor.
  - constructor; [assumption | apply IH].
Qed.

Lemma zeros_skipn n l : zeros l -> zeros (skipn n l).
Proof.
  intros H. revert n. induction H as [|x l Hx Hl IH]; intros [|n]; simpl.
  - constructor.
  - constructor.
  - constructor; assumption.
  - apply IH.
Qed.

Lemma momentum_of_zeros l : zeros l -> momentumOf l = steady.
Proof.
  intros H. unfold momentumOf.
  destruct (3 <=? length l)%nat; [|reflexivity]. cbv zeta.
  pose proof (meanAbs_zeros _ (zeros_skipn (length l - 3) l H)) as R.
  pose proof (meanAbs_zeros _ (zeros_firstn (length l - 3) l H)) as E.
  fold (lastN 3 l) in R. fold (dropLastN 3 l) in E.
  assert (G : forall e, (e == 0)%Q ->
            (if Qgtb (meanAbs (lastN 3 l)) (e * (13 # 10))
             then accelerating
             else if Qltb (meanAbs (lastN 3 l)) (e * (7 # 10)) then decelerating else steady)
            = steady).
  { intros e He.
    assert (A : Qgtb (meanAbs (lastN 3 l)) (e * (13 # 10)) = false)
      by (apply Qgtb_false; rewrite R, He; discriminate).
    assert (B : Qltb (meanAbs (lastN 3 l)) (e * (7 # 10)) = false)
      by (apply Qltb_false; rewrite R, He; discriminate).
    now rewrite A, B. }
  destruct (0 <? length (dropLastN 3 l))%nat; now apply G.
Qed.

Lemma sqrtRatio_of_zero_variance v a c :
  (v == 0)%Q -> (0 < a)%Q -> (0 < c)%Q ->
  sqrtRatioGt v a c = false /\ sqrtRatioLt v a c = true.
Proof.
  intros V A C. unfold sqrtRatioGt, sqrtRatioLt.
  rewrite (proj2 (Qgtb_true a 0) A).
  assert (S : (0 < c * a * (c * a))%Q).
  { assert (P : (0 < c * a)%Q) by (apply Qmult_lt_0_compat; assumption).
    now apply Qmult_lt_0_compat. }
  split.
  - apply Qgtb_false. rewrite V. now apply Qlt_le_weak.
  - apply Qltb_true. now rewrite V.
Qed.

Lemma zero_ratio a b k :
  (0 < b)%Q -> (a == 0)%Q -> (0 <= k)%Q ->
  gt (abs (scale (div a b) 100)) k = false /\ gt (scale (div a b) 100) k = false.
Proof.
  intros B A K. unfold div.
  assert (E : Qeq_bool b 0 = false).
  { apply not_true_iff_false. intros E. apply Qeq_bool_iff in E.
    rewrite E in B. discriminate B. }
  rewrite E. cbn [scale abs gt].
  assert (Z0 : (a / b * 100 == 0)%Q) by (rewrite A; unfold Qdiv; ring).
  split; apply Qgtb_false; now rewrite Z0.
Qed.

Section Flat.
Variable c : Z.
Variable data : list TrendData.
Hypothesis positive : 0 < c.
Hypothesis two : (2 <= length data)%nat.
Hypothesis isFlat : flat c data.

Let average : Q :=
  (inject_Z (sumZ (map count data)) / inject_Z (lengthZ data))%Q.

Lemma flat_average : (average == inject_Z c)%Q.
Proof.
  unfold average, lengthZ. rewrite (counts_of_flat c data isFlat), sumZ_repeat.
  rewrite inject_Z_mult. field.
  intros E. apply (inject_Z_injective (Z.of_nat (length data)) 0) in E. lia.
Qed.

Lemma flat_average_pos : (0 < average)%Q.
Proof. rewrite flat_average. change 0%Q with (inject_Z 0). now rewrite <- Zlt_Qlt. Qed.

Lemma flat_changes : deltas (map count data) = repeat 0 (length data - 1).
Proof.
  rewrite (counts_of_flat c data isFlat).
  destruct (length data) as [|n]; [lia|].
  rewrite deltas_repeat. f_equal. lia.
Qed.

Lemma flat_pattern :
  analyzeTrendPattern data = mkPattern false false false true steady.
Proof.
  unfold analyzeTrendPattern.
  replace (length data <? 2)%nat with false by (symmetry; apply Nat.ltb_ge; exact two).
  cbv zeta. rewrite flat_changes.
  pose proof (zeros_repeat (length data - 1)) as Z0.
  rewrite (no_sign_in_zeros (fun x => 0 <? x) _ eq_refl Z0).
  rewrite (no_sign_in_zeros (fun x => x <? 0) _ eq_refl Z0).
  rewrite (momentum_of_zeros _ Z0). simpl andb.
  match goal with
  | |- mkPattern _ _ (sqrtRatioGt ?v ?a _) (sqrtRatioLt ?v ?a _) _ = _ =>
    assert (V : (v == 0)%Q)
  end.
  { rewrite (proj2 (sumZ_zeros _ Z0)).
    rewrite (spread_of_zeros _ _ Z0). unfold Qdiv. ring. }
  fold average.
  destruct (sqrtRatio_of_zero_variance _ average (3 # 10) V flat_average_pos eq_refl) as [G _].
  destruct (sqrtRatio_of_zero_variance _ average (15 # 100) V flat_average_pos eq_refl) as [_ L].
  now rewrite G, L.
Qed.

Lemma flat_at i : (i < length data)%nat -> count (at_ data i) = c.
Proof.
  intros H. unfold at_.
  assert (G : In (nth i data noTrend) data) by now apply nth_In.
  unfold flat in isFlat. rewrite List.Forall_forall in isFlat. now apply isFlat.
Qed.

Lemma percentChange_same : (percentChangeOf c c == 0)%Q.
Proof.
  unfold percentChangeOf. destruct (0 <? c); [|reflexivity].
  rewrite Z.sub_diag. unfold Qdiv. ring.
Qed.

(** X15. A series whose periods all have the same positive count is
    stable and nothing else (not volatile, neither increasing nor
    decreasing, steady); the weekly generator reports the stable volume
    and nothing more, the monthly generator reports nothing. *)
Theorem flat_series_is_stable :
  analyzeTrendPattern data = mkPattern false false false true steady
  /\ generateWeeklyInsights data = [mkInsight neutral "➡️ Stable Volume" None info]
  /\ generateMonthlyInsights data = [].
Proof.
  split; [exact flat_pattern|].
  assert (L1 : count (at_ data (length data - 1)) = c) by (apply flat_at; lia).
  assert (L2 : count (at_ data (length data - 2)) = c) by (apply flat_at; lia).
  assert (L0 : count (at_ data 0) = c) by (apply flat_at; lia).
  assert (LT : (length data <? 2)%nat = false) by (apply Nat.ltb_ge; exact two).
  split.
  - unfold generateWeeklyInsights. rewrite LT. cbv zeta.
    rewrite flat_pattern. simpl isVolatile. simpl momentum. simpl andb. cbv iota.
    unfold weeklyChangeInsight. rewrite L1, L2, L0, Z.sub_diag. simpl (0 <? Z.abs 0).
    cbv iota. fold average.
    assert (D : gt (abs (scale (div (inject_Z c - average) average) 100)) 30 = false).
    { apply zero_ratio; [exact flat_average_pos | rewrite flat_average; ring | discriminate]. }
    rewrite D.
    assert (O : Qgtb (Qabs (percentChangeOf c c)) 25 = false)
      by (apply Qgtb_false; rewrite percentChange_same; discriminate).
    rewrite O. destruct (3 <=? length data)%nat; reflexivity.
  - unfold generateMonthlyInsights. rewrite LT. cbv zeta.
    rewrite flat_pattern. simpl isIncreasing. simpl isDecreasing. simpl andb. cbv iota.
    unfold monthlyChangeInsight. rewrite L1, L2, Z.sub_diag. simpl (0 <? Z.abs 0).
    cbv iota. fold average.
    destruct (6 <=? length data)%nat; [|reflexivity].
    assert (F : forall (pick : TrendData -> TrendData -> TrendData) l start,
              (forall a b, pick a b = a \/ pick a b = b) ->
              flat c l -> count start = c -> count (fold_left pick l start) = c).
    { intros pick l. induction l as [|m l IH]; intros start Hp Hl Hs; simpl; [exact Hs|].
      inversion Hl; subst. apply IH; auto.
      destruct (Hp start m) as [-> | ->]; auto. }
    rewrite (F (fun mx m => if count mx <? count m then m else mx) data _
               ltac:(intros a b; cbv beta; destruct (count a <? count b); [right | left]; reflexivity) isFlat L0).
    rewrite (F (fun mn m => if count m <? count mn then m else mn) data _
               ltac:(intros a b; cbv beta; destruct (count b <? count a); [right | left]; reflexivity) isFlat L0).
    rewrite Z.sub_diag.
    assert (R : gt (scale (div (inject_Z 0) average) 100) 50 = false).
    { apply zero_ratio; [exact flat_average_pos | reflexivity | discriminate]. }
    now rewrite R.
Qed.

End Flat.

Lemma flat_series_is_stable_witness :
  let data := map (mkTrend "W") [100; 100; 100; 100] in
  analyzeTrendPattern data = mkPattern false false false true steady
  /\ generateWeeklyInsights data = [mkInsight neutral "➡️ Stable Volume" None info]
  /\ generateMonthlyInsights data = [].
Proof.
  apply (flat_series_is_stable 100 (map (mkTrend "W") [100; 100; 100; 100])).
  - lia.
  - simpl. lia.
  - repeat constructor.
Defined.

End InsightExtras.

(* ===================================================================== *)
(** * What a breakdown counts, and in which order *)
(* ===================================================================== *)

Module BreakdownCounts.
Import JsString Ticket JsArray Breakdown BreakdownFacts.

(** The number of tickets of a batch that have the value [k] in a
    dimension. *)
Definition occurrences (key : TicketData -> string) (data : list TicketData) (k : string) : Z :=
  Z.of_nat (length (List.filter (fun t => String.eqb (key t) k) data)).

Lemma mapGetOr0_mapSet m k v k' :
  mapGetOr0 (mapSet m k v) k' = if String.eqb k k' then v else mapGetOr0 m k'.
Proof.
  unfold mapGetOr0. induction m as [|[k0 v0] r IH]; simpl.
  - destruct (String.eqb k k'); reflexivity.
  - destruct (String.eqb k0 k) eqn:E; simpl.
    + apply String.eqb_eq in E. subst k0. destruct (String.eqb k k'); reflexivity.
    + destruct (String.eqb k0 k') eqn:E'; [|exact IH].
      apply String.eqb_eq in E'. subst k0.
      rewrite String.eqb_sym in E. now rewrite E.
Qed.

Lemma mapGet_member m k v :
  List.NoDup (map fst m) -> In (k, v) m -> mapGetOr0 m k = v.
Proof.
  unfold mapGetOr0. induction m as [|[k0 v0] r IH]; simpl; intros N H; [contradiction|].
  inversion N as [|? ? Hn Hr]; subst.
  destruct H as [[= -> ->] | H].
  - now rewrite String.eqb_refl.
  - destruct (String.eqb k0 k) eqn:E; [|now apply IH].
    apply String.eqb_eq in E. subst k0. exfalso. apply Hn.
    change k with (fst (k, v)). now apply in_map.
Qed.

Section Counting.
Variable key : TicketData -> string.

Lemma tally_get_from data m k :
  mapGetOr0 (fold_left (fun m t => mapSet m (key t) (mapGetOr0 m (key t) + 1)) data m) k
  = mapGetOr0 m k + occurrences key data k.
Proof.
  unfold occurrences. revert m. induction data as [|t r IH]; intros m; simpl fold_left.
  - simpl. lia.
  - rewrite IH, mapGetOr0_mapSet. simpl List.filter.
    destruct (String.eqb (key t) k) eqn:E.
    + apply String.eqb_eq in E. subst k. simpl length. lia.
    + lia.
Qed.

Lemma tally_get data k : mapGetOr0 (tally key data) k = occurrences key data k.
Proof. unfold tally. now rewrite tally_get_from. Qed.

Lemma tally_keys data :
  List.NoDup (map fst (tally key data))
  /\ (forall k, In k (map fst (tally key data)) <-> In k (map key data)).
Proof.
  destruct (keys_tally_from key data [] (List.NoDup_nil _)) as [N I].
  fold (tally key data) in N, I. split; [exact N|].
  intros k. rewrite I. simpl. tauto.
Qed.

Lemma tally_member data k v :
  In (k, v) (tally key data) -> v = occurrences key data k.
Proof.
  intros H. rewrite <- tally_get. symmetry.
  apply mapGet_member; [apply tally_keys | exact H].
Qed.

(** What it is for a list of entries to count the tickets of a batch:
    no value is listed twice, and the count listed with a value is the
    number of tickets that have it. *)
Definition counted (data : list TicketData) (l : list CategoryBreakdown) : Prop :=
  List.NoDup (map category l)
  /\ List.Forall (fun e => bcount e = occurrences key data (category e)) l.

Lemma categories_of_entries T m : map category (entries T m) = map fst m.
Proof. induction m as [|[k v] r IH]; simpl; [reflexivity | now rewrite IH]. Qed.

Lemma entries_counted data : counted data (entries (total data) (tally key data)).
Proof.
  split.
  - rewrite categories_of_entries. apply tally_keys.
  - unfold entries. apply List.Forall_map. apply List.Forall_forall.
    intros [k v] H. simpl. now apply tally_member.
Qed.

Lemma counted_perm data l l' :
  Permutation.Permutation l l' -> counted data l -> counted data l'.
Proof.
  intros P [N F]. split.
  - eapply Permutation.Permutation_NoDup; [|exact N].
    now apply Permutation.Permutation_map.
  - eapply Permutation.Permutation_Forall; eassumption.
Qed.

Lemma NoDup_firstn {A} n (l : list A) : List.NoDup l -> List.NoDup (firstn n l).
Proof.
  intros N. rewrite <- (firstn_skipn n l) in N.
  now apply List.NoDup_app_remove_r in N.
Qed.

Lemma counted_firstn data n l : counted data l -> counted data (sliceTo n l).
Proof.
  intros [N F]. unfold sliceTo. split.
  - rewrite <- firstn_map. now apply NoDup_firstn.
  - now apply Forall_firstn.
Qed.

Variable cmp : CategoryBreakdown -> CategoryBreakdown -> Z.

Lemma aggregated_counted data : counted data (aggregated key cmp data).
Proof.
  unfold aggregated. eapply counted_perm; [symmetry; apply sort_perm|].
  apply entries_counted.
Qed.

Lemma aggregated_covers data t : In t data -> In (key t) (map category (aggregated key cmp data)).
Proof.
  intros H. unfold aggregated.
  eapply Permutation.Permutation_in.
  - apply Permutation.Permutation_map. symmetry. apply sort_perm.
  - rewrite categories_of_entries. apply tally_keys. now apply in_map.
Qed.

End Counting.

(** ** Order *)

Section Ranked.
Context {A : Type}.
Variable rank : A -> Z.
Variable cmp : A -> A -> Z.
Variable P : A -> Prop.
Hypothesis cmp_rank : forall a b, P a -> P b -> cmp a b = rank a - rank b.

Definition inOrder (a b : A) : Prop := rank a <= rank b.

Lemma insertSorted_sorted x l :
  P x -> List.Forall P l ->
  StronglySorted inOrder l -> StronglySorted inOrder (insertSorted cmp x l).
Proof.
  intros Px Pl. induction 1 as [|y r Hr IH Hy]; simpl.
  - constructor; constructor.
  - inversion Pl as [|? ? Py Pr]; subst.
    destruct (cmp x y <=? 0) eqn:E.
    + apply Z.leb_le in E. rewrite (cmp_rank x y Px Py) in E.
      constructor; [constructor; assumption|].
      constructor; [unfold inOrder; lia|].
      eapply List.Forall_impl; [|exact Hy]. unfold inOrder. intros z Hz. lia.
    + apply Z.leb_gt in E. rewrite (cmp_rank x y Px Py) in E.
      constructor; [now apply IH|].
      eapply Permutation.Permutation_Forall; [symmetry; apply insertSorted_perm|].
      constructor; [unfold inOrder; lia | exact Hy].
Qed.

Lemma sort_sorted l : List.Forall P l -> StronglySorted inOrder (sort cmp l).
Proof.
  induction 1 as [|x r Px Pr IH]; simpl; [constructor|].
  apply insertSorted_sorted; [exact Px | | exact IH].
  eapply Permutation.Permutation_Forall; [symmetry; apply sort_perm | exact Pr].
Qed.

Lemma sorted_firstn n l : StronglySorted inOrder l -> StronglySorted inOrder (firstn n l).
Proof.
  intros H. revert n. induction H as [|y r Hr IH Hy]; intros [|n]; simpl.
  - constructor.
  - constructor.
  - constructor.
  - constructor; [apply IH | now apply Forall_firstn].
Qed.

Lemma sorted_split n l a b :
  StronglySorted inOrder l -> In a (firstn n l) -> In b (skipn n l) -> rank a <= rank b.
Proof.
  intros H. revert n. induction H as [|y r Hr IH Hy]; intros [|n]; simpl; try contradiction.
  intros [-> | Ha] Hb.
  - rewrite List.Forall_forall in Hy. apply Hy.
    rewrite <- (firstn_skipn n r). apply in_or_app. now right.
  - now apply (IH n).
Qed.

End Ranked.

(** The larger count first. *)
Definition byCount (a b : CategoryBreakdown) : Prop := bcount b <= bcount a.

(** The position in [P1, P2, P3, P4, Unassigned] first; a value that is
    not in the list has position [-1]. *)
Definition byPriority (a b : CategoryBreakdown) : Prop :=
  indexOf priorityOrder (category a) <= indexOf priorityOrder (category b).

Lemma byCount_inOrder l :
  StronglySorted (inOrder (fun e => - bcount e)) l -> StronglySorted byCount l.
Proof.
  induction 1 as [|y r Hr IH Hy]; constructor; [exact IH|].
  eapply List.Forall_impl; [|exact Hy]. unfold inOrder, byCount. intros z Hz. lia.
Qed.

Lemma byCountDesc_rank a b : True -> True -> byCountDesc a b = - bcount a - - bcount b.
Proof. unfold byCountDesc. lia. Qed.

Lemma always {A} (l : list A) : List.Forall (fun _ => True) l.
Proof. induction l; constructor; trivial. Qed.

Lemma sorted_desc l : StronglySorted (inOrder (fun e => - bcount e)) (sort byCountDesc l).
Proof. apply (sort_sorted _ _ (fun _ => True) byCountDesc_rank), always. Qed.

Lemma sorted_by_count l : StronglySorted byCount (sort byCountDesc l).
Proof. apply byCount_inOrder, sorted_desc. Qed.

Lemma truncated_by_count n l : StronglySorted byCount (sliceTo n (sort byCountDesc l)).
Proof.
  apply byCount_inOrder, sorted_firstn, sorted_desc.
Qed.

(** The eight aggregations with the dimension each one reads. *)
Definition untruncated : list ((list TicketData -> list CategoryBreakdown) * (TicketData -> string)) :=
  [ (calculateCategoryBreakdown, dimension "third_lvl_category" "Uncategorized");
    (calculatePriorityBreakdown, dimension "priority" "Unassigned");
    (calculateStatusBreakdown, dimension "status" "Unknown");
    (calculateClusterBreakdown, dimension "cluster" "Unassigned") ].

Definition truncated : list ((list TicketData -> list CategoryBreakdown) * (TicketData -> string)) :=
  [ (calculateAffiliateBreakdown, dimension "affiliate" "Unassigned");
    (calculateRecordTypeBreakdown, dimension "service_record_type" "Unknown");
    (calculateSupportGroupBreakdown, dimension "support_group" "Unassigned");
    (calculateInitiatorBreakdown, dimension "initiator" "Unknown") ].

(** X16. In each of the eight breakdowns no value is listed twice, and
    the count listed with a value is the number of tickets of the batch
    that have this value in the dimension (the fallback label standing for
    an empty or missing field). *)
Theorem breakdown_counts_tickets (data : list TicketData) :
  List.Forall (fun fk => counted (snd fk) data (fst fk data)) (untruncated ++ truncated).
Proof.
  unfold untruncated, truncated. simpl app.
  repeat (apply List.Forall_cons; [simpl fst; simpl snd|]); [..|apply List.Forall_nil];
    first [ apply aggregated_counted
          | apply counted_firstn, aggregated_counted ].
Qed.

(** X17. The category, priority, status and cluster breakdowns list the
    value of every ticket of the batch. *)
Theorem full_breakdowns_cover_every_ticket (data : list TicketData) (t : TicketData) :
  In t data ->
  List.Forall (fun fk => In (snd fk t) (map category (fst fk data))) untruncated.
Proof.
  intros H. unfold untruncated.
  repeat (apply List.Forall_cons; [simpl fst; simpl snd|]); [..|apply List.Forall_nil];
    now apply aggregated_covers.
Qed.

(** X18. The priority breakdown is in the order P1, P2, P3, P4,
    Unassigned, values outside this list first; the seven other
    breakdowns are in descending order of count. *)
Theorem breakdowns_are_ordered (data : list TicketData) :
  StronglySorted byPriority (calculatePriorityBreakdown data)
  /\ List.Forall (fun f => StronglySorted byCount (f data))
       [ calculateCategoryBreakdown; calculateStatusBreakdown; calculateClusterBreakdown;
         calculateAffiliateBreakdown; calculateRecordTypeBreakdown;
         calculateSupportGroupBreakdown; calculateInitiatorBreakdown ].
Proof.
  split.
  - unfold calculatePriorityBreakdown.
    apply (sort_sorted (fun e => indexOf priorityOrder (category e)) byPriorityOrder
             (fun _ => True)); [reflexivity | apply always].
  - repeat (apply List.Forall_cons; [|]); [..|apply List.Forall_nil];
      first [apply sorted_by_count | apply truncated_by_count].
Qed.

Lemma dropped_is_smaller key n data t e :
  In t data ->
  In e (sliceTo n (aggregated key byCountDesc data)) ->
  ~ In (key t) (map category (sliceTo n (aggregated key byCountDesc data))) ->
  occurrences key data (key t) <= bcount e.
Proof.
  intros Ht He Hn.
  pose proof (aggregated_covers key byCountDesc data t Ht) as C.
  apply in_map_iff in C. destruct C as [e' [Ec Ie]].
  destruct (aggregated_counted key byCountDesc data) as [_ F].
  rewrite List.Forall_forall in F. pose proof (F e' Ie) as Fe. rewrite Ec in Fe.
  rewrite <- Fe.
  rewrite <- (firstn_skipn n (aggregated key byCountDesc data)) in Ie.
  apply in_app_or in Ie. destruct Ie as [Ie | Ie].
  - exfalso. apply Hn. rewrite <- Ec. now apply in_map.
  - pose proof (sorted_split (fun e => - bcount e) n _ e e'
                  (sorted_desc _) He Ie) as S.
    simpl in S. lia.
Qed.

(** X19. What the affiliate, record type, support group and initiator
    breakdowns leave out is never larger than what they list: a ticket
    whose value is not listed has a value that occurs at most as often as
    every listed one. *)
Theorem truncation_drops_the_smallest (data : list TicketData) (t : TicketData) :
  In t data ->
  List.Forall
    (fun fk =>
       ~ In (snd fk t) (map category (fst fk data)) ->
       List.Forall (fun e => occurrences (snd fk) data (snd fk t) <= bcount e) (fst fk data))
    truncated.
Proof.
  intros H. unfold truncated.
  repeat (apply List.Forall_cons; [simpl fst; simpl snd|]); [..|apply List.Forall_nil];
    intros N; apply List.Forall_forall; intros e He;
    now apply (dropped_is_smaller _ _ data t e H He N).
Qed.

Lemma full_breakdowns_cover_every_ticket_witness :
  List.Forall (fun fk => In (snd fk (Ticket.set emptyTicket "status" "Closed"))
                           (map category (fst fk threeTickets))) untruncated.
Proof.
  apply (full_breakdowns_cover_every_ticket threeTickets).
  simpl. right. right. left. reflexivity.
Defined.

Lemma truncation_drops_the_smallest_witness :
  List.Forall
    (fun fk =>
       ~ In (snd fk (Ticket.set emptyTicket "affiliate" "A16"))
            (map category (fst fk sixteenAffiliates)) ->
       List.Forall
         (fun e => occurrences (snd fk) sixteenAffiliates
                     (snd fk (Ticket.set emptyTicket "affiliate" "A16")) <= bcount e)
         (fst fk sixteenAffiliates))
    truncated.
Proof.
  apply (truncation_drops_the_smallest sixteenAffiliates).
  unfold sixteenAffiliates. apply in_map. simpl. do 15 right. left. reflexivity.
Defined.

End BreakdownCounts.


(* ===================================================================== *)
(** * The drill-down and the breakdown it is opened from *)
(* ===================================================================== *)

Module DrillDownFacts.
Import JsString Ticket JsArray Breakdown BreakdownFacts BreakdownCounts Dashboard.

(** The modal opened from an entry shows as many tickets as the entry
    counts. *)
Definition opens (tickets : list TicketData) (type : DrillDownType) (e : CategoryBreakdown)
  : Prop :=
  Z.of_nat (length (openDrillDown tickets type (category e))) = bcount e.

Lemma getOr_fallback t k f1 f2 item :
  item <> f1 -> item <> f2 ->
  String.eqb (getOr t k f1) item = String.eqb (getOr t k f2) item.
Proof.
  intros N1 N2. unfold getOr.
  assert (E1 : String.eqb f1 item = false) by (apply String.eqb_neq; congruence).
  assert (E2 : String.eqb f2 item = false) by (apply String.eqb_neq; congruence).
  destruct (get t k) as [s|]; [destruct (truthy s)|]; congruence.
Qed.

Lemma filter_none {A} (f : A -> bool) l :
  (forall x, In x l -> f x = false) -> List.filter f l = [].
Proof.
  induction l as [|x r IH]; intros H; simpl; [reflexivity|].
  rewrite (H x (or_introl eq_refl)). apply IH. intros y Hy. apply H. now right.
Qed.

(** X20. Opening the drill-down from an entry of the priority or the
    status breakdown shows exactly the tickets the entry counts; from an
    entry of the category breakdown it does so for every category other
    than the two fallback labels. *)
Theorem drill_down_matches_count (tickets : list TicketData) :
  List.Forall (opens tickets ofPriority) (calculatePriorityBreakdown tickets)
  /\ List.Forall (opens tickets ofStatus) (calculateStatusBreakdown tickets)
  /\ List.Forall
       (fun e => category e <> "Uncategorized" -> category e <> "Unknown" ->
                 opens tickets ofCategory e)
       (calculateCategoryBreakdown tickets).
Proof.
  split; [|split].
  - destruct (aggregated_counted (dimension "priority" "Unassigned") byPriorityOrder tickets)
      as [_ F].
    eapply List.Forall_impl; [|exact F]. intros e He. unfold opens. now rewrite He.
  - destruct (aggregated_counted (dimension "status" "Unknown") byCountDesc tickets)
      as [_ F].
    eapply List.Forall_impl; [|exact F]. intros e He. unfold opens. now rewrite He.
  - destruct (aggregated_counted (dimension "third_lvl_category" "Uncategorized")
                byCountDesc tickets) as [_ F].
    eapply List.Forall_impl; [|exact F]. intros e He N1 N2. unfold opens. rewrite He.
    unfold occurrences, openDrillDown, dimension. do 2 f_equal.
    apply filter_ext. intros t. now apply getOr_fallback.
Qed.

(** X21. The category breakdown files a ticket without a category under
    "Uncategorized", the drill-down looks for it under "Unknown": when
    no ticket carries the literal category "Uncategorized", the entry of
    that name counts at least one ticket and its drill-down shows none. *)
Theorem uncategorized_drill_down_is_empty (tickets : list TicketData) (t : TicketData) :
  In t tickets ->
  missing t "third_lvl_category" = true ->
  (forall u, In u tickets -> get u "third_lvl_category" <> Some "Uncategorized") ->
  (exists e, In e (calculateCategoryBreakdown tickets)
             /\ category e = "Uncategorized" /\ 0 < bcount e)
  /\ openDrillDown tickets ofCategory "Uncategorized" = [].
Proof.
  intros Ht Hm Hn. split.
  - pose proof (aggregated_covers (dimension "third_lvl_category" "Uncategorized")
                  byCountDesc tickets t Ht) as C.
    apply in_map_iff in C. destruct C as [e [Ec Ie]].
    exists e. split; [exact Ie|]. split.
    + rewrite Ec. unfold dimension, getOr. unfold missing in Hm.
      destruct (get t "third_lvl_category") as [s|]; [|reflexivity].
      apply negb_true_iff in Hm. now rewrite Hm.
    + pose proof (aggregated_entryOf (dimension "third_lvl_category" "Uncategorized")
                    byCountDesc tickets) as F.
      rewrite List.Forall_forall in F. now apply F.
  - apply filter_none. intros u Hu. apply String.eqb_neq.
    specialize (Hn u Hu). unfold getOr.
    destruct (get u "third_lvl_category") as [s|]; [|discriminate].
    destruct (truthy s); [congruence | discriminate].
Qed.

Lemma uncategorized_drill_down_is_empty_witness :
  (exists e, In e (calculateCategoryBreakdown threeTickets)
             /\ category e = "Uncategorized" /\ 0 < bcount e)
  /\ openDrillDown threeTickets ofCategory "Uncategorized" = [].
Proof.
  apply (uncategorized_drill_down_is_empty threeTickets
           (Ticket.set emptyTicket "status" "Closed")).
  - simpl. right. right. left. reflexivity.
  - reflexivity.
  - intros u [<- | [<- | [<- | []]]]; vm_compute; discriminate.
Defined.

End DrillDownFacts.

(* ===================================================================== *)
(** * The weekly trend *)
(* ===================================================================== *)

Module WeeklyTrendFacts.
Import JsString Ticket JsArray Breakdown BreakdownFacts BreakdownCounts Dashboard.

(** A ticket the weekly trend counts, and the week it is counted in. *)
Definition labelled (t : TicketData) : bool := negb (missing t "week_label").
Definition labelOf (t : TicketData) : string := getOr t "week_label" "".

Lemma label_cases t :
  (exists l, get t "week_label" = Some l /\ truthy l = true
             /\ labelled t = true /\ labelOf t = l)
  \/ ((forall l, get t "week_label" = Some l -> truthy l = false) /\ labelled t = false).
Proof.
  unfold labelled, missing, labelOf, getOr.
  destruct (get t "week_label") as [l|]; [destruct (truthy l) eqn:T|].
  - left. exists l. split; [reflexivity|]. split; [exact T|]. split; reflexivity.
  - right. split; [now intros ? [= <-] | reflexivity].
  - right. split; [discriminate | reflexivity].
Qed.

Lemma weekTally_from data m :
  fold_left
    (fun weekMap ticket =>
       match get ticket "week_label" with
       | Some week_label =>
         if truthy week_label
         then mapSet weekMap week_label (mapGetOr0 weekMap week_label + 1)
         else weekMap
       | None => weekMap
       end) data m
  = fold_left (fun m t => mapSet m (labelOf t) (mapGetOr0 m (labelOf t) + 1))
      (List.filter labelled data) m.
Proof.
  revert m. induction data as [|t r IH]; intros m; [reflexivity|].
  simpl fold_left. simpl List.filter.
  destruct (label_cases t) as [(l & G & T & L & O) | [G L]]; rewrite L.
  - rewrite G, T. simpl fold_left. rewrite O. apply IH.
  - destruct (get t "week_label") as [l|]; [|apply IH].
    specialize (G l eq_refl). rewrite G. apply IH.
Qed.

Lemma weekTally_tally data : weekTally data = tally labelOf (List.filter labelled data).
Proof. unfold weekTally, tally. apply weekTally_from. Qed.

Lemma labelled_truthy t : labelled t = true -> truthy (labelOf t) = true.
Proof.
  destruct (label_cases t) as [(l & G & T & L & O) | [G L]]; [now rewrite O | congruence].
Qed.


Lemma chart_click_counts data p :
  truthy p = true ->
  length (handleChartClick data p)
  = length (List.filter (fun t => String.eqb (labelOf t) p) (List.filter labelled data)).
Proof.
  intros T. unfold handleChartClick.
  induction data as [|t r IH]; [reflexivity|].
  simpl List.filter.
  destruct (label_cases t) as [(l & G & Tl & L & O) | [G L]]; rewrite L.
  - rewrite G. simpl List.filter. rewrite O.
    destruct (String.eqb l p); simpl; now rewrite IH.
  - destruct (get t "week_label") as [l|]; [|exact IH].
    specialize (G l eq_refl).
    assert (E : String.eqb l p = false).
    { apply String.eqb_neq. intros ->. congruence. }
    now rewrite E.
Qed.

(** The periods of a trend, as [entries] gives the categories. *)
Definition points (m : list (string * Z)) : list TrendData :=
  map (fun '(period, count) => mkTrend period count) m.

Lemma periods_of_points m : map period (points m) = map fst m.
Proof. induction m as [|[k v] r IH]; simpl; [reflexivity | now rewrite IH]. Qed.

Lemma trend_perm data :
  Permutation.Permutation (calculateWeeklyTrend data)
    (points (tally labelOf (List.filter labelled data))).
Proof. unfold calculateWeeklyTrend. rewrite weekTally_tally. apply sort_perm. Qed.

Lemma point_member data p :
  In p (points (tally labelOf (List.filter labelled data))) ->
  truthy (period p) = true
  /\ 0 < count p
  /\ count p = Z.of_nat (length (handleChartClick data (period p))).
Proof.
  intros H. apply in_map_iff in H. destruct H as [[k v] [<- H]]. simpl.
  assert (K : In k (map labelOf (List.filter labelled data))).
  { apply tally_keys. change k with (fst (k, v)). now apply in_map. }
  apply in_map_iff in K. destruct K as [t [<- Ht]].
  apply filter_In in Ht. destruct Ht as [_ Lt].
  pose proof (labelled_truthy t Lt) as T.
  split; [exact T|]. split.
  - pose proof (positiveVals_tally labelOf (List.filter labelled data)) as Pv.
    unfold positiveVals in Pv. rewrite List.Forall_forall in Pv.
    apply (Pv _ H).
  - rewrite (tally_member _ _ _ _ H). unfold occurrences.
    now rewrite chart_click_counts.
Qed.

(** The tickets a trend accounts for. *)
Definition ticketsCounted (trend : list TrendData) : Z :=
  fold_right (fun p acc => count p + acc) 0 trend.

Lemma ticketsCounted_perm l l' :
  Permutation.Permutation l l' -> ticketsCounted l = ticketsCounted l'.
Proof. induction 1; simpl; lia. Qed.

Lemma ticketsCounted_points m : ticketsCounted (points m) = sumVals m.
Proof. induction m as [|[k v] r IH]; simpl; [reflexivity | now rewrite IH]. Qed.

(** X22. The weekly trend has one point for each week label, the count
    of a point is positive and is the number of tickets a click on the
    point shows, and the counts add up to the number of tickets that
    carry a week label. *)
Theorem weekly_trend_counts (data : list TicketData) :
  List.NoDup (map period (calculateWeeklyTrend data))
  /\ List.Forall
       (fun p => 0 < count p
                 /\ count p = Z.of_nat (length (handleChartClick data (period p))))
       (calculateWeeklyTrend data)
  /\ ticketsCounted (calculateWeeklyTrend data)
     = Z.of_nat (length (List.filter labelled data)).
Proof.
  pose proof (trend_perm data) as Pm. split; [|split].
  - eapply Permutation.Permutation_NoDup.
    + apply Permutation.Permutation_map. symmetry. exact Pm.
    + rewrite periods_of_points. apply tally_keys.
  - eapply Permutation.Permutation_Forall; [symmetry; exact Pm|].
    apply List.Forall_forall. intros p Hp.
    destruct (point_member data p Hp) as (_ & A & B). now split.
  - rewrite (ticketsCounted_perm _ _ Pm), ticketsCounted_points, sumVals_tally.
    reflexivity.
Qed.

(** ** The order of the weeks *)

Definition chars (d : Decimal.uint) : list ascii :=
  list_ascii_of_string (NilEmpty.string_of_uint d).





















End WeeklyTrendFacts.

(* ===================================================================== *)
(** * The normaliser and the highlighted categories *)
(* ===================================================================== *)

Module HighlightFacts.
Import JsString JsStringFacts CategoryNormalizer CategoryNormalizerFacts HighlightedCategories.

(** [(rawCategory || '').trim()] *)
Definition inputOf (raw : option string) : string :=
  trim (match raw with Some r => r | None => "" end).

(** X24. Whatever the service, what [normalizeCategory] returns has no
    white space around it. *)
Theorem normalizeCategory_result_is_trimmed (service : string) (raw : option string) :
  trim (normalizeCategory service raw) = normalizeCategory service raw.
Proof.
  remember (normalizeCategory service raw) as r eqn:Hr.
  unfold normalizeCategory in Hr. cbv zeta in Hr.
  split_conditions Hr; subst r; try (vm_compute; reflexivity); apply trim_idem.
Qed.

Ltac decide_service H :=
  repeat match type of H with
         | context [String.eqb ?a ?b] =>
           is_ground a; is_ground b;
           let v := eval vm_compute in (String.eqb a b) in
           change (String.eqb a b) with v in H
         end;
  cbv iota in H.

(** X25. For each of the five services, [normalizeCategory] returns the
    trimmed input or one of the highlighted categories of this service,
    in the spelling [isHighlightedCategory] accepts. *)
Theorem normalizeCategory_keeps_or_highlights (serviceKey : ServiceKey) (raw : option string) :
  normalizeCategory (keyName serviceKey) raw = inputOf raw
  \/ (In (normalizeCategory (keyName serviceKey) raw) (HIGHLIGHTED_CATEGORIES serviceKey)
      /\ isHighlightedCategory serviceKey (normalizeCategory (keyName serviceKey) raw) = true).
Proof.
  remember (normalizeCategory (keyName serviceKey) raw) as r eqn:Hr.
  unfold normalizeCategory in Hr. cbv zeta in Hr. fold (inputOf raw) in Hr.
  destruct serviceKey; cbn [keyName] in Hr; decide_service Hr;
    split_conditions Hr; subst r;
    first [ left; reflexivity
          | left; symmetry; apply String.eqb_eq; assumption
          | right; split; [simpl; auto 10 | vm_compute; reflexivity] ].
Qed.

Lemma existsb_member {A} (f : A -> bool) l :
  existsb f l = true -> exists x, In x l /\ f x = true.
Proof. intros H. apply existsb_exists in H. exact H. Qed.

Lemma lower_of_empty s h : toLowerCase h = toLowerCase s -> h <> "" -> s <> "".
Proof. intros E N ->. destruct h; [now elim N | discriminate E]. Qed.

(** X26. Every spelling of a highlighted category is normalised to the
    highlighted category itself: when [isHighlightedCategory] accepts a
    category, [normalizeCategory] returns the entry of the table that
    differs from it by letter case and surrounding white space only. *)
Theorem highlighted_spellings_are_normalised (serviceKey : ServiceKey) (category : string) :
  isHighlightedCategory serviceKey category = true ->
  exists h, In h (HIGHLIGHTED_CATEGORIES serviceKey)
            /\ toLowerCase h = toLowerCase (trim category)
            /\ normalizeCategory (keyName serviceKey) (Some category) = h.
Proof.
  unfold isHighlightedCategory. cbv zeta. intros H.
  apply existsb_member in H. destruct H as (h & Hin & E).
  apply String.eqb_eq in E. exists h. split; [exact Hin|]. split; [exact E|].
  unfold normalizeCategory. cbv zeta.
  remember (trim category) as input eqn:Hi. clear Hi category.
  destruct (String.eqb input "") eqn:Z.
  { apply String.eqb_eq in Z.
    destruct serviceKey; simpl in Hin;
      repeat (destruct Hin as [<- | Hin]; [subst input; discriminate E|]);
      contradiction. }
  rewrite <- E. clear E Z.
  destruct serviceKey; simpl in Hin;
    repeat (destruct Hin as [<- | Hin]; [vm_compute; reflexivity|]);
    contradiction.
Qed.

Lemma highlighted_spellings_are_normalised_witness :
  exists h, In h (HIGHLIGHTED_CATEGORIES ibps)
            /\ toLowerCase h = toLowerCase (trim "  ao UPDATE challenges ")
            /\ normalizeCategory (keyName ibps) (Some "  ao UPDATE challenges ") = h.
Proof.
  apply (highlighted_spellings_are_normalised ibps "  ao UPDATE challenges ").
  vm_compute. reflexivity.
Defined.

End HighlightFacts.

(* ===================================================================== *)
(** * The file check *)
(* ===================================================================== *)

Module FileFacts.
Import JsString FileReader.

Definition emptyFile : FileValidationError := mkError empty "File is empty".

Definition wrongFormat : FileValidationError :=
  mkError format
    "Invalid file format. Please upload an Excel file (.xlsx, .xls) or CSV file (.csv)".

(** X27. The MIME type of a file never decides: [validateExcelFile]
    gives the same answer whatever the type, and the only errors it
    returns are the empty file and the wrong extension. *)
Theorem mime_type_is_never_decisive (file : File.t) (otherType : string) :
  validateExcelFile (File.mk (File.size file) (File.name file) otherType)
  = validateExcelFile file
  /\ (forall e, validateExcelFile file = Some e -> e = emptyFile \/ e = wrongFormat).
Proof.
  unfold validateExcelFile. simpl File.size. simpl File.name. simpl File.type. cbv zeta.
  destruct (File.size file =? 0).
  - split; [reflexivity|]. intros e [= <-]. now left.
  - destruct (existsb (fun ext => endsWith (toLowerCase (File.name file)) ext)
                ALLOWED_EXTENSIONS).
    + simpl negb. rewrite !andb_false_r. split; [reflexivity | discriminate].
    + simpl negb. split; [reflexivity|]. intros e [= <-]. now right.
Qed.

End FileFacts.

(* ===================================================================== *)
(** * The import: parsed records with their weeks *)
(* ===================================================================== *)

Module ImportFacts.
Import JsString JsStringFacts Ticket JsDate ExcelParser RowParser.
Import RowParserFacts WeekAssignerFacts NormaliserFacts RowInvariants ExcelImport.

Section WithHost.
Variable host : Host.
Variable Papa_parse : string -> Papa.Outcome.
Variable Date_now : nat -> Z.

Lemma parsed_records_ok csvText :
  List.Forall recordOk (data (parseExcelData host Papa_parse Date_now csvText)).
Proof.
  destruct (data_of_parse host Papa_parse Date_now csvText)
    as [E | (result & warns & _ & E)]; rewrite E; [constructor|].
  apply processRows_ok. constructor.
Qed.

Lemma filter_empty {A} (f : A -> bool) l :
  List.filter f l = [] -> List.Forall (fun x => f x = false) l.
Proof.
  induction l as [|x r IH]; simpl; [constructor|].
  destruct (f x) eqn:E; [discriminate|]. intros H. constructor; auto.
Qed.

Lemma dated_records_get_weeks tickets :
  List.Forall (fun t => exists s, get t "request_time" = Some s /\ truthy s = true) tickets ->
  List.Forall (fun t => hasWeekLabel t = true) (calculateWeekNumbers host tickets).
Proof.
  intros D. unfold calculateWeekNumbers.
  destruct tickets as [|t0 r] eqn:Et; [constructor|]. rewrite <- Et in *.
  replace (length tickets =? 0)%nat with false by (subst; reflexivity).
  destruct (List.filter needsWeek tickets) as [|n ns] eqn:F.
  { simpl. apply filter_empty in F.
    eapply List.Forall_impl; [|exact F]. intros t Ht. simpl in Ht.
    rewrite needsWeek_hasWeekLabel in Ht. now apply negb_false_iff in Ht. }
  destruct (requestTimes host tickets) as [|d ds] eqn:R.
  { exfalso. assert (I : In t0 tickets) by (subst; now left).
    rewrite List.Forall_forall in D. destruct (D t0 I) as (s & G & T).
    now apply (requestTimes_nonempty host tickets t0 s I G T). }
  simpl. apply List.Forall_map.
  eapply List.Forall_impl; [|exact D]. intros t (s & G & T). simpl.
  destruct (hasWeekLabel t) eqn:L.
  - now rewrite (assignWeek_labelled host _ t L).
  - rewrite (assignWeek_assigned host _ t s L G T). cbv zeta.
    unfold hasWeekLabel, get. simpl fields. rewrite lookup_insert_eq.
    apply week_label_not_blank.
Qed.

(** X28. What the import dialog keeps of a text that parses without an
    error: the records of the parser, as many, each with a week label
    that is not blank; the errors and the warnings are the parser's. *)
Theorem imported_records_have_weeks (csvText : string) :
  List.Forall (fun t => hasWeekLabel t = true)
    (data (parsedResult host Papa_parse Date_now csvText))
  /\ length (data (parsedResult host Papa_parse Date_now csvText))
     = length (data (parseExcelData host Papa_parse Date_now csvText))
  /\ errors (parsedResult host Papa_parse Date_now csvText)
     = errors (parseExcelData host Papa_parse Date_now csvText)
  /\ warnings (parsedResult host Papa_parse Date_now csvText)
     = warnings (parseExcelData host Papa_parse Date_now csvText).
Proof.
  unfold parsedResult. cbv zeta.
  destruct (0 <? length (errors (parseExcelData host Papa_parse Date_now csvText)))%nat eqn:E.
  - split; [|repeat split].
    apply Nat.ltb_lt in E.
    destruct (parseExcelData_cases host Papa_parse Date_now csvText)
      as [(m & _ & D & _) | [(result & _ & _ & D & _) | (result & _ & _ & [[_ Z] | [D _]])]];
      try (rewrite D; constructor).
    rewrite Z in E. simpl in E. lia.
  - simpl. split; [|split; [|split; reflexivity]].
    + apply dated_records_get_weeks.
      eapply List.Forall_impl; [|apply parsed_records_ok].
      intros t (_ & _ & s & G & I). exists s. split; [exact G|].
      unfold truthy. apply negb_true_iff, String.eqb_neq. now apply isoInstant_not_empty.
    + destruct (calculateWeekNumbers_cases host
                  (data (parseExcelData host Papa_parse Date_now csvText)))
        as [-> | (_ & _ & _ & ->)]; [reflexivity | apply length_map].
Qed.

End WithHost.

End ImportFacts.
